(** * mini-agent: the two agent loops, embedded and verified

    Shallow embedding of [chain_of_thought_agent.py] (the free-text
    variant, [CotAgent]) and [function_call_agent.py] (the structured
    variant, [FunctionCallAgent]).

    Conventions of the embedding:
    - a Python [str] is a list of Unicode code points ([pystr]), so that
      [str.find], slicing and the offsets [+ 3], [+ 5], [+ 8] of the source
      count what Python counts;
    - a call that can raise returns an [outcome]: [Returned v],
      [Raised e] for an exception that derives from [Exception], or
      [Escaped b] for one that does not ([SystemExit] and the like);
      [try ... except Exception] is [try_except], which catches the
      first kind and lets the second pass;
    - mutable agent state is threaded explicitly;
    - what belongs to the Python runtime and not to the repository
      ([json.loads], [eval], [str()]) is the interface [PyRuntime]; a
      reference instance that parses JSON and evaluates integer arithmetic
      makes every definition executable. *)

From Stdlib Require Import List ZArith NArith Lia Bool String Ascii.
From Stdlib Require Import DecimalString.
Import ListNotations.
Local Open Scope Z_scope.
Set Warnings "-register-all".

(* ================================================================= *)
(** ** Python strings *)

Module PyStr.

(** A Python string: its code points, in order. *)
Definition pystr := list N.

(** UTF-8 decoding of the bytes of a source literal. *)
Fixpoint utf8_decode (bs : list N) : pystr :=
  match bs with
  | [] => []
  | b0 :: r0 =>
    if (b0 <? 128)%N then b0 :: utf8_decode r0
    else match r0 with
    | [] => [b0]
    | b1 :: r1 =>
      if (b0 <? 224)%N
      then ((b0 - 192) * 64 + (b1 - 128))%N :: utf8_decode r1
      else match r1 with
      | [] => [b0; b1]
      | b2 :: r2 =>
        if (b0 <? 240)%N
        then ((b0 - 224) * 4096 + (b1 - 128) * 64 + (b2 - 128))%N
               :: utf8_decode r2
        else match r2 with
        | [] => [b0; b1; b2]
        | b3 :: r3 =>
          ((b0 - 240) * 262144 + (b1 - 128) * 4096
           + (b2 - 128) * 64 + (b3 - 128))%N :: utf8_decode r3
        end
      end
    end
  end.

Fixpoint bytes_of (s : string) : list N :=
  match s with
  | EmptyString => []
  | String a r => N_of_ascii a :: bytes_of r
  end.

(** [lit "..."] is the Python string written by that source literal. *)
Definition lit (s : string) : pystr := utf8_decode (bytes_of s).

(** The same, with every ['] of [s] standing for a double quote, which
    a literal of this file cannot hold. *)
Definition dq (s : string) : pystr :=
  map (fun c => if (c =? 39)%N then 34%N else c) (lit s).

(** The line feed, written [\n] in the source. *)
Definition LF : N := 10%N.

Fixpoint eqb (a b : pystr) : bool :=
  match a, b with
  | [], [] => true
  | x :: a', y :: b' => N.eqb x y && eqb a' b'
  | _, _ => false
  end.

(** [s.startswith(pat)] *)
Fixpoint startswith (pat s : pystr) : bool :=
  match pat, s with
  | [], _ => true
  | _ :: _, [] => false
  | p :: pat', c :: s' => N.eqb p c && startswith pat' s'
  end.

(** First position, counted from [off], at which [pat] occurs in [s]. *)
Fixpoint find_aux (pat s : pystr) (off : Z) : Z :=
  if startswith pat s then off
  else match s with
       | [] => -1
       | _ :: s' => find_aux pat s' (off + 1)
       end.

Definition len (s : pystr) : Z := Z.of_nat (List.length s).

(** Python clamps the bounds of a slice (and the start of a search):
    a negative bound counts from the end, and the result stays within
    [0 .. len]. *)
Definition clamp (n i : Z) : Z :=
  if i <? 0 then Z.max 0 (n + i) else Z.min i n.

(** [text.find(pat, start)]: the lowest index [>= start] where [pat]
    occurs, or [-1]. *)
Definition find_from (pat text : pystr) (start : Z) : Z :=
  if len text <? start then -1
  else let s := clamp (len text) start in
       find_aux pat (skipn (Z.to_nat s) text) s.

(** [text.find(pat)] *)
Definition find (pat text : pystr) : Z := find_from pat text 0.

(** [pat in text] *)
Definition contains (pat text : pystr) : bool := 0 <=? find pat text.

(** [text[a:b]] *)
Definition slice (text : pystr) (a b : Z) : pystr :=
  let a' := clamp (len text) a in
  let b' := clamp (len text) b in
  firstn (Z.to_nat (b' - a')) (skipn (Z.to_nat a') text).

(** [text[a:]] *)
Definition slice_from (text : pystr) (a : Z) : pystr :=
  skipn (Z.to_nat (clamp (len text) a)) text.

(** [str.isspace] on one code point: the characters [str.strip()]
    removes. *)
Definition isspace (c : N) : bool :=
  ((9 <=? c) && (c <=? 13) || (28 <=? c) && (c <=? 32)
   || (c =? 133) || (c =? 160) || (c =? 5760)
   || (8192 <=? c) && (c <=? 8202)
   || (c =? 8232) || (c =? 8233) || (c =? 8239) || (c =? 8287)
   || (c =? 12288))%N.

Fixpoint lstrip (s : pystr) : pystr :=
  match s with
  | c :: s' => if isspace c then lstrip s' else s
  | [] => []
  end.

Definition rstrip (s : pystr) : pystr := rev (lstrip (rev s)).

(** [s.strip()] *)
Definition strip (s : pystr) : pystr := rstrip (lstrip s).

(** Truth value of a string: non-empty. *)
Definition truthy (s : pystr) : bool :=
  match s with [] => false | _ :: _ => true end.

(** [sep.join(parts)] *)
Fixpoint join (sep : pystr) (parts : list pystr) : pystr :=
  match parts with
  | [] => []
  | [p] => p
  | p :: rest => p ++ sep ++ join sep rest
  end.

(** [str(n)] for an integer. *)
Definition of_Z (z : Z) : pystr :=
  bytes_of (NilZero.string_of_int (Z.to_int z)).

End PyStr.
Import PyStr.

Example lit_final_marker :
  lit "最终答案：" = [26368; 32456; 31572; 26696; 65306]%N.
Proof. reflexivity. Qed.

(* ================================================================= *)
(** ** Exceptions and results *)

Inductive exn_class :=
| TypeError | AttributeError | IndexError | NameError | SyntaxError
| ZeroDivisionError | JSONDecodeError | ValidationError | APIError.

(** An exception object of one of the classes above, which all derive
    from [Exception]; [str(e)] is [exn_msg e]. *)
Record exn := Exn { exn_cls : exn_class; exn_msg : pystr }.

(** The exceptions that do not derive from [Exception]: an
    [except Exception] clause does not catch them. *)
Inductive base_exn := SystemExit | KeyboardInterrupt | GeneratorExit.

(** How a call ends: it returns, it raises an exception that
    [except Exception] catches, or it raises one that passes every
    [except Exception] on its way out. *)
Inductive outcome (A : Type) :=
| Returned (a : A)
| Raised (e : exn)
| Escaped (b : base_exn).
Arguments Returned {A} a.
Arguments Raised {A} e.
Arguments Escaped {A} b.

Definition obind {A B} (c : outcome A) (k : A -> outcome B) : outcome B :=
  match c with
  | Returned a => k a
  | Raised e => Raised e
  | Escaped b => Escaped b
  end.

(** [try: c  except Exception as e: h e] *)
Definition try_except {A} (c : outcome A) (h : exn -> outcome A) : outcome A :=
  match c with
  | Returned a => Returned a
  | Raised e => h e
  | Escaped b => Escaped b
  end.

Definition returns {A} (c : outcome A) : Prop := exists a, c = Returned a.

Declare Scope outcome_scope.
Delimit Scope outcome_scope with out.
Notation "x <- c ;; k" := (obind c (fun x => k))
  (at level 61, c at next level, right associativity) : outcome_scope.

(* ================================================================= *)
(** ** JSON values, as Python objects *)

(** What [json.loads] builds. A float is carried by what the program can
    observe of it: its truth value and its [str()]. A [dict] keeps its
    items in insertion order. *)
Inductive json :=
| JNull
| JBool (b : bool)
| JInt (z : Z)
| JFloat (nonzero : bool) (text : pystr)
| JStr (s : pystr)
| JArr (items : list json)
| JObj (items : list (pystr * json)).

Definition kwargs := list (pystr * json).

(** Truth value of an object: [not x] is [negb (json_truthy x)]. *)
Definition json_truthy (j : json) : bool :=
  match j with
  | JNull => false
  | JBool b => b
  | JInt z => negb (z =? 0)
  | JFloat nz _ => nz
  | JStr s => truthy s
  | JArr l => match l with [] => false | _ => true end
  | JObj l => match l with [] => false | _ => true end
  end.

(** [d[key]] when present. *)
Fixpoint lookup (key : pystr) (d : kwargs) : option json :=
  match d with
  | [] => None
  | (k, v) :: d' => if PyStr.eqb k key then Some v else lookup key d'
  end.

(** [d.get(key, default)] *)
Definition dict_get (d : kwargs) (key : pystr) (default : json) : json :=
  match lookup key d with
  | Some v => v
  | None => default
  end.

(** Python type name of a value, for messages. *)
Definition type_name (j : json) : pystr :=
  match j with
  | JNull => lit "NoneType"
  | JBool _ => lit "bool"
  | JInt _ => lit "int"
  | JFloat _ _ => lit "float"
  | JStr _ => lit "str"
  | JArr _ => lit "list"
  | JObj _ => lit "dict"
  end.

(** [x.get]: only a [dict] has the attribute. *)
Definition as_dict (j : json) : outcome kwargs :=
  match j with
  | JObj d => Returned d
  | _ => Raised (Exn AttributeError
                  (lit "'" ++ type_name j ++ lit "' object has no attribute 'get'"))
  end.

(** [x == s] for a string [s]: only an equal string is equal. *)
Definition eq_str (s : pystr) (j : json) : bool :=
  match j with
  | JStr t => PyStr.eqb s t
  | _ => false
  end.

(* ================================================================= *)
(** ** The Python runtime and libraries the agents call *)

(** What is called but not defined in the repository.
    - [json_loads s]: [json.loads(s)], raising [JSONDecodeError] on text
      that is not JSON;
    - [py_eval e]: [eval(e, {"__builtins__": {}}, {})] followed by the
      conversion of its value by the f-string, ending as either ends. The
      empty [__builtins__] takes the built-in names away, not the objects:
      an expression reaches classes and functions through the objects it
      builds, and so can raise whatever it likes, [SystemExit] included;
      that is [Escaped];
    - [py_str v]: [str(v)], as an f-string field formats [v]; a string
      is its own [str()];
    - [pydantic_str], [pydantic_dict]: validation of a model field
      annotated [str], respectively [Dict[str, Any]], returning the stored
      value or raising [ValidationError]. *)
Class PyRuntime := {
  json_loads : pystr -> outcome json;
  py_eval : pystr -> outcome pystr;
  py_str : json -> pystr;
  pydantic_str : json -> outcome pystr;
  pydantic_dict : json -> outcome kwargs;
  py_str_str : forall s, py_str (JStr s) = s
}.

(* ================================================================= *)
(** ** Code that mutates state and may raise *)

(** A computation over a store [S] that returns, raises or lets an
    exception escape; what was written to the store before an exception
    stays written. *)
Definition SE (S A : Type) : Type := S -> outcome A * S.

Definition ret {S A} (a : A) : SE S A := fun s => (Returned a, s).

Definition bind {S A B} (c : SE S A) (k : A -> SE S B) : SE S B :=
  fun s => match c s with
           | (Returned a, s') => k a s'
           | (Raised e, s') => (Raised e, s')
           | (Escaped b, s') => (Escaped b, s')
           end.

Definition lift {S A} (o : outcome A) : SE S A := fun s => (o, s).
Definition gets {S A} (f : S -> A) : SE S A := fun s => (Returned (f s), s).
Definition modify {S} (f : S -> S) : SE S unit := fun s => (Returned tt, f s).

Declare Scope se_scope.
Delimit Scope se_scope with se.
Notation "x <- c ;; k" := (bind c (fun x => k))
  (at level 61, c at next level, right associativity) : se_scope.
Notation "c ;; k" := (bind c (fun _ => k))
  (at level 61, right associativity) : se_scope.

(* ================================================================= *)
(** ** Calling a method with keyword arguments *)

Definition DQ : N := 34%N.

(** Calling [f] with [** arg]: the object after the stars must be a
    mapping. *)
Definition call_kwargs {A} (fname : pystr) (f : kwargs -> outcome A)
    (arg : json) : outcome A :=
  match arg with
  | JObj d => f d
  | _ => Raised (Exn TypeError
           (fname ++ lit "() argument after ** must be a mapping, not "
                  ++ type_name arg))
  end.

(** Binding the keywords of a call to a method [fname(self, param)]:
    every keyword has to be [param], and [param] has to be given. *)
Definition bind1 (fname param : pystr) (d : kwargs) : outcome json :=
  match List.find (fun kv => negb (PyStr.eqb (fst kv) param)) d with
  | Some (k, _) =>
      if PyStr.eqb k (lit "self")
      then Raised (Exn TypeError
             (fname ++ lit "() got multiple values for argument 'self'"))
      else Raised (Exn TypeError
             (fname ++ lit "() got an unexpected keyword argument '"
                    ++ k ++ lit "'"))
  | None =>
      match lookup param d with
      | Some v => Returned v
      | None => Raised (Exn TypeError
                  (fname ++ lit "() missing 1 required positional argument: '"
                         ++ param ++ lit "'"))
      end
  end.

(** [eval(x, ...)] on an object: only a string is source text. *)
Definition eval_obj `{PyRuntime} (x : json) : outcome pystr :=
  match x with
  | JStr e => py_eval e
  | _ => Raised (Exn TypeError
           (lit "eval() arg 1 must be a string, bytes or code object"))
  end.

(** The parameter schema both files give their tools: one required
    string property. *)
Definition schema (prop description : pystr) : json :=
  JObj [ (lit "type", JStr (lit "object"));
         (lit "properties",
          JObj [ (prop, JObj [ (lit "type", JStr (lit "string"));
                               (lit "description", JStr description) ]) ]);
         (lit "required", JArr [JStr prop]) ].

(* ================================================================= *)
(** ** chain_of_thought_agent.py *)

Module Cot.
Section WithRuntime.
Context {R : PyRuntime}.

Record ToolCall := { tc_name : pystr; tc_arguments : kwargs }.

Record Thought := { thought : pystr; reasoning : pystr; plan : list pystr }.

Record Observation :=
  { content : pystr; tool_calls : option (list ToolCall) }.

Record Action := { tool : pystr; tool_input : kwargs }.

Record AgentState := {
  thoughts : list Thought;
  observations : list Observation;
  actions : list Action;
  final_answer : option pystr
}.

(** [AgentState()] *)
Definition AgentState_new : AgentState :=
  {| thoughts := []; observations := []; actions := []; final_answer := None |}.

(** [Action(tool=..., tool_input=...)]: the fields are validated. *)
Definition Action_new (t i : json) : outcome Action :=
  (t' <- pydantic_str t ;;
   i' <- pydantic_dict i ;;
   Returned {| tool := t'; tool_input := i' |})%out.

(** [ToolCall(name=..., arguments=...)] *)
Definition ToolCall_new (n a : json) : outcome ToolCall :=
  (n' <- pydantic_str n ;;
   a' <- pydantic_dict a ;;
   Returned {| tc_name := n'; tc_arguments := a' |})%out.

Record BaseTool := {
  name : pystr;
  description : pystr;
  parameters : json;
  run_method : kwargs -> outcome pystr
}.

Definition CalculatorTool_run (d : kwargs) : outcome pystr :=
  (expression <- bind1 (lit "CalculatorTool.run") (lit "expression") d ;;
   try_except
     (result <- eval_obj expression ;;
      Returned (lit "计算结果: " ++ result))
     (fun e => Returned (lit "计算错误: " ++ exn_msg e)))%out.

Definition CalculatorTool : BaseTool :=
  {| name := lit "calculator";
     description := lit "用于执行数学计算";
     parameters := schema (lit "expression")
                     (lit "要计算的数学表达式，例如：3 + 5 * 2");
     run_method := CalculatorTool_run |}.

Definition SearchTool_run (d : kwargs) : outcome pystr :=
  (query <- bind1 (lit "SearchTool.run") (lit "query") d ;;
   Returned (lit "这是关于'" ++ py_str query
             ++ lit "'的搜索结果。在实际应用中，这里会返回真实的搜索结果。"))%out.

Definition SearchTool : BaseTool :=
  {| name := lit "search";
     description := lit "用于搜索信息";
     parameters := schema (lit "query") (lit "搜索关键词或问题");
     run_method := SearchTool_run |}.

(** [tool.run] called with [** tool_input] *)
Definition run_tool_method (t : BaseTool) (arg : json) : outcome pystr :=
  call_kwargs (lit "run") (run_method t) arg.

(** [tools or [CalculatorTool(), SearchTool()]] of [__init__]: no
    argument and an empty list both give the two built-in tools. *)
Definition tools_or_default (tools : option (list BaseTool)) : list BaseTool :=
  match tools with
  | Some (t :: ts) => t :: ts
  | _ => [CalculatorTool; SearchTool]
  end.

(** [self.max_iterations], set by [__init__] and never assigned again. *)
Definition max_iterations : nat := 5.

Definition indent : pystr := lit "        ".

Definition _get_system_prompt (tools : list BaseTool) : pystr :=
  join [LF] (
    [ lit "你是一个智能助手，使用思维链(Chain of Thought)来解决问题。";
      indent ++ lit "请按照以下步骤进行思考：";
      indent ++ lit "1. 分析问题并制定解决计划";
      indent ++ lit "2. 如果需要使用工具，请明确说明要使用哪个工具以及输入参数";
      indent ++ lit "3. 根据工具的返回结果进行观察和分析";
      indent ++ lit "4. 最终给出明确的答案";
      indent;
      indent ++ lit "你可以使用的工具：";
      indent ++ join [LF]
        (map (fun t => lit "- " ++ name t ++ lit ": " ++ description t) tools);
      indent;
      indent ++ lit "请始终按照以下格式输出：";
      indent ++ lit "```";
      indent ++ lit "思考：<你的思考过程>";
      indent ++ lit "计划：";
      indent ++ lit "- 第一步";
      indent ++ lit "- 第二步";
      indent ++ lit "...";
      indent;
      indent ++ lit "行动：";
      indent ++ lit "```json";
      indent ++ lit "{";
      indent ++ lit "    " ++ [DQ] ++ lit "tool" ++ [DQ] ++ lit ": "
             ++ [DQ] ++ lit "工具名称" ++ [DQ] ++ lit ",";
      indent ++ lit "    " ++ [DQ] ++ lit "tool_input" ++ [DQ] ++ lit ": {"
             ++ [DQ] ++ lit "参数名" ++ [DQ] ++ lit ": "
             ++ [DQ] ++ lit "参数值" ++ [DQ] ++ lit "}";
      indent ++ lit "}";
      indent ++ lit "```";
      indent;
      indent ++ lit "观察：<工具返回的结果>";
      indent;
      indent ++ lit "最终答案：<你的最终回答>";
      indent ]).

(** The fences of an action block: [```json\n] and [\n```]. *)
Definition FENCE_OPEN : pystr := lit "```json" ++ [LF].
Definition FENCE_CLOSE : pystr := LF :: lit "```".
Definition THOUGHT_MARK : pystr := lit "思考：".
Definition ANSWER_MARK : pystr := lit "最终答案：".

(** The result is a parsed object, or [JNull] for Python's [None]
    (which is also what the text [null] parses to). *)
Definition _extract_action (text : pystr) : outcome json :=
  try_except
    (let action_start := find FENCE_OPEN text + 8 in
     let action_end := find_from FENCE_CLOSE text action_start in
     if (action_start <? 8) || (action_end <? 0) then Returned JNull
     else
       let action_json := strip (slice text action_start action_end) in
       json_loads action_json)
    (fun e => Returned JNull).

Definition _extract_thought (text : pystr) : pystr :=
  let thought_start := find THOUGHT_MARK text + 3 in
  let thought_end := find_from [LF; LF] text thought_start in
  if thought_start <? 3 then []
  else
    let thought_end := if thought_end <? 0 then len text else thought_end in
    strip (slice text thought_start thought_end).

Definition _extract_final_answer (text : pystr) : option pystr :=
  if negb (contains ANSWER_MARK text) then None
  else
    let answer_start := find ANSWER_MARK text + 5 in
    Some (strip (slice_from text answer_start)).

(** The name looked up is whatever object the action carried. *)
Fixpoint _run_tool (tools : list BaseTool) (tool_name tool_input : json)
    : outcome pystr :=
  match tools with
  | t :: rest =>
      if eq_str (name t) tool_name
      then run_tool_method t tool_input
      else _run_tool rest tool_name tool_input
  | [] => Returned (lit "错误：找不到工具 '" ++ py_str tool_name ++ lit "'")
  end.


(** A message of the log sent to the model: [{"role": ..., "content": ...}]. *)
Record message := { role : pystr; msg_content : pystr }.

Definition system_msg (c : pystr) : message :=
  {| role := lit "system"; msg_content := c |}.
Definition user_msg (c : pystr) : message :=
  {| role := lit "user"; msg_content := c |}.
Definition assistant_msg (c : pystr) : message :=
  {| role := lit "assistant"; msg_content := c |}.

(** The remote model behind [client.chat.completions.create]: the text of
    the first choice for the [n]-th request of a run with the given
    messages, or the exception the request raises. *)
Variable client : nat -> list message -> outcome pystr.

(** The store of one [run]: [self.state], the local [messages], and the
    number of requests sent to the model so far. *)
Record run_state := {
  agent_state : AgentState;
  messages : list message;
  llm_calls : nat
}.

Definition on_agent (f : AgentState -> AgentState) (s : run_state) : run_state :=
  {| agent_state := f (agent_state s);
     messages := messages s;
     llm_calls := llm_calls s |}.

Definition append_thought (t : Thought) (a : AgentState) : AgentState :=
  {| thoughts := thoughts a ++ [t]; observations := observations a;
     actions := actions a; final_answer := final_answer a |}.

Definition append_action (x : Action) (a : AgentState) : AgentState :=
  {| thoughts := thoughts a; observations := observations a;
     actions := actions a ++ [x]; final_answer := final_answer a |}.

Definition append_observation (o : Observation) (a : AgentState) : AgentState :=
  {| thoughts := thoughts a; observations := observations a ++ [o];
     actions := actions a; final_answer := final_answer a |}.

Definition set_final_answer (f : pystr) (a : AgentState) : AgentState :=
  {| thoughts := thoughts a; observations := observations a;
     actions := actions a; final_answer := Some f |}.

Definition append_message (m : message) (s : run_state) : run_state :=
  {| agent_state := agent_state s;
     messages := messages s ++ [m];
     llm_calls := llm_calls s |}.

(** What [_call_llm] returns for the [n]-th request: the completion, or
    the stand-in text made from the exception of a failed request. *)
Definition response_text (n : nat) (msgs : list message) : outcome pystr :=
  try_except (client n msgs)
    (fun e => Returned (lit "调用语言模型时出错: " ++ exn_msg e)).

(** The response a round started in store [s] works on. *)
Definition round_response (s : run_state) : pystr :=
  match response_text (llm_calls s) (messages s) with
  | Returned t => t
  | _ => []
  end.

Definition count_call (s : run_state) : run_state :=
  {| agent_state := agent_state s;
     messages := messages s;
     llm_calls := S (llm_calls s) |}.

Definition _call_llm (msgs : list message) : SE run_state pystr :=
  fun s => (response_text (llm_calls s) msgs, count_call s).

(** Step 2 of a round: a thought that is not empty is recorded. *)
Definition note_thought (response : pystr) (s : run_state) : run_state :=
  let thought := _extract_thought response in
  if truthy thought
  then on_agent (append_thought
                   {| thought := thought; reasoning := []; plan := [] |}) s
  else s.

(** The store of a round after its steps 1 and 2: the request is
    counted and the thought recorded. *)
Definition entered (s : run_state) : run_state :=
  note_thought (round_response s) (count_call s).

(** Step 4 of a round of [run]: extract the action and execute it.
    Returning is the end of the loop body ([continue] or its last
    line). *)
Definition run_action (tools : list BaseTool) (response : pystr)
    : SE run_state unit :=
  (action <- lift (_extract_action response) ;;
   if negb (json_truthy action) then ret tt
   else
     d <- lift (as_dict action) ;;
     let tool_name := dict_get d (lit "tool") JNull in
     let tool_input := dict_get d (lit "tool_input") (JObj []) in
     a <- lift (Action_new tool_name tool_input) ;;
     modify (on_agent (append_action a)) ;;
     observation <- lift (_run_tool tools tool_name tool_input) ;;
     tc <- lift (ToolCall_new tool_name tool_input) ;;
     modify (on_agent (append_observation
                         {| content := observation;
                            tool_calls := Some [tc] |})) ;;
     modify (append_message (assistant_msg response)) ;;
     modify (append_message (user_msg (lit "观察：" ++ observation))))%se.

(** A final answer that is [None] or empty is not one: [if final_answer:]. *)
Definition answer_given (final : option pystr) : bool :=
  match final with
  | Some a => truthy a
  | None => false
  end.

(** One pass through the body of the loop of [run]: [Some a] when it
    returns [a], [None] when the loop goes on. *)
Definition run_round (tools : list BaseTool) : SE run_state (option pystr) :=
  (msgs <- gets messages ;;
   response <- _call_llm msgs ;;
   modify (note_thought response) ;;
   let final := _extract_final_answer response in
   match final with
   | Some a =>
       if truthy a
       then modify (on_agent (set_final_answer a)) ;; ret (Some a)
       else run_action tools response ;; ret None
   | None => run_action tools response ;; ret None
   end)%se.

Definition EXHAUSTED : pystr := lit "达到最大迭代次数，未能找到答案。".

(** [for i in range(n): ...] followed by the final [return]. *)
Fixpoint run_loop (tools : list BaseTool) (n : nat) : SE run_state pystr :=
  match n with
  | O => ret EXHAUSTED
  | S k =>
      (r <- run_round tools ;;
       match r with
       | Some a => ret a
       | None => run_loop tools k
       end)%se
  end.

(** [agent.run(query)] on an agent whose state is [st]: what the call
    returns or raises, and the store it leaves. *)
(** The store at the start of [run]: the state the agent has, and the
    log seeded with the prompt and the query. *)
Definition start (tools : list BaseTool) (st : AgentState) (query : pystr)
    : run_state :=
  {| agent_state := st;
     messages := [ system_msg (_get_system_prompt tools); user_msg query ];
     llm_calls := 0 |}.

Definition run (tools : list BaseTool) (st : AgentState) (query : pystr)
    : outcome pystr * run_state :=
  run_loop tools max_iterations (start tools st query).

End WithRuntime.
End Cot.

(* ================================================================= *)
(** ** function_call_agent.py *)

Module Fc.
Section WithRuntime.
Context {R : PyRuntime}.

Record Tool := {
  name : pystr;
  description : pystr;
  parameters : json;
  execute_method : kwargs -> outcome pystr
}.

Definition CalculatorTool_execute (d : kwargs) : outcome pystr :=
  (expression <- bind1 (lit "CalculatorTool.execute") (lit "expression") d ;;
   try_except
     (result <- eval_obj expression ;;
      Returned (lit "计算结果: " ++ result))
     (fun e => Returned (lit "计算错误: " ++ exn_msg e)))%out.

Definition CalculatorTool : Tool :=
  {| name := lit "calculator";
     description := lit "用于执行数学计算";
     parameters := schema (lit "expression")
                     (lit "要计算的数学表达式，例如：3 + 5 * 2");
     execute_method := CalculatorTool_execute |}.

Definition SearchTool_execute (d : kwargs) : outcome pystr :=
  (query <- bind1 (lit "SearchTool.execute") (lit "query") d ;;
   Returned (lit "这是关于'" ++ py_str query
             ++ lit "'的搜索结果。在实际应用中，这里会返回真实的搜索结果。"))%out.

Definition SearchTool : Tool :=
  {| name := lit "search";
     description := lit "用于搜索信息";
     parameters := schema (lit "query") (lit "搜索关键词或问题");
     execute_method := SearchTool_execute |}.

Definition tools_or_default (tools : option (list Tool)) : list Tool :=
  match tools with
  | Some (t :: ts) => t :: ts
  | _ => [CalculatorTool; SearchTool]
  end.

Definition max_iterations : nat := 5.

Definition indent : pystr := lit "        ".

Definition _get_system_prompt (tools : list Tool) : pystr :=
  join [LF] (
    [ lit "你是一个智能助手，可以使用工具来帮助用户解决问题。";
      indent ++ lit "你可以使用的工具：";
      indent ++ join [LF]
        (map (fun t => lit "- " ++ name t ++ lit ": " ++ description t) tools);
      indent;
      indent ++ lit "当需要调用工具时，请按照工具定义的格式提供参数。";
      indent ++ lit "工具调用完成后，我会将结果返回给你。";
      indent ]).

Definition _get_tools_schema (tools : list Tool) : list json :=
  map (fun t =>
         JObj [ (lit "type", JStr (lit "function"));
                (lit "function",
                 JObj [ (lit "name", JStr (name t));
                        (lit "description", JStr (description t));
                        (lit "parameters", parameters t) ]) ])
      tools.

(** An attribute that holds a string or [None], as an object. *)
Definition obj_of (x : option pystr) : json :=
  match x with
  | Some s => JStr s
  | None => JNull
  end.

Fixpoint _execute_tool (tools : list Tool) (tool_name arguments : json)
    : outcome pystr :=
  match tools with
  | t :: rest =>
      if eq_str (name t) tool_name
      then call_kwargs (lit "execute") (execute_method t) arguments
      else _execute_tool rest tool_name arguments
  | [] => Returned (lit "错误：找不到工具 '" ++ py_str tool_name ++ lit "'")
  end.

(** An entry of the list [tool_calls] that a round accumulates:
    [{"id": ..., "type": ..., "function": {"name": ..., "arguments": ...}}]. *)
Record tool_call := {
  id : option pystr;
  type_ : pystr;
  fn_name : option pystr;
  fn_arguments : pystr
}.

(** The entries of [self.conversation_history]. *)
Inductive hist_msg :=
| Msg (role content : pystr)
| MsgToolCalls (calls : list tool_call)
| MsgTool (tool_call_id : option pystr) (tool_name : option pystr)
          (content : pystr).

Definition tool_response (tc : tool_call) (content : pystr) : hist_msg :=
  MsgTool (id tc) (fn_name tc) content.

(** The body of the loop of [_process_tool_calls] for one call. *)
Definition process_tool_call (tools : list Tool) (tc : tool_call)
    : outcome hist_msg :=
  let tool_name := obj_of (fn_name tc) in
  try_except
    (arguments <- json_loads (fn_arguments tc) ;;
     result <- _execute_tool tools tool_name arguments ;;
     Returned (tool_response tc result))%out
    (fun e =>
       let error_msg := lit "执行工具 " ++ py_str tool_name
                        ++ lit " 时出错: " ++ exn_msg e in
       Returned (tool_response tc error_msg)).

Fixpoint _process_tool_calls (tools : list Tool) (tool_calls : list tool_call)
    : outcome (list hist_msg) :=
  match tool_calls with
  | [] => Returned []
  | tc :: rest =>
      (r <- process_tool_call tools tc ;;
       rs <- _process_tool_calls tools rest ;;
       Returned (r :: rs))%out
  end.

(** One tool-call delta of a streamed chunk. *)
Record tc_delta := {
  index : Z;
  d_id : option pystr;
  d_name : option pystr;
  d_arguments : option pystr
}.

(** [chunk.choices[0].delta] *)
Record delta := {
  d_content : option pystr;
  d_tool_calls : option (list tc_delta)
}.

(** Position of [lst[i]] in a list of length [n]: a negative index counts
    from the end, anything outside raises [IndexError]. *)
Definition py_index (n i : Z) : outcome nat :=
  if (0 <=? i) && (i <? n) then Returned (Z.to_nat i)
  else if (i <? 0) && (- n <=? i) then Returned (Z.to_nat (n + i))
  else Raised (Exn IndexError (lit "list index out of range")).

Fixpoint update_nth {A} (k : nat) (f : A -> A) (l : list A) : list A :=
  match l, k with
  | [], _ => []
  | x :: r, O => f x :: r
  | x :: r, S k' => x :: update_nth k' f r
  end.

Definition add_arguments (a : pystr) (tc : tool_call) : tool_call :=
  {| id := id tc; type_ := type_ tc; fn_name := fn_name tc;
     fn_arguments := fn_arguments tc ++ a |}.

(** The body of [for tool_call in delta.tool_calls] on the list
    accumulated so far. *)
Definition collect_tool_call (tool_calls : list tool_call) (d : tc_delta)
    : outcome (list tool_call) :=
  let tool_calls :=
    if Z.of_nat (List.length tool_calls) <=? index d
    then tool_calls ++ [ {| id := d_id d; type_ := lit "function";
                            fn_name := d_name d; fn_arguments := [] |} ]
    else tool_calls in
  match d_arguments d with
  | Some (c :: a) =>
      (k <- py_index (Z.of_nat (List.length tool_calls)) (index d) ;;
       Returned (update_nth k (add_arguments (c :: a)) tool_calls))%out
  | _ => Returned tool_calls
  end.


(** [for tool_call in delta.tool_calls: ...] *)
Fixpoint collect_tool_calls (tool_calls : list tool_call) (ds : list tc_delta)
    : outcome (list tool_call) :=
  match ds with
  | [] => Returned tool_calls
  | d :: rest =>
      (tool_calls' <- collect_tool_call tool_calls d ;;
       collect_tool_calls tool_calls' rest)%out
  end.

(** The remote model behind [client.chat.completions.create(...,
    stream=True)]: the deltas streamed for the [n]-th request of a run
    with the given history and tool schemas, or the exception the request
    raises. *)
Variable client : nat -> list hist_msg -> list json -> outcome (list delta).

(** The store of one [run], consumed to its end: the history, the
    fragments yielded to the caller so far, and the number of requests
    sent to the model. *)
Record fc_state := {
  conversation_history : list hist_msg;
  yielded : list pystr;
  api_calls : nat
}.

Definition append_history (ms : list hist_msg) (s : fc_state) : fc_state :=
  {| conversation_history := conversation_history s ++ ms;
     yielded := yielded s;
     api_calls := api_calls s |}.

(** [yield x] *)
Definition yield (x : pystr) : SE fc_state unit :=
  modify (fun s => {| conversation_history := conversation_history s;
                      yielded := yielded s ++ [x];
                      api_calls := api_calls s |}).

Definition count_call (s : fc_state) : fc_state :=
  {| conversation_history := conversation_history s;
     yielded := yielded s;
     api_calls := S (api_calls s) |}.

Definition create_stream (tools : list Tool) : SE fc_state (list delta) :=
  fun s =>
    (client (api_calls s) (conversation_history s) (_get_tools_schema tools),
     count_call s).

(** The locals [response_content] and [tool_calls] of a round. *)
Definition round_acc : Type := pystr * list tool_call.

(** The body of [for chunk in response]. *)
Definition process_chunk (acc : round_acc) (d : delta) : SE fc_state round_acc :=
  let '(response_content, tool_calls) := acc in
  (response_content <-
     match d_content d with
     | Some (c :: t) => yield (c :: t) ;; ret (response_content ++ c :: t)
     | _ => ret response_content
     end ;;
   tool_calls <-
     match d_tool_calls d with
     | Some (x :: xs) => lift (collect_tool_calls tool_calls (x :: xs))
     | _ => ret tool_calls
     end ;;
   ret (response_content, tool_calls))%se.

Fixpoint process_stream (acc : round_acc) (response : list delta)
    : SE fc_state round_acc :=
  match response with
  | [] => ret acc
  | d :: rest => (acc' <- process_chunk acc d ;; process_stream acc' rest)%se
  end.

(** Steps 3 to 5 of a round, on what the stream accumulated: [Some text]
    when the generator returns with [text] as its final answer, [None]
    when the loop goes on. *)
Definition finish_round (tools : list Tool) (acc : round_acc)
    : SE fc_state (option pystr) :=
  let '(response_content, tool_calls) := acc in
  ((if truthy response_content
    then modify (append_history [Msg (lit "assistant") response_content])
    else ret tt) ;;
   match tool_calls with
   | _ :: _ =>
       modify (append_history [MsgToolCalls tool_calls]) ;;
       tool_responses <- lift (_process_tool_calls tools tool_calls) ;;
       modify (append_history tool_responses) ;;
       ret None
   | [] =>
       if truthy response_content then ret (Some response_content)
       else ret None
   end)%se.

Definition run_round (tools : list Tool) : SE fc_state (option pystr) :=
  (response <- create_stream tools ;;
   acc <- process_stream ([], []) response ;;
   finish_round tools acc)%se.

(** How a run that does not raise ends. *)
Inductive stop :=
| Answered (text : pystr)
| BudgetExhausted.

(** [while iteration < self.max_iterations], with [n] rounds left. *)
Fixpoint run_loop (tools : list Tool) (n : nat) : SE fc_state stop :=
  match n with
  | O => ret BudgetExhausted
  | S k =>
      (r <- run_round tools ;;
       match r with
       | Some text => ret (Answered text)
       | None => run_loop tools k
       end)%se
  end.

(** [agent.run(query)], drained by its caller. The history is assigned
    anew at the start. *)
Definition start (tools : list Tool) (query : pystr) : fc_state :=
  {| conversation_history :=
       [ Msg (lit "system") (_get_system_prompt tools);
         Msg (lit "user") query ];
     yielded := [];
     api_calls := 0 |}.

Definition run (tools : list Tool) (query : pystr) : outcome stop * fc_state :=
  run_loop tools max_iterations (start tools query).

End WithRuntime.
End Fc.

(* ================================================================= *)
(** ** A reference runtime *)

(** An instance of [PyRuntime] that runs: a JSON parser, an evaluator
    of integer arithmetic, [str()] and strict field validation. Every
    theorem below that quantifies over the runtime holds for any
    instance; this one evaluates the programs on concrete inputs. Its
    limits are stated where they are. *)
Module Ref.

Definition is_digit (c : N) : bool := ((48 <=? c) && (c <=? 57))%N.
Definition digit_val (c : N) : Z := Z.of_N (c - 48).

(** The longest run of digits at the head of [s], as a number. *)
Fixpoint digits (acc : Z) (s : pystr) : Z * pystr :=
  match s with
  | c :: r => if is_digit c then digits (acc * 10 + digit_val c) r else (acc, s)
  | [] => (acc, s)
  end.

(** *** JSON text *)

Definition json_ws (c : N) : bool :=
  ((c =? 32) || (c =? 9) || (c =? 10) || (c =? 13))%N.

Fixpoint skip_ws (s : pystr) : pystr :=
  match s with
  | c :: r => if json_ws c then skip_ws r else s
  | [] => []
  end.

Definition hex_val (c : N) : option N :=
  if is_digit c then Some (c - 48)%N
  else if ((97 <=? c) && (c <=? 102))%N then Some (c - 87)%N
  else if ((65 <=? c) && (c <=? 70))%N then Some (c - 55)%N
  else None.

Definition hex4 (a b c d : N) : option N :=
  match hex_val a, hex_val b, hex_val c, hex_val d with
  | Some a, Some b, Some c, Some d => Some (a * 4096 + b * 256 + c * 16 + d)%N
  | _, _, _, _ => None
  end.

Definition is_high (u : N) : bool := ((55296 <=? u) && (u <=? 56319))%N.
Definition is_low (u : N) : bool := ((56320 <=? u) && (u <=? 57343))%N.

(** The characters of a string up to its closing quote, escapes decoded;
    a surrogate pair written as two [\u] escapes is one character. *)
Fixpoint string_body (s : pystr) : option (pystr * pystr) :=
  let cons c r := match r with
                  | Some (t, rest) => Some (c :: t, rest)
                  | None => None
                  end in
  match s with
  | [] => None
  | 34%N :: r => Some ([], r)
  | 92%N :: e :: r =>
      match e with
      | 34%N => cons 34%N (string_body r)
      | 92%N => cons 92%N (string_body r)
      | 47%N => cons 47%N (string_body r)
      | 98%N => cons 8%N (string_body r)
      | 102%N => cons 12%N (string_body r)
      | 110%N => cons 10%N (string_body r)
      | 114%N => cons 13%N (string_body r)
      | 116%N => cons 9%N (string_body r)
      | 117%N =>
          match r with
          | a :: b :: c :: d :: r1 =>
              match hex4 a b c d with
              | None => None
              | Some u =>
                  match r1 with
                  | 92%N :: 117%N :: a' :: b' :: c' :: d' :: r2 =>
                      match hex4 a' b' c' d' with
                      | Some v =>
                          if is_high u && is_low v
                          then cons (65536 + (u - 55296) * 1024 + (v - 56320))%N
                                    (string_body r2)
                          else cons u (string_body r1)
                      | None => cons u (string_body r1)
                      end
                  | _ => cons u (string_body r1)
                  end
              end
          | _ => None
          end
      | _ => None
      end
  | c :: r => if (c <? 32)%N then None else cons c (string_body r)
  end.

(** [d[k] = v] on a dict: a key that is present keeps its place. *)
Fixpoint dict_set (k : pystr) (v : json) (d : kwargs) : kwargs :=
  match d with
  | [] => [(k, v)]
  | (k', v') :: r =>
      if PyStr.eqb k' k then (k', v) :: r else (k', v') :: dict_set k v r
  end.

(** An integer; a number with a fraction or an exponent is outside what
    this parser reads, and is refused. *)
Definition number (s : pystr) : option (json * pystr) :=
  let '(neg, s1) := match s with
                    | 45%N :: r => (true, r)
                    | _ => (false, s)
                    end in
  match s1 with
  | c :: r =>
      if is_digit c then
        let '(z, rest) := if (c =? 48)%N then (0, r) else digits 0 s1 in
        match rest with
        | 46%N :: _ | 101%N :: _ | 69%N :: _ => None
        | _ => Some (JInt (if neg then - z else z), rest)
        end
      else None
  | [] => None
  end.

Section Containers.
Variable value : pystr -> option (json * pystr).

(** The items of a non-empty array, after its opening bracket. *)
Fixpoint elements (fuel : nat) (acc : list json) (s : pystr)
    : option (json * pystr) :=
  match fuel with
  | O => None
  | S f =>
      match value s with
      | None => None
      | Some (v, r) =>
          match skip_ws r with
          | 44%N :: r' => elements f (acc ++ [v]) (skip_ws r')
          | 93%N :: r' => Some (JArr (acc ++ [v]), r')
          | _ => None
          end
      end
  end.

(** The pairs of a non-empty object, after its opening brace. *)
Fixpoint members (fuel : nat) (acc : kwargs) (s : pystr)
    : option (json * pystr) :=
  match fuel with
  | O => None
  | S f =>
      match s with
      | 34%N :: r =>
          match string_body r with
          | None => None
          | Some (k, r1) =>
              match skip_ws r1 with
              | 58%N :: r2 =>
                  match value (skip_ws r2) with
                  | None => None
                  | Some (v, r3) =>
                      match skip_ws r3 with
                      | 44%N :: r4 => members f (dict_set k v acc) (skip_ws r4)
                      | 125%N :: r4 => Some (JObj (dict_set k v acc), r4)
                      | _ => None
                      end
                  end
              | _ => None
              end
          end
      | _ => None
      end
  end.
End Containers.

(** One JSON value at the head of [s] (no leading blanks), and the rest. *)
Fixpoint value (fuel : nat) (s : pystr) : option (json * pystr) :=
  match fuel with
  | O => None
  | S f =>
      match s with
      | 123%N :: r =>
          match skip_ws r with
          | 125%N :: r' => Some (JObj [], r')
          | r' => members (value f) (List.length s) [] r'
          end
      | 91%N :: r =>
          match skip_ws r with
          | 93%N :: r' => Some (JArr [], r')
          | r' => elements (value f) (List.length s) [] r'
          end
      | 34%N :: r =>
          match string_body r with
          | Some (t, r') => Some (JStr t, r')
          | None => None
          end
      | _ =>
          if startswith (lit "null") s then Some (JNull, skipn 4 s)
          else if startswith (lit "true") s then Some (JBool true, skipn 4 s)
          else if startswith (lit "false") s then Some (JBool false, skipn 5 s)
          else number s
      end
  end.

(** [json.loads]: one value between blanks, and nothing after it. The
    text of the error message is not modelled. *)
Definition json_loads (s : pystr) : outcome json :=
  match value (S (List.length s)) (skip_ws s) with
  | Some (v, r) =>
      match skip_ws r with
      | [] => Returned v
      | _ => Raised (Exn JSONDecodeError (lit "Extra data"))
      end
  | None => Raised (Exn JSONDecodeError (lit "Expecting value"))
  end.


(** *** Integer arithmetic *)

Inductive binop := Add | Sub | Mul | FloorDiv | Mod | Pow.

Inductive token :=
| TInt (z : Z) | TName (s : pystr) | TStr (s : pystr)
| TOp (o : binop) | TLP | TRP | TComma.

Definition is_name_start (c : N) : bool :=
  ((65 <=? c) && (c <=? 90) || (97 <=? c) && (c <=? 122) || (c =? 95))%N.
Definition is_name_char (c : N) : bool := is_name_start c || is_digit c.

Fixpoint span (p : N -> bool) (s : pystr) : pystr * pystr :=
  match s with
  | c :: r => if p c then let '(a, b) := span p r in (c :: a, b) else ([], s)
  | [] => ([], [])
  end.

(** Names that are not looked up like others: the keywords, and the two
    names the interpreter defines whatever the namespaces hold. *)
Definition reserved : list pystr :=
  map lit [ "False"; "None"; "True"; "and"; "as"; "assert"; "async"; "await";
            "break"; "class"; "continue"; "def"; "del"; "elif"; "else";
            "except"; "finally"; "for"; "from"; "global"; "if"; "import";
            "in"; "is"; "lambda"; "nonlocal"; "not"; "or"; "pass"; "raise";
            "return"; "try"; "while"; "with"; "yield";
            "__builtins__"; "__debug__" ]%string.

(** The tokens of an expression; [None] when the text uses something
    outside the fragment (floats, other operators, string escapes,
    keywords, ...). *)
Fixpoint tokenize (fuel : nat) (s : pystr) : option (list token) :=
  let cons t r := match r with Some ts => Some (t :: ts) | None => None end in
  match fuel with
  | O => None
  | S f =>
      match s with
      | [] => Some []
      | c :: r =>
          if ((c =? 32) || (c =? 9))%N then tokenize f r
          else if is_digit c then
            let '(z, rest) := digits 0 s in
            match r, rest with
            | d :: _, _ =>
                if ((c =? 48) && is_digit d)%N then None
                else match rest with
                     | x :: _ => if is_name_char x || (x =? 46)%N then None
                                 else cons (TInt z) (tokenize f rest)
                     | [] => Some [TInt z]
                     end
            | [], _ => Some [TInt z]
            end
          else if is_name_start c then
            let '(n, rest) := span is_name_char s in
            if existsb (PyStr.eqb n) reserved then None
            else match rest with
                 | 39%N :: _ | 34%N :: _ => None
                 | _ => cons (TName n) (tokenize f rest)
                 end
          else if ((c =? 39) || (c =? 34))%N then
            let '(body, rest) :=
              span (fun x => negb ((x =? c) || (x =? 92) || (x =? 10))%N) r in
            match rest with
            | q :: rest' => if (q =? c)%N then cons (TStr body) (tokenize f rest')
                            else None
            | [] => None
            end
          else match c, r with
               | 42%N, 42%N :: r' => cons (TOp Pow) (tokenize f r')
               | 47%N, 47%N :: r' => cons (TOp FloorDiv) (tokenize f r')
               | 43%N, _ => cons (TOp Add) (tokenize f r)
               | 45%N, _ => cons (TOp Sub) (tokenize f r)
               | 42%N, _ => cons (TOp Mul) (tokenize f r)
               | 37%N, _ => cons (TOp Mod) (tokenize f r)
               | 40%N, _ => cons TLP (tokenize f r)
               | 41%N, _ => cons TRP (tokenize f r)
               | 44%N, _ => cons TComma (tokenize f r)
               | _, _ => None
               end
      end
  end.

Inductive ast :=
| EInt (z : Z)
| EStr (s : pystr)
| EName (n : pystr)
| ECall (f : ast) (args : list ast)
| EBin (o : binop) (a b : ast)
| ENeg (a : ast)
| EPos (a : ast).

(** Recursive descent, by precedence: sums, products, signs, powers,
    then atoms with their call trailers. *)
Fixpoint sum (fuel : nat) (ts : list token) : option (ast * list token) :=
  match fuel with
  | O => None
  | S f => match product f ts with
           | Some (a, r) => sum_rest f a r
           | None => None
           end
  end
with sum_rest (fuel : nat) (a : ast) (ts : list token) : option (ast * list token) :=
  match fuel with
  | O => None
  | S f =>
      match ts with
      | TOp Add :: r =>
          match product f r with
          | Some (b, r') => sum_rest f (EBin Add a b) r'
          | None => None
          end
      | TOp Sub :: r =>
          match product f r with
          | Some (b, r') => sum_rest f (EBin Sub a b) r'
          | None => None
          end
      | _ => Some (a, ts)
      end
  end
with product (fuel : nat) (ts : list token) : option (ast * list token) :=
  match fuel with
  | O => None
  | S f => match signed f ts with
           | Some (a, r) => product_rest f a r
           | None => None
           end
  end
with product_rest (fuel : nat) (a : ast) (ts : list token)
    : option (ast * list token) :=
  match fuel with
  | O => None
  | S f =>
      match ts with
      | TOp Mul :: r | TOp FloorDiv :: r | TOp Mod :: r =>
          let o := match ts with TOp o :: _ => o | _ => Mul end in
          match signed f r with
          | Some (b, r') => product_rest f (EBin o a b) r'
          | None => None
          end
      | _ => Some (a, ts)
      end
  end
with signed (fuel : nat) (ts : list token) : option (ast * list token) :=
  match fuel with
  | O => None
  | S f =>
      match ts with
      | TOp Sub :: r =>
          match signed f r with
          | Some (a, r') => Some (ENeg a, r')
          | None => None
          end
      | TOp Add :: r =>
          match signed f r with
          | Some (a, r') => Some (EPos a, r')
          | None => None
          end
      | _ => power f ts
      end
  end
with power (fuel : nat) (ts : list token) : option (ast * list token) :=
  match fuel with
  | O => None
  | S f =>
      match atom f ts with
      | Some (a, TOp Pow :: r) =>
          match signed f r with
          | Some (b, r') => Some (EBin Pow a b, r')
          | None => None
          end
      | other => other
      end
  end
with atom (fuel : nat) (ts : list token) : option (ast * list token) :=
  match fuel with
  | O => None
  | S f =>
      match ts with
      | TInt z :: r => trailers f (EInt z) r
      | TStr s :: r => trailers f (EStr s) r
      | TName n :: r => trailers f (EName n) r
      | TLP :: r =>
          match sum f r with
          | Some (a, TRP :: r') => trailers f a r'
          | _ => None
          end
      | _ => None
      end
  end
with trailers (fuel : nat) (a : ast) (ts : list token)
    : option (ast * list token) :=
  match fuel with
  | O => None
  | S f =>
      match ts with
      | TLP :: TRP :: r => trailers f (ECall a []) r
      | TLP :: r =>
          match arguments f [] r with
          | Some (args, r') => trailers f (ECall a args) r'
          | None => None
          end
      | _ => Some (a, ts)
      end
  end
with arguments (fuel : nat) (acc : list ast) (ts : list token)
    : option (list ast * list token) :=
  match fuel with
  | O => None
  | S f =>
      match sum f ts with
      | Some (a, TComma :: TRP :: r) => Some (acc ++ [a], r)
      | Some (a, TComma :: r) => arguments f (acc ++ [a]) r
      | Some (a, TRP :: r) => Some (acc ++ [a], r)
      | _ => None
      end
  end.


Inductive value_ := VInt (z : Z) | VStr (s : pystr).

Definition type_of (v : value_) : pystr :=
  match v with VInt _ => lit "int" | VStr _ => lit "str" end.

Definition apply_binop (o : binop) (x y : value_) : option (outcome value_) :=
  match x, y with
  | VInt a, VInt b =>
      match o with
      | Add => Some (Returned (VInt (a + b)))
      | Sub => Some (Returned (VInt (a - b)))
      | Mul => Some (Returned (VInt (a * b)))
      | FloorDiv =>
          if b =? 0
          then Some (Raised (Exn ZeroDivisionError
                       (lit "integer division or modulo by zero")))
          else Some (Returned (VInt (a / b)))
      | Mod =>
          if b =? 0
          then Some (Raised (Exn ZeroDivisionError
                       (lit "integer division or modulo by zero")))
          else Some (Returned (VInt (a mod b)))
      | Pow => if b <? 0 then None else Some (Returned (VInt (a ^ b)))
      end
  | _, _ => None
  end.

(** Evaluation in empty namespaces, operands left to right: every name
    is undefined. [None] when the value is outside the fragment (strings
    under an operator, a negative exponent). *)
Fixpoint eval_ast (e : ast) : option (outcome value_) :=
  match e with
  | EInt z => Some (Returned (VInt z))
  | EStr s => Some (Returned (VStr s))
  | EName n =>
      Some (Raised (Exn NameError (lit "name '" ++ n ++ lit "' is not defined")))
  | ECall f args =>
      match eval_ast f with
      | Some (Returned v) =>
          (fix each (l : list ast) : option (outcome value_) :=
             match l with
             | [] => Some (Raised (Exn TypeError
                       (lit "'" ++ type_of v ++ lit "' object is not callable")))
             | a :: r =>
                 match eval_ast a with
                 | Some (Returned _) => each r
                 | other => other
                 end
             end) args
      | other => other
      end
  | EBin o a b =>
      match eval_ast a with
      | Some (Returned x) =>
          match eval_ast b with
          | Some (Returned y) => apply_binop o x y
          | other => other
          end
      | other => other
      end
  | ENeg a =>
      match eval_ast a with
      | Some (Returned (VInt z)) => Some (Returned (VInt (- z)))
      | Some (Returned (VStr _)) => None
      | other => other
      end
  | EPos a =>
      match eval_ast a with
      | Some (Returned (VStr _)) => None
      | other => other
      end
  end.

Definition str_of_value (v : value_) : pystr :=
  match v with VInt z => of_Z z | VStr s => s end.

(** An expression that leaves the empty namespaces through the classes
    of a tuple: it finds [BaseException] among the subclasses of [object],
    [SystemExit] among those of [BaseException], and throws it into a
    generator. The object graph is not part of this evaluator; what
    CPython 3 does with this one expression is recorded as it is: the
    evaluation raises [SystemExit]. *)
Definition escape_expression : pystr :=
  lit "(_ for _ in ()).throw([d for d in [c for c in ().__class__.__base__.__subclasses__() if c.__name__ == 'BaseException'][0].__subclasses__() if d.__name__ == 'SystemExit'][0])".

(** [eval(e, {"__builtins__": {}}, {})] and the formatting of its value,
    for the expressions of the fragment (integers, strings, names, calls,
    the arithmetic operators) and for the recorded expression. Outside of
    these the evaluator answers with a syntax error, which is right for
    some texts only; no statement below evaluates it there. *)
Definition py_eval (e : pystr) : outcome pystr :=
  let outside := Raised (Exn SyntaxError (lit "invalid syntax")) in
  if PyStr.eqb e escape_expression then Escaped SystemExit
  else
  match tokenize (S (List.length e)) e with
  | Some ts =>
      match sum (10 * S (List.length ts)) ts with
      | Some (a, []) =>
          match eval_ast a with
          | Some (Returned v) => Returned (str_of_value v)
          | Some (Raised x) => Raised x
          | Some (Escaped b) => Escaped b
          | None => outside
          end
      | _ => outside
      end
  | None => outside
  end.

(** [repr(s)] of a string, exact when [s] holds printable characters and
    neither quote nor backslash. *)
Definition repr_str (s : pystr) : pystr := lit "'" ++ s ++ lit "'".

(** [repr(v)] *)
Fixpoint repr (j : json) : pystr :=
  match j with
  | JNull => lit "None"
  | JBool true => lit "True"
  | JBool false => lit "False"
  | JInt z => of_Z z
  | JFloat _ t => t
  | JStr s => repr_str s
  | JArr l => lit "[" ++ join (lit ", ") (map repr l) ++ lit "]"
  | JObj l =>
      lit "{"
      ++ join (lit ", ")
           (map (fun kv => repr_str (fst kv) ++ lit ": " ++ repr (snd kv)) l)
      ++ lit "}"
  end.

(** [str(v)] *)
Definition py_str (j : json) : pystr :=
  match j with
  | JStr s => s
  | _ => repr j
  end.

(** Validation as pydantic 2 does it: no conversion to [str] or [dict]. *)
Definition pydantic_str (j : json) : outcome pystr :=
  match j with
  | JStr s => Returned s
  | _ => Raised (Exn ValidationError (lit "Input should be a valid string"))
  end.

Definition pydantic_dict (j : json) : outcome kwargs :=
  match j with
  | JObj d => Returned d
  | _ => Raised (Exn ValidationError (lit "Input should be a valid dictionary"))
  end.

#[export] Instance runtime : PyRuntime :=
  Build_PyRuntime json_loads py_eval py_str pydantic_str pydantic_dict
    (fun s => eq_refl).

(** The tools of an agent built without arguments, [CotAgent()] and
    [FunctionCallAgent()], on this runtime. *)
Definition cot_tools : list Cot.BaseTool := @Cot.tools_or_default runtime None.
Definition fc_tools : list Fc.Tool := @Fc.tools_or_default runtime None.

End Ref.

(* ================================================================= *)
(** ** Sample completions *)

(** Texts a model can answer with, and clients that answer with them;
    the properties below are run on these. *)
Module Sample.

Definition query : pystr := lit "计算一下 15 的平方加上 25 的平方等于多少？".

(** A client that gives the same completion to every request. *)
Definition always (text : pystr) : nat -> list Cot.message -> outcome pystr :=
  fun _ _ => Returned text.

(** The store at the start of a run of a fresh agent with the built-in
    tools. *)
Definition fresh : Cot.run_state :=
  Cot.start Ref.cot_tools Cot.AgentState_new query.

(** An action block. *)
Definition block (body : pystr) : pystr :=
  join [LF] [ lit "行动："; lit "```json"; body; lit "```" ].

(** A thought, an action block and a final answer in one completion. *)
Definition answer_and_action : pystr :=
  join [LF]
    [ lit "思考：已经可以回答"; [];
      block (dq "{'tool': 'calculator', 'tool_input': {'expression': '15**2 + 25**2'}}");
      [];
      lit "最终答案： 850 " ].

(** A block whose text is not JSON. *)
Definition malformed : pystr := block (lit "{tool: calculator}").

(** A search action, and a completion with that block and then a second
    one. *)
Definition search_action : pystr :=
  dq "{'tool': 'search', 'tool_input': {'query': '人工智能'}}".
Definition second_block : pystr :=
  LF :: block (dq "{'tool': 'calculator', 'tool_input': {'expression': '1+1'}}").
Definition two_blocks : pystr :=
  (lit "行动：" ++ [LF]) ++ Cot.FENCE_OPEN ++ search_action
    ++ Cot.FENCE_CLOSE ++ second_block.

(** A completion that asks for a search and gives no final answer. *)
Definition search_only : pystr :=
  join [LF] [ lit "思考：需要搜索"; []; block search_action ].

(** What the search tool answers to that action. *)
Definition search_result : pystr :=
  lit "这是关于'人工智能'的搜索结果。在实际应用中，这里会返回真实的搜索结果。".

(** An action whose keyword is not the parameter of the calculator. *)
Definition wrong_keyword : pystr :=
  block (dq "{'tool': 'calculator', 'tool_input': {'expr': '1+1'}}").

(** An action that leaves out the parameter of the search tool. *)
Definition missing_argument : pystr :=
  block (dq "{'tool': 'search', 'tool_input': {}}").

(** A block that holds JSON which is not an object. *)
Definition list_block : pystr := block (lit "[1]").

(** A request that fails, as the client library reports it. *)
Definition timeout : exn := Exn APIError (lit "Request timed out.").

(** A client whose requests all fail. *)
Definition failing (e : exn) : nat -> list Cot.message -> outcome pystr :=
  fun _ _ => Raised e.

(** A completion with neither marker nor block. *)
Definition chatter : pystr := lit "我还在想。".

(** The marker of the final answer with blanks after it. *)
Definition blank_answer : pystr := lit "最终答案：  ".

End Sample.

(* ================================================================= *)
(** ** Accumulation by index, as the specification words it *)

Module FcSpec.

(** The tool-call deltas of a streamed response, in order of arrival. *)
Definition stream_deltas (response : list Fc.delta) : list Fc.tc_delta :=
  List.concat (map (fun d => match Fc.d_tool_calls d with
                        | Some l => l
                        | None => []
                        end) response).

(** The argument text a delta carries. *)
Definition arg_text (d : Fc.tc_delta) : pystr :=
  match Fc.d_arguments d with
  | Some a => a
  | None => []
  end.

(** The entry a delta opens, with the text it carries itself. *)
Definition opened (d : Fc.tc_delta) : Fc.tool_call :=
  {| Fc.id := Fc.d_id d; Fc.type_ := lit "function";
     Fc.fn_name := Fc.d_name d; Fc.fn_arguments := arg_text d |}.

(** The first delta that arrived for index [i]. *)
Definition first_at (i : Z) (ds : list Fc.tc_delta) : option Fc.tc_delta :=
  List.find (fun d => Fc.index d =? i) ds.

(** The argument texts that arrived for index [i], concatenated in order
    of arrival. *)
Definition args_at (i : Z) (ds : list Fc.tc_delta) : pystr :=
  List.concat (map (fun d => if Fc.index d =? i then arg_text d else []) ds).

(** What the accumulated list holds at position [i] once the deltas
    [ds] have all arrived: nothing when no delta came for index [i], and
    otherwise the entry with the id and the function name of the first
    delta for that index and, as its argument string, the argument texts
    of all the deltas for that index. *)
Definition entry_at (i : Z) (ds : list Fc.tc_delta) : option Fc.tool_call :=
  option_map
    (fun d => {| Fc.id := Fc.d_id d; Fc.type_ := lit "function";
                 Fc.fn_name := Fc.d_name d;
                 Fc.fn_arguments := args_at i ds |})
    (first_at i ds).

(** Indices are introduced one after the other from [n] on: each delta
    is for an entry that exists already or for the next new one. *)
Fixpoint contiguous (n : Z) (ds : list Fc.tc_delta) : bool :=
  match ds with
  | [] => true
  | d :: r =>
      (0 <=? Fc.index d) && (Fc.index d <=? n)
      && contiguous (if Fc.index d =? n then n + 1 else n) r
  end.

(** The text fragments of a streamed response that are not empty, in
    order of arrival. *)
Definition texts (response : list Fc.delta) : list pystr :=
  flat_map (fun d => match Fc.d_content d with
                     | Some (c :: t) => [c :: t]
                     | _ => []
                     end) response.



End FcSpec.

(* ================================================================= *)
(** ** How the agent state can change *)

Module CotSpec.

(** [l'] is [l] with items appended. *)
Definition extends {A} (l l' : list A) : Prop := exists t, l' = l ++ t.

(** The lists of the state [b] continue those of [a]. *)
Definition grows (a b : Cot.AgentState) : Prop :=
  extends (Cot.thoughts a) (Cot.thoughts b)
  /\ extends (Cot.observations a) (Cot.observations b)
  /\ extends (Cot.actions a) (Cot.actions b).

(** The two messages a round appends when its tool has run: the
    completion, then the observation. *)
Definition exchange (x : pystr * pystr) : list Cot.message :=
  [ Cot.assistant_msg (fst x); Cot.user_msg (lit "观察：" ++ snd x) ].

(** From store [s] to store [s'] the log gained whole exchanges only, one
    per observation recorded, with the text of that observation, and no
    fewer actions were recorded than observations. *)
Definition logged (s s' : Cot.run_state) : Prop :=
  exists (xs : list (pystr * pystr)) (obs : list Cot.Observation)
         (acts : list Cot.Action),
    Cot.messages s' = Cot.messages s ++ flat_map exchange xs
    /\ Cot.observations (Cot.agent_state s')
       = Cot.observations (Cot.agent_state s) ++ obs
    /\ map Cot.content obs = map snd xs
    /\ Cot.actions (Cot.agent_state s')
       = Cot.actions (Cot.agent_state s) ++ acts
    /\ (List.length xs <= List.length acts)%nat.

End CotSpec.
Import CotSpec.

(* ================================================================= *)
(** ** Sample streams *)

Module Stream.

Definition text (t : pystr) : Fc.delta :=
  {| Fc.d_content := Some t; Fc.d_tool_calls := None |}.

Definition call (d : Fc.tc_delta) : Fc.delta :=
  {| Fc.d_content := None; Fc.d_tool_calls := Some [d] |}.

(** The delta that opens a call, and one that continues it. *)
Definition opening (i : Z) (id name : pystr) : Fc.tc_delta :=
  {| Fc.index := i; Fc.d_id := Some id; Fc.d_name := Some name;
     Fc.d_arguments := Some [] |}.
Definition fragment (i : Z) (a : pystr) : Fc.tc_delta :=
  {| Fc.index := i; Fc.d_id := None; Fc.d_name := None;
     Fc.d_arguments := Some a |}.

(** A call of the calculator whose arguments arrive in two fragments. *)
Definition calculator_call : list Fc.delta :=
  [ call (opening 0 (lit "call_1") (lit "calculator"));
    call (fragment 0 (dq "{'expression'"));
    call (fragment 0 (dq ":'3+3'}")) ].

(** The arguments of a call in two deltas at the same index, the first
    of which opens the call. *)
Definition two_fragments : list Fc.delta :=
  [ call {| Fc.index := 0; Fc.d_id := Some (lit "call_1");
            Fc.d_name := Some (lit "calculator");
            Fc.d_arguments := Some (dq "{'expression'") |};
    call (fragment 0 (dq ":'3+3'}")) ].

(** A delta that opens a call at index 1, text included, although no
    entry exists yet. *)
Definition opens_at_one : Fc.tc_delta :=
  {| Fc.index := 1; Fc.d_id := Some (lit "call_1");
     Fc.d_name := Some (lit "calculator");
     Fc.d_arguments := Some (dq "{'expression':'3+3'}") |}.

(** The same with some text before it. *)
Definition text_and_call : list Fc.delta :=
  text (lit "让我算一下。") :: calculator_call.

(** An answer in two pieces of text. *)
Definition answer : list Fc.delta := [ text (lit "答案是 "); text (lit "6。") ].

(** A call whose deltas carry index 1 although no entry exists yet. *)
Definition starts_at_one : list Fc.delta :=
  [ call (opening 1 (lit "call_1") (lit "calculator"));
    call (fragment 1 (dq "{'expression':'3+3'}")) ].


(** A client that streams [first] for the first request and [later] for
    the others. *)
Definition serve (first later : list Fc.delta)
    : nat -> list Fc.hist_msg -> list json -> outcome (list Fc.delta) :=
  fun n _ _ => match n with O => Returned first | S _ => Returned later end.

End Stream.

(* ================================================================= *)
(** * Properties *)

(** ** Strings: search and slices *)

Section StringFacts.

Lemma eqb_eq (a b : pystr) : PyStr.eqb a b = true <-> a = b.
Proof.
  revert b; induction a as [|x a IH]; intros [|y b]; simpl;
    try (split; [discriminate | discriminate]); try tauto.
  rewrite andb_true_iff, N.eqb_eq, IH. split.
  - intros [-> ->]; reflexivity.
  - intros E; injection E; auto.
Qed.

Lemma eqb_refl (a : pystr) : PyStr.eqb a a = true.
Proof. apply eqb_eq; reflexivity. Qed.

Lemma eqb_neq (a b : pystr) : a <> b -> PyStr.eqb a b = false.
Proof.
  intros H. destruct (PyStr.eqb a b) eqn:E; [|reflexivity].
  apply eqb_eq in E. contradiction.
Qed.

Lemma startswith_iff (pat s : pystr) :
  startswith pat s = true <-> exists r, s = pat ++ r.
Proof.
  revert s; induction pat as [|p pat IH]; intros s; simpl.
  - split; [intros _; exists s; reflexivity | reflexivity].
  - destruct s as [|c s].
    + split; [discriminate | intros [r Hr]; discriminate].
    + rewrite andb_true_iff, N.eqb_eq, IH. split.
      * intros [-> [r ->]]. exists r; reflexivity.
      * intros [r Hr]. injection Hr as -> ->. split; [reflexivity | eauto].
Qed.

Lemma startswith_app (pat r : pystr) : startswith pat (pat ++ r) = true.
Proof. apply startswith_iff; eauto. Qed.

Lemma startswith_length (pat s : pystr) :
  startswith pat s = true -> (List.length pat <= List.length s)%nat.
Proof.
  intros H. apply startswith_iff in H as [r ->].
  rewrite length_app. lia.
Qed.

(** Text appended after [s] does not change whether [s] starts with
    [pat], once [s] is long enough to tell. *)
Lemma startswith_extend (pat s x : pystr) :
  (List.length pat <= List.length s)%nat ->
  startswith pat (s ++ x) = startswith pat s.
Proof.
  revert s; induction pat as [|p pat IH]; intros [|c s] L; simpl in *;
    try reflexivity; try lia.
  rewrite IH by lia. reflexivity.
Qed.

Lemma find_aux_unfold (pat s : pystr) (off : Z) :
  find_aux pat s off
  = if startswith pat s then off
    else match s with
         | [] => -1
         | _ :: s' => find_aux pat s' (off + 1)
         end.
Proof. destruct s; reflexivity. Qed.

Lemma find_aux_range (pat s : pystr) (off : Z) :
  0 <= off ->
  find_aux pat s off = -1 \/
  (off <= find_aux pat s off /\
   find_aux pat s off + len pat <= off + len s).
Proof.
  revert off; induction s as [|c s IH]; intros off Hoff; simpl.
  - destruct (startswith pat []) eqn:E; [|left; reflexivity].
    right. apply startswith_length in E. unfold len. simpl in *. lia.
  - destruct (startswith pat (c :: s)) eqn:E.
    + right. apply startswith_length in E. unfold len. simpl in *. lia.
    + destruct (IH (off + 1)) as [H|H]; [lia | left; exact H |].
      right. unfold len in *. simpl. lia.
Qed.

(** The search finds an occurrence that exists, at or before it. *)
Lemma find_aux_occurs (pat pre post : pystr) (off : Z) :
  0 <= off ->
  off <= find_aux pat (pre ++ pat ++ post) off <= off + len pre.
Proof.
  revert off; induction pre as [|c pre IH]; intros off Hoff.
  - rewrite find_aux_unfold. cbn [app].
    rewrite startswith_app. unfold len; simpl; lia.
  - rewrite find_aux_unfold. cbn [app].
    destruct (startswith pat (c :: pre ++ pat ++ post)).
    + unfold len; simpl; lia.
    + specialize (IH (off + 1)). unfold len in *; simpl List.length. lia.
Qed.

(** What the search finds in [s] it finds in [s ++ x], at the same
    place. *)
Lemma find_aux_extend (pat s x : pystr) (off : Z) :
  0 <= off ->
  find_aux pat s off <> -1 ->
  find_aux pat (s ++ x) off = find_aux pat s off.
Proof.
  revert off; induction s as [|c s IH]; intros off Hoff H; simpl in *.
  - destruct (startswith pat []) eqn:E; [|contradiction].
    destruct pat; [destruct x; reflexivity | discriminate].
  - destruct (startswith pat (c :: s)) eqn:E.
    + change (c :: s ++ x) with ((c :: s) ++ x).
      rewrite startswith_extend, E; [reflexivity|].
      apply startswith_length in E; exact E.
    + change (c :: s ++ x) with ((c :: s) ++ x).
      rewrite startswith_extend, E.
      * apply IH; [lia | exact H].
      * destruct (find_aux_range pat s (off + 1)) as [N|[N1 N2]];
          [lia | contradiction |].
        unfold len in N2. simpl. lia.
Qed.

Lemma len_app (a b : pystr) : len (a ++ b) = len a + len b.
Proof. unfold len. rewrite length_app. lia. Qed.

Lemma len_nonneg (a : pystr) : 0 <= len a.
Proof. unfold len. lia. Qed.

Lemma clamp_id (n i : Z) : 0 <= i <= n -> clamp n i = i.
Proof.
  intros H. unfold clamp.
  destruct (i <? 0) eqn:E; [apply Z.ltb_lt in E; lia | lia].
Qed.

Lemma find_from_eq (pat text : pystr) (start : Z) :
  0 <= start <= len text ->
  find_from pat text start
  = find_aux pat (skipn (Z.to_nat start) text) start.
Proof.
  intros H. unfold find_from.
  destruct (len text <? start) eqn:E; [apply Z.ltb_lt in E; lia|].
  rewrite clamp_id by lia. reflexivity.
Qed.

Lemma find_eq (pat text : pystr) : find pat text = find_aux pat text 0.
Proof.
  unfold find. rewrite find_from_eq by (pose proof (len_nonneg text); lia).
  reflexivity.
Qed.

Lemma slice_eq (text : pystr) (a b : Z) :
  0 <= a <= len text -> 0 <= b <= len text ->
  slice text a b = firstn (Z.to_nat (b - a)) (skipn (Z.to_nat a) text).
Proof. intros Ha Hb. unfold slice. rewrite !clamp_id by lia. reflexivity. Qed.

Lemma slice_from_eq (text : pystr) (a : Z) :
  0 <= a <= len text -> slice_from text a = skipn (Z.to_nat a) text.
Proof. intros Ha. unfold slice_from. rewrite clamp_id by lia. reflexivity. Qed.

(** The offset a search starts to count from shifts what it finds. *)
Lemma find_aux_shift (pat s : pystr) (off : Z) :
  find_aux pat s off
  = if find_aux pat s 0 =? -1 then -1 else off + find_aux pat s 0.
Proof.
  revert off; induction s as [|c s IH]; intros off;
    rewrite (find_aux_unfold pat _ off), (find_aux_unfold pat _ 0).
  - destruct (startswith pat []); simpl; [lia | reflexivity].
  - destruct (startswith pat (c :: s)); cbn [Z.eqb]; [lia|].
    rewrite (IH (off + 1)), (IH (0 + 1)).
    destruct (find_aux_range pat s 0) as [E|[E _]]; [lia | rewrite E; reflexivity |].
    destruct (find_aux pat s 0 =? -1) eqn:F; [reflexivity|].
    replace (0 + 1 + find_aux pat s 0 =? -1) with false
      by (symmetry; apply Z.eqb_neq; lia).
    lia.
Qed.

(** An occurrence makes [in] true. *)
Lemma contains_app (pat pre post : pystr) :
  contains pat (pre ++ pat ++ post) = true.
Proof.
  unfold contains. rewrite find_eq.
  pose proof (find_aux_occurs pat pre post 0). apply Z.leb_le. lia.
Qed.

End StringFacts.

(** ** Tool dispatch *)

Section Dispatch.
Context {R : PyRuntime}.

Lemma eq_str_neq (a n : pystr) : a <> n -> eq_str a (JStr n) = false.
Proof. intros H. simpl. apply eqb_neq; exact H. Qed.

Lemma cot_run_tool_unknown (tools : list Cot.BaseTool) (n : pystr) (args : json) :
  (forall t, In t tools -> Cot.name t <> n) ->
  Cot._run_tool tools (JStr n) args
  = Returned (lit "错误：找不到工具 '" ++ n ++ lit "'").
Proof.
  induction tools as [|t tools IH]; intros H; cbn [Cot._run_tool].
  - rewrite py_str_str. reflexivity.
  - rewrite eq_str_neq by (apply H; left; reflexivity).
    apply IH. intros t' Ht'. apply H. right; exact Ht'.
Qed.

Lemma fc_execute_tool_unknown (tools : list Fc.Tool) (n : pystr) (args : json) :
  (forall t, In t tools -> Fc.name t <> n) ->
  Fc._execute_tool tools (JStr n) args
  = Returned (lit "错误：找不到工具 '" ++ n ++ lit "'").
Proof.
  induction tools as [|t tools IH]; intros H; cbn [Fc._execute_tool].
  - rewrite py_str_str. reflexivity.
  - rewrite eq_str_neq by (apply H; left; reflexivity).
    apply IH. intros t' Ht'. apply H. right; exact Ht'.
Qed.

(** C3. A tool name that is the name of no configured tool: in both
    variants, whatever the arguments are, dispatch returns (it does not
    raise) the error string built around that name, and the name occurs
    in it. Names are compared code point by code point, so a name that
    differs only in case is unknown. *)
Theorem dispatch_unknown_tool
    (cot_tools : list Cot.BaseTool) (fc_tools : list Fc.Tool)
    (n : pystr) (args : json) :
  (forall t, In t cot_tools -> Cot.name t <> n) ->
  (forall t, In t fc_tools -> Fc.name t <> n) ->
  Cot._run_tool cot_tools (JStr n) args
    = Returned (lit "错误：找不到工具 '" ++ n ++ lit "'")
  /\ Fc._execute_tool fc_tools (JStr n) args
    = Returned (lit "错误：找不到工具 '" ++ n ++ lit "'")
  /\ contains n (lit "错误：找不到工具 '" ++ n ++ lit "'") = true.
Proof.
  intros Hc Hf. split; [|split].
  - apply cot_run_tool_unknown; exact Hc.
  - apply fc_execute_tool_unknown; exact Hf.
  - apply contains_app.
Qed.

(** ** The calculator *)

Lemma bind1_single (fname param : pystr) (v : json) :
  bind1 fname param [(param, v)] = Returned v.
Proof. unfold bind1. simpl. rewrite eqb_refl. simpl. reflexivity. Qed.


End Dispatch.


(** C3 at the built-in tools and the name [weather]. *)
Lemma dispatch_unknown_tool_witness :
  (forall t, In t Ref.cot_tools -> Cot.name t <> lit "weather")
  /\ (forall t, In t Ref.fc_tools -> Fc.name t <> lit "weather")
  /\ @Cot._run_tool Ref.runtime Ref.cot_tools (JStr (lit "weather")) (JObj [])
     = Returned (lit "错误：找不到工具 'weather'")
  /\ @Fc._execute_tool Ref.runtime Ref.fc_tools (JStr (lit "weather")) (JObj [])
     = Returned (lit "错误：找不到工具 'weather'").
Proof.
  assert (Hc : forall t, In t Ref.cot_tools -> Cot.name t <> lit "weather").
  { intros t [<-|[<-|[]]]; vm_compute; discriminate. }
  assert (Hf : forall t, In t Ref.fc_tools -> Fc.name t <> lit "weather").
  { intros t [<-|[<-|[]]]; vm_compute; discriminate. }
  split; [exact Hc | split; [exact Hf |]].
  destruct (@dispatch_unknown_tool Ref.runtime _ _ (lit "weather") (JObj []) Hc Hf)
    as (H1 & H2 & _).
  split; [exact H1 | exact H2].
Defined.

(** ** The free-text loop, round by round *)

Section CotRound.
Context {R : PyRuntime}.
Variable client : nat -> list Cot.message -> outcome pystr.
Variable tools : list Cot.BaseTool.

(** [_call_llm] catches every exception that derives from [Exception]:
    the request gives a text, or lets pass an exception of another
    kind. *)
Lemma response_text_cases (n : nat) (msgs : list Cot.message) :
  (exists t, Cot.response_text client n msgs = Returned t)
  \/ (exists b, Cot.response_text client n msgs = Escaped b).
Proof.
  unfold Cot.response_text.
  destruct (client n msgs); simpl; eauto.
Qed.

(** The text a round works on is the one its request gave; a request
    that lets an exception pass leaves no text. *)
Lemma round_response_cases (s : Cot.run_state) :
  Cot.response_text client (Cot.llm_calls s) (Cot.messages s)
  = Returned (Cot.round_response client s)
  \/ (exists b,
        Cot.response_text client (Cot.llm_calls s) (Cot.messages s) = Escaped b
        /\ Cot.round_response client s = []).
Proof.
  unfold Cot.round_response.
  destruct (response_text_cases (Cot.llm_calls s) (Cot.messages s))
    as [[t E]|[b E]]; rewrite E; [left | right; exists b; split]; reflexivity.
Qed.

Lemma extract_final_answer_nil : Cot._extract_final_answer [] = None.
Proof. reflexivity. Qed.

Lemma extract_action_nil : Cot._extract_action [] = Returned JNull.
Proof. reflexivity. Qed.

(** A round whose request lets an exception pass ends with it, the
    request counted and nothing else done. *)
Lemma run_round_escaped (s : Cot.run_state) (b : base_exn) :
  Cot.response_text client (Cot.llm_calls s) (Cot.messages s) = Escaped b ->
  Cot.run_round client tools s = (Escaped b, Cot.count_call s).
Proof.
  intros E. unfold Cot.run_round, bind, gets, Cot._call_llm.
  rewrite E. reflexivity.
Qed.

(** A text with a final answer or with an action is the text of a
    request that was answered. *)
Lemma responded_of_answer (s : Cot.run_state) (a : pystr) :
  Cot._extract_final_answer (Cot.round_response client s) = Some a ->
  Cot.response_text client (Cot.llm_calls s) (Cot.messages s)
  = Returned (Cot.round_response client s).
Proof.
  intros H. destruct (round_response_cases s) as [E|(b & _ & E)]; [exact E|].
  rewrite E, extract_final_answer_nil in H. discriminate.
Qed.

Lemma responded_of_action (s : Cot.run_state) (j : json) :
  Cot._extract_action (Cot.round_response client s) = Returned j ->
  json_truthy j = true ->
  Cot.response_text client (Cot.llm_calls s) (Cot.messages s)
  = Returned (Cot.round_response client s).
Proof.
  intros H T. destruct (round_response_cases s) as [E|(b & _ & E)]; [exact E|].
  rewrite E, extract_action_nil in H. injection H as <-. discriminate.
Qed.

(** The extraction of an action catches what [json.loads] raises. *)
Lemma extract_action_not_raised (text : pystr) (e : exn) :
  Cot._extract_action text <> Raised e.
Proof.
  unfold Cot._extract_action.
  destruct (_ || _); simpl; [discriminate|].
  destruct (json_loads _); simpl; discriminate.
Qed.

(** A round whose completion carries a non-empty final answer returns it
    and touches nothing but the answer of the state. *)
Lemma run_round_answer (s : Cot.run_state) (a : pystr) :
  Cot._extract_final_answer (Cot.round_response client s) = Some a ->
  truthy a = true ->
  Cot.run_round client tools s
  = (Returned (Some a), Cot.on_agent (Cot.set_final_answer a) (Cot.entered client s)).
Proof.
  intros Ha Ht. unfold Cot.run_round, bind, gets, Cot._call_llm.
  rewrite (responded_of_answer s a Ha). unfold modify at 1. rewrite Ha, Ht.
  reflexivity.
Qed.

(** A round without a final answer, once its request is answered, is its
    action step. *)
Lemma run_round_no_answer (s : Cot.run_state) :
  Cot.response_text client (Cot.llm_calls s) (Cot.messages s)
  = Returned (Cot.round_response client s) ->
  Cot.answer_given (Cot._extract_final_answer (Cot.round_response client s))
    = false ->
  Cot.run_round client tools s
  = match Cot.run_action tools (Cot.round_response client s) (Cot.entered client s) with
    | (Returned _, s') => (Returned None, s')
    | (Raised e, s') => (Raised e, s')
    | (Escaped b, s') => (Escaped b, s')
    end.
Proof.
  intros Hr Hn. unfold Cot.run_round, bind, gets, Cot._call_llm.
  rewrite Hr. unfold modify at 1.
  destruct (Cot._extract_final_answer _) as [a|]; simpl in Hn.
  - rewrite Hn.
    destruct (Cot.run_action _ _ _) as [[[]|e|b] s']; reflexivity.
  - destruct (Cot.run_action _ _ _) as [[[]|e|b] s']; reflexivity.
Qed.

(** No action: the step leaves the store as it is. *)
Lemma run_action_none (response : pystr) (j : json) (s : Cot.run_state) :
  Cot._extract_action response = Returned j ->
  json_truthy j = false ->
  Cot.run_action tools response s = (Returned tt, s).
Proof.
  intros Hj Ht. unfold Cot.run_action, bind, lift.
  rewrite Hj, Ht. reflexivity.
Qed.

Lemma toolcall_of_action (t i : json) (a : Cot.Action) :
  Cot.Action_new t i = Returned a ->
  Cot.ToolCall_new t i
  = Returned {| Cot.tc_name := Cot.tool a; Cot.tc_arguments := Cot.tool_input a |}.
Proof.
  unfold Cot.Action_new, Cot.ToolCall_new, obind.
  destruct (pydantic_str t); try discriminate.
  destruct (pydantic_dict i); try discriminate.
  intros E; injection E as <-. reflexivity.
Qed.

(** An action that is dispatched and whose tool returns. *)
Lemma run_action_dispatched (response : pystr) (d : kwargs) (a : Cot.Action)
    (obs : pystr) (s : Cot.run_state) :
  Cot._extract_action response = Returned (JObj d) ->
  d <> [] ->
  Cot.Action_new (dict_get d (lit "tool") JNull)
                 (dict_get d (lit "tool_input") (JObj [])) = Returned a ->
  Cot._run_tool tools (dict_get d (lit "tool") JNull)
                (dict_get d (lit "tool_input") (JObj [])) = Returned obs ->
  Cot.run_action tools response s
  = (Returned tt,
     Cot.append_message (Cot.user_msg (lit "观察：" ++ obs))
       (Cot.append_message (Cot.assistant_msg response)
          (Cot.on_agent
             (Cot.append_observation
                {| Cot.content := obs;
                   Cot.tool_calls :=
                     Some [ {| Cot.tc_name := Cot.tool a;
                               Cot.tc_arguments := Cot.tool_input a |} ] |})
             (Cot.on_agent (Cot.append_action a) s)))).
Proof.
  intros Hj Hd Ha Ho. unfold Cot.run_action, bind, lift, modify.
  rewrite Hj. destruct d as [|kv d]; [contradiction|].
  cbn [json_truthy negb as_dict]. rewrite Ha, Ho.
  rewrite (toolcall_of_action _ _ _ Ha). reflexivity.
Qed.

End CotRound.

(** ** Final answers *)

Section FinalAnswer.
Context {R : PyRuntime}.
Variable client : nat -> list Cot.message -> outcome pystr.
Variable tools : list Cot.BaseTool.

(** A successful search splits the text around what it found. *)
Lemma find_aux_split (pat s : pystr) (off : Z) :
  0 <= off ->
  find_aux pat s off <> -1 ->
  exists pre post,
    s = pre ++ pat ++ post /\ find_aux pat s off = off + len pre.
Proof.
  revert off; induction s as [|c s IH]; intros off Hoff H;
    rewrite find_aux_unfold in *.
  - destruct (startswith pat []) eqn:E; [|contradiction].
    apply startswith_iff in E as [r E].
    exists [], r. split; [exact E | unfold len; simpl; lia].
  - destruct (startswith pat (c :: s)) eqn:E.
    + apply startswith_iff in E as [r E].
      exists [], r. split; [exact E | unfold len; simpl; lia].
    + destruct (IH (off + 1)) as (pre & post & E1 & E2); [lia | exact H |].
      exists (c :: pre), post. split.
      * simpl. rewrite <- E1. reflexivity.
      * rewrite E2. unfold len. simpl List.length. lia.
Qed.

Lemma skipn_len_app (pre rest : pystr) :
  skipn (Z.to_nat (len pre)) (pre ++ rest) = rest.
Proof.
  unfold len. rewrite Nat2Z.id.
  rewrite skipn_app, skipn_all, Nat.sub_diag. reflexivity.
Qed.

Lemma extract_final_answer_absent (text : pystr) :
  contains Cot.ANSWER_MARK text = false ->
  Cot._extract_final_answer text = None.
Proof. intros H. unfold Cot._extract_final_answer. rewrite H. reflexivity. Qed.

Lemma extract_final_answer_present (text : pystr) :
  contains Cot.ANSWER_MARK text = true ->
  exists pre post,
    text = pre ++ Cot.ANSWER_MARK ++ post
    /\ find Cot.ANSWER_MARK text = len pre
    /\ Cot._extract_final_answer text = Some (strip post).
Proof.
  intros H. unfold Cot._extract_final_answer. rewrite H. cbn [negb].
  unfold contains in H. apply Z.leb_le in H. rewrite find_eq in *.
  destruct (find_aux_split Cot.ANSWER_MARK text 0) as (pre & post & E1 & E2);
    [lia | lia |].
  exists pre, post. split; [exact E1 | split; [lia |]].
  rewrite E2. f_equal. f_equal.
  assert (L : len Cot.ANSWER_MARK = 5) by reflexivity.
  rewrite slice_from_eq.
  - replace (0 + len pre + 5) with (len (pre ++ Cot.ANSWER_MARK))
      by (rewrite len_app; lia).
    rewrite E1 at 1. rewrite app_assoc. apply skipn_len_app.
  - rewrite E1, !len_app.
    pose proof (len_nonneg pre); pose proof (len_nonneg post). lia.
Qed.

(** C5, as the code has it. The final answer is looked for before any
    action. Without the marker the extraction gives nothing. With the
    marker somewhere in the completion, the extraction gives the trimmed
    text that follows its first occurrence; when that text is not empty
    the round ends the run with it, whatever action block the completion
    also holds: no tool runs and no message is appended. *)
Theorem final_answer_priority (s : Cot.run_state) :
  let text := Cot.round_response client s in
  (contains Cot.ANSWER_MARK text = false ->
   Cot._extract_final_answer text = None)
  /\ (contains Cot.ANSWER_MARK text = true ->
      exists pre post,
        text = pre ++ Cot.ANSWER_MARK ++ post
        /\ find Cot.ANSWER_MARK text = len pre
        /\ Cot._extract_final_answer text = Some (strip post)
        /\ (truthy (strip post) = true ->
            let '(result, s') := Cot.run_round client tools s in
            result = Returned (Some (strip post))
            /\ Cot.final_answer (Cot.agent_state s') = Some (strip post)
            /\ Cot.messages s' = Cot.messages s
            /\ Cot.actions (Cot.agent_state s') = Cot.actions (Cot.agent_state s)
            /\ Cot.observations (Cot.agent_state s')
               = Cot.observations (Cot.agent_state s))).
Proof.
  cbv zeta. split; [apply extract_final_answer_absent|].
  intros H.
  destruct (extract_final_answer_present _ H) as (pre & post & E1 & E2 & E3).
  exists pre, post. repeat (split; [assumption|]).
  intros Ht. rewrite (run_round_answer client tools s _ E3 Ht).
  unfold Cot.entered, Cot.note_thought.
  destruct (truthy (Cot._extract_thought _)); repeat split; reflexivity.
Qed.

End FinalAnswer.

(** C5 at a completion that holds an action block and then a final
    answer: the round returns the answer and dispatches nothing. *)
Lemma final_answer_priority_witness :
  contains Cot.ANSWER_MARK Sample.answer_and_action = true
  /\ @Cot._extract_final_answer Sample.answer_and_action = Some (lit "850")
  /\ fst (@Cot.run_round Ref.runtime (Sample.always Sample.answer_and_action)
            Ref.cot_tools Sample.fresh)
     = Returned (Some (lit "850"))
  /\ Cot.messages
       (snd (@Cot.run_round Ref.runtime (Sample.always Sample.answer_and_action)
               Ref.cot_tools Sample.fresh))
     = Cot.messages Sample.fresh.
Proof.
  assert (Hc : contains Cot.ANSWER_MARK Sample.answer_and_action = true)
    by (vm_compute; reflexivity).
  assert (He : Cot._extract_final_answer Sample.answer_and_action
               = Some (lit "850")) by (vm_compute; reflexivity).
  split; [exact Hc | split; [exact He |]].
  destruct (@final_answer_priority Ref.runtime
              (Sample.always Sample.answer_and_action) Ref.cot_tools Sample.fresh)
    as [_ H].
  destruct (H Hc) as (pre & post & _ & _ & E & Hrun).
  change (Cot.round_response (Sample.always Sample.answer_and_action) Sample.fresh)
    with Sample.answer_and_action in E.
  rewrite He in E. injection E as E.
  rewrite <- E in Hrun.
  specialize (Hrun eq_refl).
  destruct (Cot.run_round _ _ _) as [result s'].
  destruct Hrun as (H1 & _ & H3 & _).
  split; [exact H1 | exact H3].
Defined.

(** The claim C5 as it is worded fails on a completion whose marker is
    followed by blanks only: the marker is there, the extraction gives
    the empty string, and the round does not end the run, which goes on
    to its last round and returns the exhaustion message. *)
Lemma final_answer_blank_counterexample :
  contains Cot.ANSWER_MARK Sample.blank_answer = true
  /\ Cot._extract_final_answer Sample.blank_answer = Some []
  /\ fst (@Cot.run_round Ref.runtime (Sample.always Sample.blank_answer)
            Ref.cot_tools Sample.fresh)
     = Returned None
  /\ fst (@Cot.run Ref.runtime (Sample.always Sample.blank_answer)
            Ref.cot_tools Cot.AgentState_new Sample.query)
     = Returned Cot.EXHAUSTED.
Proof. repeat split; vm_compute; reflexivity. Qed.

(** ** Action blocks *)

Section ActionExtraction.
Context {R : PyRuntime}.
Variable client : nat -> list Cot.message -> outcome pystr.
Variable tools : list Cot.BaseTool.

Lemma skipn_app_le (a : nat) (x y : pystr) :
  (a <= List.length x)%nat -> skipn a (x ++ y) = skipn a x ++ y.
Proof.
  intros H. rewrite skipn_app.
  replace (a - List.length x)%nat with 0%nat by lia. reflexivity.
Qed.

Lemma firstn_app_le (n : nat) (x y : pystr) :
  (n <= List.length x)%nat -> firstn n (x ++ y) = firstn n x.
Proof.
  intros H. rewrite firstn_app.
  replace (n - List.length x)%nat with 0%nat by lia.
  simpl. apply app_nil_r.
Qed.

Lemma len_skipn (a : Z) (c : pystr) :
  0 <= a <= len c -> len (skipn (Z.to_nat a) c) = len c - a.
Proof. intros H. unfold len in *. rewrite length_skipn. lia. Qed.

Lemma find_from_range (pat c : pystr) (a : Z) :
  0 <= a <= len c ->
  find_from pat c a = -1 \/
  (a <= find_from pat c a /\ find_from pat c a + len pat <= len c).
Proof.
  intros H. rewrite find_from_eq by exact H.
  destruct (find_aux_range pat (skipn (Z.to_nat a) c) a) as [E|[E1 E2]];
    [lia | left; exact E | right].
  rewrite len_skipn in E2 by exact H. lia.
Qed.

Lemma find_from_extend (pat c rest : pystr) (a : Z) :
  0 <= a <= len c ->
  find_from pat c a <> -1 ->
  find_from pat (c ++ rest) a = find_from pat c a.
Proof.
  intros H N. rewrite !find_from_eq in *;
    try (rewrite len_app; pose proof (len_nonneg rest); lia); try exact H.
  rewrite skipn_app_le by (unfold len in H; lia).
  apply find_aux_extend; [lia | exact N].
Qed.

Lemma find_from_occurs (pat x y : pystr) (a : Z) :
  0 <= a <= len x ->
  a <= find_from pat (x ++ pat ++ y) a <= len x.
Proof.
  intros H. rewrite find_from_eq
    by (rewrite len_app; pose proof (len_nonneg (pat ++ y)); lia).
  rewrite skipn_app_le by (unfold len in H; lia).
  pose proof (find_aux_occurs pat (skipn (Z.to_nat a) x) y a) as O.
  rewrite len_skipn in O by exact H. lia.
Qed.

Lemma slice_extend (c rest : pystr) (a b : Z) :
  0 <= a <= b -> b <= len c ->
  slice (c ++ rest) a b = slice c a b.
Proof.
  intros H1 H2.
  rewrite !slice_eq;
    try (rewrite len_app; pose proof (len_nonneg rest); lia); try lia.
  rewrite skipn_app_le by (unfold len in H2; lia).
  apply firstn_app_le.
  pose proof (len_skipn a c) as L. unfold len in *. lia.
Qed.

(** What follows the closing fence of the first block plays no part in
    the extraction. *)
Lemma extract_action_first_block (pre body rest : pystr) :
  Cot._extract_action
    (pre ++ Cot.FENCE_OPEN ++ body ++ Cot.FENCE_CLOSE ++ rest)
  = Cot._extract_action (pre ++ Cot.FENCE_OPEN ++ body ++ Cot.FENCE_CLOSE).
Proof.
  set (c := pre ++ Cot.FENCE_OPEN ++ body ++ Cot.FENCE_CLOSE).
  replace (pre ++ Cot.FENCE_OPEN ++ body ++ Cot.FENCE_CLOSE ++ rest)
    with (c ++ rest) by (unfold c; rewrite <- !app_assoc; reflexivity).
  assert (Lo : len Cot.FENCE_OPEN = 8) by reflexivity.
  assert (Lc : len Cot.FENCE_CLOSE = 4) by reflexivity.
  pose proof (len_nonneg pre) as Npre. pose proof (len_nonneg body) as Nbody.
  assert (Lall : len c = len pre + 8 + len body + 4)
    by (unfold c; rewrite !len_app; lia).
  (* the opening fence *)
  pose proof (find_from_occurs Cot.FENCE_OPEN pre (body ++ Cot.FENCE_CLOSE) 0)
    as Op. fold c in Op. fold (find Cot.FENCE_OPEN c) in Op.
  assert (Eo : find Cot.FENCE_OPEN (c ++ rest) = find Cot.FENCE_OPEN c).
  { unfold find. apply find_from_extend; [lia|]. fold (find Cot.FENCE_OPEN c). lia. }
  (* the closing fence *)
  set (a := find Cot.FENCE_OPEN c + 8) in *.
  assert (Ha : 0 <= a <= len (pre ++ Cot.FENCE_OPEN ++ body))
    by (rewrite !len_app; lia).
  pose proof (find_from_occurs Cot.FENCE_CLOSE
                (pre ++ Cot.FENCE_OPEN ++ body) [] a Ha) as Cl.
  replace ((pre ++ Cot.FENCE_OPEN ++ body) ++ Cot.FENCE_CLOSE ++ [])
    with c in Cl by (unfold c; rewrite app_nil_r, <- !app_assoc; reflexivity).
  assert (Ec : find_from Cot.FENCE_CLOSE (c ++ rest) a
               = find_from Cot.FENCE_CLOSE c a).
  { apply find_from_extend; [rewrite !len_app in Ha; lia | lia]. }
  unfold Cot._extract_action. rewrite Eo. fold a. rewrite Ec.
  destruct ((a <? 8) || (find_from Cot.FENCE_CLOSE c a <? 0)); [reflexivity|].
  rewrite slice_extend; [reflexivity | lia |].
  rewrite !len_app in Cl. lia.
Qed.

(** The first block is the action: when the opening fence after [pre]
    is the first of the text and the closing fence after [body] is the
    first one after it, the extraction parses [body], trimmed. *)
Lemma extract_action_block (pre body rest : pystr) :
  find Cot.FENCE_OPEN (pre ++ Cot.FENCE_OPEN) = len pre ->
  find Cot.FENCE_CLOSE (body ++ Cot.FENCE_CLOSE) = len body ->
  Cot._extract_action
    (pre ++ Cot.FENCE_OPEN ++ body ++ Cot.FENCE_CLOSE ++ rest)
  = try_except (json_loads (strip body)) (fun _ => Returned JNull).
Proof.
  intros Ho Hc.
  assert (Lo : len Cot.FENCE_OPEN = 8) by reflexivity.
  assert (Lc : len Cot.FENCE_CLOSE = 4) by reflexivity.
  pose proof (len_nonneg pre) as Npre. pose proof (len_nonneg body) as Nbody.
  pose proof (len_nonneg rest) as Nrest.
  set (tail := body ++ Cot.FENCE_CLOSE ++ rest).
  assert (Lt : len tail = len body + 4 + len rest)
    by (unfold tail; rewrite !len_app; lia).
  replace (pre ++ Cot.FENCE_OPEN ++ tail)
    with ((pre ++ Cot.FENCE_OPEN) ++ tail)
    by (rewrite <- app_assoc; reflexivity).
  assert (Lp : len (pre ++ Cot.FENCE_OPEN) = len pre + 8)
    by (rewrite len_app; lia).
  assert (Eo : find Cot.FENCE_OPEN ((pre ++ Cot.FENCE_OPEN) ++ tail) = len pre).
  { unfold find in *. rewrite find_from_extend; [exact Ho | lia | lia]. }
  assert (Ef : find_aux Cot.FENCE_CLOSE tail 0 = len body).
  { unfold tail. rewrite app_assoc, find_aux_extend; rewrite <- ?find_eq; lia. }
  assert (Ec : find_from Cot.FENCE_CLOSE ((pre ++ Cot.FENCE_OPEN) ++ tail)
                 (len pre + 8)
               = len pre + 8 + len body).
  { rewrite find_from_eq by (rewrite len_app; lia).
    rewrite <- Lp, skipn_len_app, find_aux_shift, Ef.
    replace (len body =? -1) with false by (symmetry; apply Z.eqb_neq; lia).
    reflexivity. }
  unfold Cot._extract_action. rewrite Eo, Ec.
  replace (len pre + 8 <? 8) with false by (symmetry; apply Z.ltb_ge; lia).
  replace (len pre + 8 + len body <? 0) with false
    by (symmetry; apply Z.ltb_ge; lia).
  cbn [orb].
  rewrite slice_eq by (rewrite len_app; lia).
  rewrite <- Lp, skipn_len_app.
  replace (len (pre ++ Cot.FENCE_OPEN) + len body - len (pre ++ Cot.FENCE_OPEN))
    with (len body) by lia.
  unfold tail, len. rewrite Nat2Z.id, firstn_app, firstn_all, Nat.sub_diag.
  cbn [firstn]. rewrite app_nil_r. reflexivity.
Qed.

(** C8. Only the first fenced block counts. When the text holds an
    opening fence, first after [pre], and a closing fence, first after
    [body] from there on, the action is what [body] parses to, and the
    text after that closing fence, further blocks included, does not
    change what is extracted. In a round without a final answer whose
    completion has no opening fence, or no closing fence after it, or
    whose text between them is not JSON, no action is extracted, the round
    returns to the loop without raising, and the message log, the actions
    and the observations are what they were. *)
Theorem action_extraction (s : Cot.run_state) (pre body rest : pystr) :
  let response := Cot.round_response client s in
  let action_start := find Cot.FENCE_OPEN response + 8 in
  let action_end := find_from Cot.FENCE_CLOSE response action_start in
  (find Cot.FENCE_OPEN (pre ++ Cot.FENCE_OPEN) = len pre ->
   find Cot.FENCE_CLOSE (body ++ Cot.FENCE_CLOSE) = len body ->
   Cot._extract_action
     (pre ++ Cot.FENCE_OPEN ++ body ++ Cot.FENCE_CLOSE ++ rest)
   = try_except (json_loads (strip body)) (fun _ => Returned JNull))
  /\ Cot._extract_action
       (pre ++ Cot.FENCE_OPEN ++ body ++ Cot.FENCE_CLOSE ++ rest)
     = Cot._extract_action (pre ++ Cot.FENCE_OPEN ++ body ++ Cot.FENCE_CLOSE)
  /\ (Cot.response_text client (Cot.llm_calls s) (Cot.messages s)
       = Returned response ->
      Cot.answer_given (Cot._extract_final_answer response) = false ->
      (find Cot.FENCE_OPEN response = -1
       \/ action_end = -1
       \/ exists e,
            json_loads (strip (slice response action_start action_end))
            = Raised e) ->
      Cot._extract_action response = Returned JNull
      /\ Cot.run_round client tools s = (Returned None, Cot.entered client s)
      /\ Cot.messages (Cot.entered client s) = Cot.messages s
      /\ Cot.actions (Cot.agent_state (Cot.entered client s))
         = Cot.actions (Cot.agent_state s)
      /\ Cot.observations (Cot.agent_state (Cot.entered client s))
         = Cot.observations (Cot.agent_state s)).
Proof.
  cbv zeta.
  split; [apply extract_action_block|].
  split; [apply extract_action_first_block|].
  intros Hr Hn Hbad.
  assert (E : Cot._extract_action (Cot.round_response client s) = Returned JNull).
  { unfold Cot._extract_action.
    destruct Hbad as [H|[H|[e H]]].
    - rewrite H. reflexivity.
    - rewrite H. rewrite orb_true_r. reflexivity.
    - destruct (_ || _); [reflexivity|]. rewrite H. reflexivity. }
  split; [exact E|]. split.
  - rewrite run_round_no_answer by assumption.
    rewrite (run_action_none tools _ JNull _ E eq_refl). reflexivity.
  - unfold Cot.entered, Cot.note_thought.
    destruct (truthy _); repeat split; reflexivity.
Qed.

End ActionExtraction.

(** Of two blocks, the first is the action. *)
Example extract_action_two_blocks :
  @Cot._extract_action Ref.runtime Sample.two_blocks
  = Returned (JObj [ (lit "tool", JStr (lit "search"));
                     (lit "tool_input",
                      JObj [ (lit "query", JStr (lit "人工智能")) ]) ]).
Proof. vm_compute. reflexivity. Qed.

(** C8 at a completion of two blocks, whose first block is parsed and is
    the action, and at a completion whose block is not JSON. *)
Lemma action_extraction_witness :
  find Cot.FENCE_OPEN ((lit "行动：" ++ [LF]) ++ Cot.FENCE_OPEN)
  = len (lit "行动：" ++ [LF])
  /\ find Cot.FENCE_CLOSE (Sample.search_action ++ Cot.FENCE_CLOSE)
     = len Sample.search_action
  /\ Cot.response_text (Sample.always Sample.malformed)
       (Cot.llm_calls Sample.fresh) (Cot.messages Sample.fresh)
     = Returned (Cot.round_response (Sample.always Sample.malformed) Sample.fresh)
  /\ Cot.answer_given (Cot._extract_final_answer Sample.malformed) = false
  /\ (exists e, Ref.json_loads (lit "{tool: calculator}") = Raised e)
  /\ @Cot._extract_action Ref.runtime Sample.two_blocks
     = try_except (Ref.json_loads (strip Sample.search_action))
         (fun _ => Returned JNull)
  /\ Ref.json_loads (strip Sample.search_action)
     = Returned (JObj [ (lit "tool", JStr (lit "search"));
                        (lit "tool_input",
                         JObj [ (lit "query", JStr (lit "人工智能")) ]) ])
  /\ @Cot._extract_action Ref.runtime Sample.malformed = Returned JNull
  /\ @Cot.run_round Ref.runtime (Sample.always Sample.malformed)
       Ref.cot_tools Sample.fresh
     = (Returned None, Cot.entered (Sample.always Sample.malformed) Sample.fresh)
  /\ Cot.messages (Cot.entered (Sample.always Sample.malformed) Sample.fresh)
     = Cot.messages Sample.fresh.
Proof.
  assert (Ho : find Cot.FENCE_OPEN ((lit "行动：" ++ [LF]) ++ Cot.FENCE_OPEN)
               = len (lit "行动：" ++ [LF])) by (vm_compute; reflexivity).
  assert (Hc : find Cot.FENCE_CLOSE (Sample.search_action ++ Cot.FENCE_CLOSE)
               = len Sample.search_action) by (vm_compute; reflexivity).
  assert (Hr : Cot.response_text (Sample.always Sample.malformed)
                 (Cot.llm_calls Sample.fresh) (Cot.messages Sample.fresh)
               = Returned (Cot.round_response (Sample.always Sample.malformed)
                             Sample.fresh)) by reflexivity.
  assert (Hn : Cot.answer_given (Cot._extract_final_answer Sample.malformed)
               = false) by (vm_compute; reflexivity).
  assert (Hb : exists e, Ref.json_loads (lit "{tool: calculator}") = Raised e)
    by (eexists; vm_compute; reflexivity).
  assert (Hp : Ref.json_loads (strip Sample.search_action)
               = Returned (JObj [ (lit "tool", JStr (lit "search"));
                                  (lit "tool_input",
                                   JObj [ (lit "query",
                                           JStr (lit "人工智能")) ]) ]))
    by (vm_compute; reflexivity).
  destruct (@action_extraction Ref.runtime (Sample.always Sample.malformed)
              Ref.cot_tools Sample.fresh
              (lit "行动：" ++ [LF]) Sample.search_action Sample.second_block)
    as (H1 & _ & H3).
  destruct (H3 Hr Hn) as (E1 & E2 & E3 & _).
  { right; right. destruct Hb as [e Hb]. exists e.
    etransitivity; [|exact Hb]. vm_compute. reflexivity. }
  split; [exact Ho | split; [exact Hc | split; [exact Hr | split; [exact Hn|]]]].
  split; [exact Hb | split; [exact (H1 Ho Hc) | split; [exact Hp|]]].
  split; [exact E1 | split; [exact E2 | exact E3]].
Defined.

(** ** The messages of a round that runs a tool *)

Section Observation.
Context {R : PyRuntime}.
Variable client : nat -> list Cot.message -> outcome pystr.
Variable tools : list Cot.BaseTool.

(** C9, as the code has it. In a round without a final answer whose
    action is extracted and dispatched, and whose tool returns, the log
    gains exactly two messages, in this order: the raw completion as an
    assistant message, then the result of the tool, after the
    observation marker, as a user message. *)
Theorem observation_messages (s : Cot.run_state) (d : kwargs)
    (a : Cot.Action) (obs : pystr) :
  let response := Cot.round_response client s in
  Cot.answer_given (Cot._extract_final_answer response) = false ->
  Cot._extract_action response = Returned (JObj d) ->
  d <> [] ->
  Cot.Action_new (dict_get d (lit "tool") JNull)
                 (dict_get d (lit "tool_input") (JObj [])) = Returned a ->
  Cot._run_tool tools (dict_get d (lit "tool") JNull)
                (dict_get d (lit "tool_input") (JObj [])) = Returned obs ->
  fst (Cot.run_round client tools s) = Returned None
  /\ Cot.messages (snd (Cot.run_round client tools s))
     = Cot.messages s
       ++ [ Cot.assistant_msg response; Cot.user_msg (lit "观察：" ++ obs) ].
Proof.
  cbv zeta. intros Hn Hj Hd Ha Ho.
  assert (Hr : Cot.response_text client (Cot.llm_calls s) (Cot.messages s)
               = Returned (Cot.round_response client s)).
  { apply (responded_of_action client s (JObj d) Hj).
    destruct d; [contradiction | reflexivity]. }
  rewrite run_round_no_answer by assumption.
  rewrite (run_action_dispatched tools _ d a obs _ Hj Hd Ha Ho).
  split; [reflexivity|].
  cbn [snd Cot.append_message Cot.messages Cot.on_agent].
  assert (M : Cot.messages (Cot.entered client s) = Cot.messages s).
  { unfold Cot.entered, Cot.note_thought. destruct (truthy _); reflexivity. }
  rewrite M, <- app_assoc. reflexivity.
Qed.

End Observation.

(** C9 at a completion that asks for a search. *)
Lemma observation_messages_witness :
  Cot.answer_given (Cot._extract_final_answer Sample.search_only) = false
  /\ fst (@Cot.run_round Ref.runtime (Sample.always Sample.search_only)
            Ref.cot_tools Sample.fresh)
     = Returned None
  /\ Cot.messages
       (snd (@Cot.run_round Ref.runtime (Sample.always Sample.search_only)
               Ref.cot_tools Sample.fresh))
     = Cot.messages Sample.fresh
       ++ [ Cot.assistant_msg Sample.search_only;
            Cot.user_msg (lit "观察：" ++ Sample.search_result) ].
Proof.
  assert (Hn : Cot.answer_given (Cot._extract_final_answer Sample.search_only)
               = false) by (vm_compute; reflexivity).
  split; [exact Hn|].
  apply (@observation_messages Ref.runtime (Sample.always Sample.search_only)
           Ref.cot_tools Sample.fresh
           [ (lit "tool", JStr (lit "search"));
             (lit "tool_input", JObj [ (lit "query", JStr (lit "人工智能")) ]) ]
           {| Cot.tool := lit "search";
              Cot.tool_input := [ (lit "query", JStr (lit "人工智能")) ] |}
           Sample.search_result).
  - exact Hn.
  - vm_compute. reflexivity.
  - discriminate.
  - vm_compute. reflexivity.
  - vm_compute. reflexivity.
Defined.

(** The claim C9 as it is worded fails: the two messages are appended
    the other way round, the assistant message first and the observation
    after it. *)
Lemma observation_order_counterexample :
  Cot.messages
    (snd (@Cot.run_round Ref.runtime (Sample.always Sample.search_only)
            Ref.cot_tools Sample.fresh))
  <> Cot.messages Sample.fresh
     ++ [ Cot.user_msg (lit "观察：" ++ Sample.search_result);
          Cot.assistant_msg Sample.search_only ].
Proof. vm_compute. discriminate. Qed.

(** ** What a run does to the agent state *)

Section Frame.
Context {R : PyRuntime}.
Variable client : nat -> list Cot.message -> outcome pystr.
Variable tools : list Cot.BaseTool.

Lemma extends_refl {A} (l : list A) : extends l l.
Proof. exists []. symmetry; apply app_nil_r. Qed.

Lemma extends_trans {A} (l1 l2 l3 : list A) :
  extends l1 l2 -> extends l2 l3 -> extends l1 l3.
Proof. intros [t ->] [u ->]. exists (t ++ u). rewrite app_assoc. reflexivity. Qed.

Lemma extends_app {A} (l t : list A) : extends l (l ++ t).
Proof. exists t; reflexivity. Qed.

Lemma grows_refl (a : Cot.AgentState) : grows a a.
Proof. repeat split; apply extends_refl. Qed.

Lemma grows_trans (a b c : Cot.AgentState) : grows a b -> grows b c -> grows a c.
Proof.
  intros (H1 & H2 & H3) (K1 & K2 & K3).
  repeat split; eapply extends_trans; eassumption.
Qed.

(** The action step appends to the actions and the observations, and
    leaves the thoughts, the answer and the count of requests alone,
    also when it raises. *)
Lemma run_action_frame (response : pystr) (s : Cot.run_state) :
  let s' := snd (Cot.run_action tools response s) in
  grows (Cot.agent_state s) (Cot.agent_state s')
  /\ Cot.final_answer (Cot.agent_state s') = Cot.final_answer (Cot.agent_state s)
  /\ Cot.llm_calls s' = Cot.llm_calls s.
Proof.
  cbv zeta. unfold Cot.run_action, bind, lift, modify, ret.
  destruct (Cot._extract_action response) as [j|e|b]; cbn [snd];
    try (split; [apply grows_refl | split; reflexivity]).
  destruct (negb (json_truthy j)); cbn [snd];
    [split; [apply grows_refl | split; reflexivity]|].
  destruct (as_dict j) as [d|e|b]; cbn [snd];
    try (split; [apply grows_refl | split; reflexivity]).
  destruct (Cot.Action_new _ _) as [a|e|b]; cbn [snd];
    try (split; [apply grows_refl | split; reflexivity]).
  destruct (Cot._run_tool _ _ _) as [obs|e|b]; cbn [snd];
    [destruct (Cot.ToolCall_new _ _) as [tc|e|b]; cbn [snd] | |];
    (split; [|split; reflexivity]);
    repeat split; cbn; try apply extends_refl; apply extends_app.
Qed.

Lemma entered_frame (s : Cot.run_state) :
  grows (Cot.agent_state s) (Cot.agent_state (Cot.entered client s))
  /\ Cot.final_answer (Cot.agent_state (Cot.entered client s))
     = Cot.final_answer (Cot.agent_state s)
  /\ Cot.llm_calls (Cot.entered client s) = S (Cot.llm_calls s).
Proof.
  unfold Cot.entered, Cot.note_thought.
  destruct (truthy _); (split; [|split; reflexivity]).
  - repeat split; cbn; try apply extends_refl; apply extends_app.
  - apply grows_refl.
Qed.

(** A round sends one request. It either returns a final answer, which
    its completion carried and which it has stored, or leaves the stored
    answer alone. *)
Lemma run_round_frame (s : Cot.run_state) :
  let '(o, s') := Cot.run_round client tools s in
  grows (Cot.agent_state s) (Cot.agent_state s')
  /\ Cot.llm_calls s' = S (Cot.llm_calls s)
  /\ ((exists a, o = Returned (Some a)
                 /\ Cot.final_answer (Cot.agent_state s') = Some a
                 /\ Cot._extract_final_answer (Cot.round_response client s)
                    = Some a
                 /\ truthy a = true)
      \/ (forall a, o <> Returned (Some a))
         /\ Cot.final_answer (Cot.agent_state s')
            = Cot.final_answer (Cot.agent_state s)).
Proof.
  destruct (round_response_cases client s) as [Hr|(b & Hb & _)].
  - destruct (entered_frame s) as (G & F & C).
    destruct (Cot.answer_given
                (Cot._extract_final_answer (Cot.round_response client s))) eqn:E.
    + destruct (Cot._extract_final_answer _) as [a|] eqn:Ea; [|discriminate].
      simpl in E. rewrite (run_round_answer client tools s a Ea E).
      split; [|split; [exact C | left; exists a; repeat split; assumption]].
      destruct G as (G1 & G2 & G3). repeat split; cbn; assumption.
    + rewrite (run_round_no_answer client tools s Hr E).
      pose proof (run_action_frame (Cot.round_response client s)
                    (Cot.entered client s)) as H. cbv zeta in H.
      destruct (Cot.run_action _ _ _) as [[[]|e|b] s']; cbn [snd] in H;
        destruct H as (G' & F' & C');
        (split; [eapply grows_trans; eassumption |]);
        (split; [congruence |]); right;
        (split; [intros a; discriminate | congruence]).
  - rewrite (run_round_escaped client tools s b Hb).
    split; [apply grows_refl | split; [reflexivity | right]].
    split; [intros a; discriminate | reflexivity].
Qed.

(** A run of rounds appends to the lists of the state. The answer it
    leaves is the one it found, or, when it returns a final answer, that
    answer, which a completion carried. *)
Lemma run_loop_frame (n : nat) (s : Cot.run_state) :
  let '(o, s') := Cot.run_loop client tools n s in
  grows (Cot.agent_state s) (Cot.agent_state s')
  /\ (Cot.final_answer (Cot.agent_state s')
        = Cot.final_answer (Cot.agent_state s)
      \/ exists a s0,
           o = Returned a
           /\ Cot.final_answer (Cot.agent_state s') = Some a
           /\ Cot._extract_final_answer (Cot.round_response client s0) = Some a
           /\ truthy a = true).
Proof.
  revert s; induction n as [|n IH]; intros s; cbn [Cot.run_loop].
  - unfold ret. split; [apply grows_refl | left; reflexivity].
  - unfold bind. pose proof (run_round_frame s) as F.
    destruct (Cot.run_round client tools s) as [[[a|]|e|b] s1];
      destruct F as (G & _ & [(a' & E & Fa & Ea & Ta) | (N & Fa)]);
      try discriminate; try (exfalso; eapply N; reflexivity).
    + injection E as <-. unfold ret. split; [exact G | right].
      exists a, s. repeat split; assumption.
    + specialize (IH s1).
      destruct (Cot.run_loop client tools n s1) as [o s'].
      destruct IH as (G' & Fa').
      split; [eapply grows_trans; eassumption|].
      destruct Fa' as [Fa'|Fa']; [left; congruence | right; exact Fa'].
    + split; [exact G | left; exact Fa].
    + split; [exact G | left; exact Fa].
Qed.

(** Rounds that all pass on to the next one use up the budget: [n]
    requests, then the exhaustion message. *)
Lemma run_loop_exhausts (n : nat) (s : Cot.run_state) :
  (forall s', fst (Cot.run_round client tools s') = Returned None) ->
  fst (Cot.run_loop client tools n s) = Returned Cot.EXHAUSTED
  /\ Cot.llm_calls (snd (Cot.run_loop client tools n s))
     = (Cot.llm_calls s + n)%nat.
Proof.
  intros H. revert s; induction n as [|n IH]; intros s; cbn [Cot.run_loop].
  - unfold ret. cbn. split; [reflexivity | lia].
  - unfold bind. pose proof (run_round_frame s) as F. specialize (H s).
    destruct (Cot.run_round client tools s) as [o s1]. cbn [fst] in H. subst o.
    destruct F as (_ & C & _). destruct (IH s1) as (I1 & I2).
    split; [exact I1 | rewrite I2, C; lia].
Qed.

End Frame.

(** C10. [run] starts from the state the agent has and never empties
    it. Over two calls in a row on the same agent, the thoughts, the
    observations and the actions after each call are those before it with
    the new ones appended. The final answer after a call is the one before
    it, unless the call returned a final answer: a text that is not empty,
    that a completion of that call carried after the marker, and that is
    then stored. So a call none of whose completions carries a final
    answer, whether it runs out of rounds or raises, leaves the final
    answer of the call before it in the state. *)
Theorem state_persists {R : PyRuntime}
    (client1 client2 : nat -> list Cot.message -> outcome pystr)
    (tools : list Cot.BaseTool) (st : Cot.AgentState) (q1 q2 : pystr) :
  let r1 := Cot.run client1 tools st q1 in
  let st1 := Cot.agent_state (snd r1) in
  let r2 := Cot.run client2 tools st1 q2 in
  let st2 := Cot.agent_state (snd r2) in
  grows st st1 /\ grows st1 st2
  /\ (Cot.final_answer st1 = Cot.final_answer st
      \/ exists a s0,
           fst r1 = Returned a /\ Cot.final_answer st1 = Some a
           /\ Cot._extract_final_answer (Cot.round_response client1 s0) = Some a
           /\ truthy a = true)
  /\ (Cot.final_answer st2 = Cot.final_answer st1
      \/ exists a s0,
           fst r2 = Returned a /\ Cot.final_answer st2 = Some a
           /\ Cot._extract_final_answer (Cot.round_response client2 s0) = Some a
           /\ truthy a = true)
  /\ ((forall s0,
         Cot.answer_given
           (Cot._extract_final_answer (Cot.round_response client1 s0)) = false) ->
      Cot.final_answer st1 = Cot.final_answer st)
  /\ ((forall s0,
         Cot.answer_given
           (Cot._extract_final_answer (Cot.round_response client2 s0)) = false) ->
      Cot.final_answer st2 = Cot.final_answer st1).
Proof.
  cbv zeta. unfold Cot.run.
  pose proof (run_loop_frame client1 tools Cot.max_iterations
                (Cot.start tools st q1)) as F1.
  destruct (Cot.run_loop client1 tools _ (Cot.start tools st q1)) as [o1 s1].
  cbn [fst snd Cot.start Cot.agent_state] in *.
  pose proof (run_loop_frame client2 tools Cot.max_iterations
                (Cot.start tools (Cot.agent_state s1) q2)) as F2.
  destruct (Cot.run_loop client2 tools _ _) as [o2 s2].
  cbn [fst snd Cot.start Cot.agent_state] in *.
  destruct F1 as (G1 & A1). destruct F2 as (G2 & A2).
  split; [exact G1 | split; [exact G2 | split; [exact A1 | split; [exact A2|]]]].
  split; intros H.
  - destruct A1 as [A1|(a & s0 & _ & _ & Ea & Ta)]; [exact A1|].
    specialize (H s0). rewrite Ea in H. cbn [Cot.answer_given] in H. congruence.
  - destruct A2 as [A2|(a & s0 & _ & _ & Ea & Ta)]; [exact A2|].
    specialize (H s0). rewrite Ea in H. cbn [Cot.answer_given] in H. congruence.
Qed.

(** C10 at a first call that returns the answer of its first completion
    and a second call whose completions hold neither an answer nor an
    action: the second call runs out of rounds, and the answer and the
    thought of the first call are still in the state. *)
Lemma state_persists_witness :
  let st1 := Cot.agent_state
               (snd (@Cot.run Ref.runtime (Sample.always Sample.answer_and_action)
                       Ref.cot_tools Cot.AgentState_new Sample.query)) in
  let r2 := @Cot.run Ref.runtime (Sample.always Sample.chatter)
              Ref.cot_tools st1 Sample.query in
  (forall s0,
     Cot.answer_given
       (Cot._extract_final_answer
          (Cot.round_response (Sample.always Sample.chatter) s0)) = false)
  /\ Cot.final_answer st1 = Some (lit "850")
  /\ fst r2 = Returned Cot.EXHAUSTED
  /\ Cot.final_answer (Cot.agent_state (snd r2)) = Cot.final_answer st1
  /\ grows st1 (Cot.agent_state (snd r2)).
Proof.
  cbv zeta.
  assert (H : forall s0,
             Cot.answer_given
               (Cot._extract_final_answer
                  (Cot.round_response (Sample.always Sample.chatter) s0))
             = false) by (intros s0; vm_compute; reflexivity).
  split; [exact H|].
  split; [vm_compute; reflexivity|].
  split; [vm_compute; reflexivity|].
  destruct (@state_persists Ref.runtime
              (Sample.always Sample.answer_and_action)
              (Sample.always Sample.chatter)
              Ref.cot_tools Cot.AgentState_new Sample.query Sample.query)
    as (_ & G & _ & _ & _ & P).
  split; [exact (P H) | exact G].
Defined.

(** A second run on the same agent: the thought and the answer of the
    first run are still in the state after the second one has run out of
    rounds. *)
Example stale_answer_after_second_run :
  let st1 := Cot.agent_state
               (snd (@Cot.run Ref.runtime (Sample.always Sample.answer_and_action)
                       Ref.cot_tools Cot.AgentState_new Sample.query)) in
  let r2 := @Cot.run Ref.runtime (Sample.always Sample.chatter)
              Ref.cot_tools st1 Sample.query in
  fst r2 = Returned Cot.EXHAUSTED
  /\ Cot.final_answer (Cot.agent_state (snd r2)) = Some (lit "850")
  /\ map Cot.thought (Cot.thoughts (Cot.agent_state (snd r2)))
     = [ lit "已经可以回答" ].
Proof. vm_compute. repeat split; reflexivity. Qed.

(** ** The budget of rounds *)

(** When every round passes on to the next one, [run] sends exactly
    five requests and returns the exhaustion message. *)
Lemma run_exhausts_budget {R : PyRuntime}
    (client : nat -> list Cot.message -> outcome pystr)
    (tools : list Cot.BaseTool) (st : Cot.AgentState) (query : pystr) :
  (forall s, fst (Cot.run_round client tools s) = Returned None) ->
  fst (Cot.run client tools st query) = Returned Cot.EXHAUSTED
  /\ Cot.llm_calls (snd (Cot.run client tools st query)) = 5%nat.
Proof.
  intros H. unfold Cot.run.
  destruct (run_loop_exhausts client tools Cot.max_iterations
              (Cot.start tools st query) H) as (H1 & H2).
  split; [exact H1 | rewrite H2; reflexivity].
Qed.

(** A model that never answers and never acts. *)
Example run_exhausts_budget_chatter :
  fst (@Cot.run Ref.runtime (Sample.always Sample.chatter)
         Ref.cot_tools Cot.AgentState_new Sample.query)
  = Returned Cot.EXHAUSTED
  /\ Cot.llm_calls
       (snd (@Cot.run Ref.runtime (Sample.always Sample.chatter)
               Ref.cot_tools Cot.AgentState_new Sample.query)) = 5%nat.
Proof.
  apply run_exhausts_budget. intros s.
  rewrite run_round_no_answer by reflexivity.
  rewrite (run_action_none Ref.cot_tools Sample.chatter JNull);
    reflexivity.
Qed.

(** C2 at a run whose first completion asks for the search tool
    without its argument: no round gives a final answer, and the run does
    not reach its fifth round. The call of the tool raises, nothing in
    [run] catches it, and the run ends after one request with that
    exception instead of the exhaustion message. *)
Theorem budget_cut_short_by_raise :
  Cot.answer_given (Cot._extract_final_answer Sample.missing_argument) = false
  /\ fst (@Cot.run Ref.runtime (Sample.always Sample.missing_argument)
            Ref.cot_tools Cot.AgentState_new Sample.query)
     = Raised (Exn TypeError
         (lit "SearchTool.run() missing 1 required positional argument: 'query'"))
  /\ Cot.llm_calls
       (snd (@Cot.run Ref.runtime (Sample.always Sample.missing_argument)
               Ref.cot_tools Cot.AgentState_new Sample.query)) = 1%nat.
Proof. vm_compute. repeat split; reflexivity. Qed.

(** ** Failures of a tool call *)




(** C1 at an action that names the calculator and gives it a keyword
    it does not have. In the free-text variant the [TypeError] of the
    call leaves [_run_tool] and then [run]; the same call in the
    structured variant is caught and answered by a tool message. *)
Theorem dispatch_failure_propagates :
  @Cot._run_tool Ref.runtime Ref.cot_tools (JStr (lit "calculator"))
     (JObj [ (lit "expr", JStr (lit "1+1")) ])
  = Raised (Exn TypeError
      (lit "CalculatorTool.run() got an unexpected keyword argument 'expr'"))
  /\ fst (@Cot.run Ref.runtime (Sample.always Sample.wrong_keyword)
            Ref.cot_tools Cot.AgentState_new Sample.query)
     = Raised (Exn TypeError
         (lit "CalculatorTool.run() got an unexpected keyword argument 'expr'"))
  /\ @Fc.process_tool_call Ref.runtime Ref.fc_tools
       {| Fc.id := Some (lit "call_1"); Fc.type_ := lit "function";
          Fc.fn_name := Some (lit "calculator");
          Fc.fn_arguments := dq "{'expr': '1+1'}" |}
     = Returned (Fc.MsgTool (Some (lit "call_1")) (Some (lit "calculator"))
         (lit "执行工具 calculator 时出错: CalculatorTool.execute() got an unexpected keyword argument 'expr'")).
Proof. vm_compute. repeat split; reflexivity. Qed.

(** ** Tool-call deltas *)

Section Deltas.

Lemma nth_error_update_nth {A} (k : nat) (f : A -> A) (l : list A) (i : nat) :
  nth_error (Fc.update_nth k f l) i
  = if Nat.eqb i k then option_map f (nth_error l i) else nth_error l i.
Proof.
  revert k i; induction l as [|x l IH]; intros k i.
  - destruct k, i; simpl; try reflexivity.
    destruct (Nat.eqb i k); reflexivity.
  - destruct k, i; simpl; try reflexivity. apply IH.
Qed.

Lemma length_update_nth {A} (k : nat) (f : A -> A) (l : list A) :
  List.length (Fc.update_nth k f l) = List.length l.
Proof.
  revert k; induction l as [|x l IH]; intros [|k]; simpl; try reflexivity.
  rewrite IH. reflexivity.
Qed.

Lemma add_arguments_nil (tc : Fc.tool_call) : Fc.add_arguments [] tc = tc.
Proof. destruct tc. unfold Fc.add_arguments. simpl. rewrite app_nil_r. reflexivity. Qed.

Lemma update_nth_id {A} (k : nat) (f : A -> A) (l : list A) :
  (forall x, f x = x) -> Fc.update_nth k f l = l.
Proof.
  intros H. revert k; induction l as [|x l IH]; intros [|k]; simpl;
    try reflexivity.
  - rewrite H. reflexivity.
  - rewrite IH. reflexivity.
Qed.

(** A delta for the next new index appends its entry. *)
Lemma collect_tool_call_new (l : list Fc.tool_call) (d : Fc.tc_delta) :
  Fc.index d = Z.of_nat (List.length l) ->
  Fc.collect_tool_call l d = Returned (l ++ [FcSpec.opened d]).
Proof.
  intros H. unfold Fc.collect_tool_call.
  rewrite H, Z.leb_refl.
  unfold FcSpec.opened, FcSpec.arg_text.
  destruct (Fc.d_arguments d) as [[|c a]|]; try reflexivity.
  unfold Fc.py_index. rewrite length_app. cbn [List.length].
  replace ((0 <=? Z.of_nat (List.length l))
           && (Z.of_nat (List.length l) <? Z.of_nat (List.length l + 1)))
    with true by (symmetry; apply andb_true_iff; split;
                  [apply Z.leb_le | apply Z.ltb_lt]; lia).
  cbn [obind]. rewrite Nat2Z.id. f_equal.
  clear H. induction l as [|x l IH]; simpl; [reflexivity|].
  f_equal. exact IH.
Qed.

(** A delta for an index that has its entry appends its text there. *)
Lemma collect_tool_call_old (l : list Fc.tool_call) (d : Fc.tc_delta) :
  0 <= Fc.index d < Z.of_nat (List.length l) ->
  Fc.collect_tool_call l d
  = Returned (Fc.update_nth (Z.to_nat (Fc.index d))
                (Fc.add_arguments (FcSpec.arg_text d)) l).
Proof.
  intros H. unfold Fc.collect_tool_call.
  replace (Z.of_nat (List.length l) <=? Fc.index d) with false
    by (symmetry; apply Z.leb_gt; lia).
  unfold FcSpec.arg_text.
  destruct (Fc.d_arguments d) as [[|c a]|].
  - rewrite update_nth_id by apply add_arguments_nil. reflexivity.
  - unfold Fc.py_index.
    replace ((0 <=? Fc.index d) && (Fc.index d <? Z.of_nat (List.length l)))
      with true by (symmetry; apply andb_true_iff; split;
                    [apply Z.leb_le | apply Z.ltb_lt]; lia).
    reflexivity.
  - rewrite update_nth_id by apply add_arguments_nil. reflexivity.
Qed.

Lemma args_at_cons (i : Z) (d : Fc.tc_delta) (r : list Fc.tc_delta) :
  FcSpec.args_at i (d :: r)
  = (if Fc.index d =? i then FcSpec.arg_text d else []) ++ FcSpec.args_at i r.
Proof. reflexivity. Qed.

Lemma first_at_cons (i : Z) (d : Fc.tc_delta) (r : list Fc.tc_delta) :
  FcSpec.first_at i (d :: r)
  = if Fc.index d =? i then Some d else FcSpec.first_at i r.
Proof. reflexivity. Qed.

Lemma entry_at_cons (i : Z) (d : Fc.tc_delta) (r : list Fc.tc_delta) :
  FcSpec.entry_at i (d :: r)
  = if Fc.index d =? i
    then Some {| Fc.id := Fc.d_id d; Fc.type_ := lit "function";
                 Fc.fn_name := Fc.d_name d;
                 Fc.fn_arguments := FcSpec.arg_text d ++ FcSpec.args_at i r |}
    else FcSpec.entry_at i r.
Proof.
  unfold FcSpec.entry_at. rewrite first_at_cons, args_at_cons.
  destruct (Fc.index d =? i); reflexivity.
Qed.

Lemma contiguous_nonneg (ds : list Fc.tc_delta) :
  forall n, FcSpec.contiguous n ds = true ->
            forall d, In d ds -> 0 <= Fc.index d.
Proof.
  induction ds as [|x r IH]; intros n H d Hd; [contradiction|].
  cbn [FcSpec.contiguous] in H.
  apply andb_true_iff in H as [H Hr]. apply andb_true_iff in H as [H0 _].
  destruct Hd as [<-|Hd]; [apply Z.leb_le; exact H0 | eapply IH; eassumption].
Qed.

(** Deltas whose indices come one after the other are accumulated
    without an exception. The list they leave holds, at every position,
    the entry that was there with the texts for its index appended, or
    the entry that the deltas for that index make. *)
Lemma collect_contiguous (ds : list Fc.tc_delta) :
  forall l0,
    FcSpec.contiguous (Z.of_nat (List.length l0)) ds = true ->
    exists l,
      Fc.collect_tool_calls l0 ds = Returned l
      /\ forall i,
           nth_error l i
           = match nth_error l0 i with
             | Some e0 =>
                 Some (Fc.add_arguments (FcSpec.args_at (Z.of_nat i) ds) e0)
             | None => FcSpec.entry_at (Z.of_nat i) ds
             end.
Proof.
  induction ds as [|d r IH]; intros l0 H.
  - exists l0. split; [reflexivity|]. intros i.
    destruct (nth_error l0 i) as [e0|]; [|reflexivity].
    change (FcSpec.args_at (Z.of_nat i) []) with (@nil N).
    rewrite add_arguments_nil. reflexivity.
  - cbn [FcSpec.contiguous] in H.
    apply andb_true_iff in H as [H Hr]. apply andb_true_iff in H as [H0 Hn].
    apply Z.leb_le in H0, Hn. cbn [Fc.collect_tool_calls].
    destruct (Fc.index d =? Z.of_nat (List.length l0)) eqn:En.
    + apply Z.eqb_eq in En.
      rewrite (collect_tool_call_new l0 d En). cbn [obind].
      destruct (IH (l0 ++ [FcSpec.opened d])) as (l & El & P).
      { rewrite length_app. cbn [List.length].
        replace (Z.of_nat (List.length l0 + 1))
          with (Z.of_nat (List.length l0) + 1) by lia. exact Hr. }
      exists l. split; [exact El|]. intros i. rewrite (P i).
      rewrite args_at_cons, entry_at_cons.
      destruct (nth_error l0 i) as [e0|] eqn:E0.
      * assert (Li : (i < List.length l0)%nat)
          by (apply nth_error_Some; congruence).
        rewrite nth_error_app1, E0 by exact Li.
        replace (Fc.index d =? Z.of_nat i) with false
          by (symmetry; apply Z.eqb_neq; lia).
        reflexivity.
      * apply nth_error_None in E0.
        destruct (Nat.eq_dec i (List.length l0)) as [->|Ni].
        -- rewrite nth_error_app2, Nat.sub_diag by lia. cbn [nth_error].
           rewrite En, Z.eqb_refl. reflexivity.
        -- assert (N : nth_error (l0 ++ [FcSpec.opened d]) i = None).
           { apply nth_error_None. rewrite length_app. cbn. lia. }
           rewrite N.
           replace (Fc.index d =? Z.of_nat i) with false
             by (symmetry; apply Z.eqb_neq; lia).
           reflexivity.
    + apply Z.eqb_neq in En.
      rewrite (collect_tool_call_old l0 d) by lia. cbn [obind].
      destruct (IH (Fc.update_nth (Z.to_nat (Fc.index d))
                      (Fc.add_arguments (FcSpec.arg_text d)) l0))
        as (l & El & P).
      { rewrite length_update_nth. exact Hr. }
      exists l. split; [exact El|]. intros i. rewrite (P i).
      rewrite args_at_cons, entry_at_cons, nth_error_update_nth.
      destruct (nth_error l0 i) as [e0|] eqn:E0.
      * destruct (Nat.eqb i (Z.to_nat (Fc.index d))) eqn:Ei.
        -- apply Nat.eqb_eq in Ei.
           replace (Fc.index d =? Z.of_nat i) with true
             by (symmetry; apply Z.eqb_eq; lia).
           cbn [option_map]. unfold Fc.add_arguments. cbn.
           rewrite app_assoc. reflexivity.
        -- apply Nat.eqb_neq in Ei.
           replace (Fc.index d =? Z.of_nat i) with false
             by (symmetry; apply Z.eqb_neq; lia).
           reflexivity.
      * apply nth_error_None in E0.
        replace (Fc.index d =? Z.of_nat i) with false
          by (symmetry; apply Z.eqb_neq; lia).
        destruct (Nat.eqb i _); reflexivity.
Qed.

End Deltas.

(** ** The structured loop, round by round *)

Section Streams.

Lemma collect_tool_calls_app (l : list Fc.tool_call) (a b : list Fc.tc_delta) :
  Fc.collect_tool_calls l (a ++ b)
  = obind (Fc.collect_tool_calls l a) (fun l' => Fc.collect_tool_calls l' b).
Proof.
  revert l; induction a as [|d a IH]; intros l; cbn [app Fc.collect_tool_calls].
  - reflexivity.
  - destruct (Fc.collect_tool_call l d); cbn [obind];
      [apply IH | reflexivity | reflexivity].
Qed.

Lemma stream_deltas_cons (d : Fc.delta) (rest : list Fc.delta) :
  FcSpec.stream_deltas (d :: rest)
  = FcSpec.stream_deltas [d] ++ FcSpec.stream_deltas rest.
Proof.
  unfold FcSpec.stream_deltas. cbn [map List.concat].
  rewrite app_nil_r. reflexivity.
Qed.

(** A chunk adds its tool-call deltas to the list, whatever text it
    carries. *)
Lemma process_chunk_calls (content : pystr) (l : list Fc.tool_call)
    (d : Fc.delta) (s : Fc.fc_state) :
  exists content' s',
    Fc.process_chunk (content, l) d s
    = (match Fc.collect_tool_calls l (FcSpec.stream_deltas [d]) with
       | Returned l' => Returned (content', l')
       | Raised e => Raised e
       | Escaped b => Escaped b
       end, s').
Proof.
  unfold Fc.process_chunk, FcSpec.stream_deltas, bind, ret, lift, Fc.yield, modify.
  cbn [map List.concat]. rewrite app_nil_r.
  destruct (Fc.d_content d) as [[|c t]|];
    destruct (Fc.d_tool_calls d) as [[|x xs]|].
  all: try (cbn [Fc.collect_tool_calls]; eexists; eexists; reflexivity).
  all: eexists; eexists;
    destruct (Fc.collect_tool_calls l (x :: xs)); reflexivity.
Qed.

(** The stream as a whole adds its tool-call deltas in order of
    arrival. *)
Lemma process_stream_calls (response : list Fc.delta) :
  forall content l s,
    exists content' s',
      Fc.process_stream (content, l) response s
      = (match Fc.collect_tool_calls l (FcSpec.stream_deltas response) with
         | Returned l' => Returned (content', l')
         | Raised e => Raised e
         | Escaped b => Escaped b
         end, s').
Proof.
  induction response as [|d rest IH]; intros content l s.
  - exists content, s. reflexivity.
  - cbn [Fc.process_stream]. unfold bind.
    destruct (process_chunk_calls content l d s) as (c1 & s1 & E). rewrite E.
    rewrite (stream_deltas_cons d rest), collect_tool_calls_app.
    destruct (Fc.collect_tool_calls l (FcSpec.stream_deltas [d])) as [l1|e|b];
      cbn [obind].
    + apply IH.
    + exists content, s1. reflexivity.
    + exists content, s1. reflexivity.
Qed.

End Streams.

(** C6, as the code has it. When the tool-call deltas of a streamed
    response introduce their indices one after the other from 0 (each
    delta is for an entry that exists or for the next new one), the
    stream is accumulated without an exception, and the list it leaves is
    this one: position [i] holds an entry exactly when a delta came for
    index [i], and the entry has the id and the function name of the first
    delta that came for that index and, as its argument string, the
    argument texts of all the deltas for that index in order of arrival.
    In particular every delta of the stream finds its text in the entry at
    its index. So the fragments [{"expression"] and [:"3+3"}] that come in
    two deltas at index 0 make the text [{"expression":"3+3"}], which
    parses to the object the tool is called with. *)
Theorem tool_call_deltas (response : list Fc.delta) (s : Fc.fc_state) :
  FcSpec.contiguous 0 (FcSpec.stream_deltas response) = true ->
  (exists content calls s',
     Fc.process_stream ([], []) response s = (Returned (content, calls), s')
     /\ (forall i,
           nth_error calls i
           = FcSpec.entry_at (Z.of_nat i) (FcSpec.stream_deltas response))
     /\ (forall d,
           In d (FcSpec.stream_deltas response) ->
           exists d0,
             FcSpec.first_at (Fc.index d) (FcSpec.stream_deltas response)
             = Some d0
             /\ nth_error calls (Z.to_nat (Fc.index d))
                = Some {| Fc.id := Fc.d_id d0; Fc.type_ := lit "function";
                          Fc.fn_name := Fc.d_name d0;
                          Fc.fn_arguments :=
                            FcSpec.args_at (Fc.index d)
                              (FcSpec.stream_deltas response) |}))
  /\ Fc.collect_tool_calls [] (FcSpec.stream_deltas Stream.two_fragments)
     = Returned [ {| Fc.id := Some (lit "call_1"); Fc.type_ := lit "function";
                     Fc.fn_name := Some (lit "calculator");
                     Fc.fn_arguments := dq "{'expression':'3+3'}" |} ]
  /\ Ref.json_loads (dq "{'expression':'3+3'}")
     = Returned (JObj [ (lit "expression", JStr (lit "3+3")) ]).
Proof.
  intros H. split; [|split; vm_compute; reflexivity].
  destruct (collect_contiguous (FcSpec.stream_deltas response) [] H)
    as (calls & Ec & P).
  destruct (process_stream_calls response [] [] s) as (content & s' & E).
  rewrite Ec in E.
  assert (Q : forall i,
             nth_error calls i
             = FcSpec.entry_at (Z.of_nat i) (FcSpec.stream_deltas response)).
  { intros i. rewrite (P i). destruct i; reflexivity. }
  exists content, calls, s'. split; [exact E | split; [exact Q|]].
  intros d Hd.
  pose proof (contiguous_nonneg _ _ H d Hd) as N.
  rewrite Q, Z2Nat.id by exact N. unfold FcSpec.entry_at.
  destruct (FcSpec.first_at (Fc.index d) (FcSpec.stream_deltas response))
    as [d0|] eqn:F.
  - exists d0. split; reflexivity.
  - exfalso. unfold FcSpec.first_at in F.
    pose proof (find_none _ _ F d Hd) as C. cbn beta in C.
    rewrite Z.eqb_refl in C. discriminate.
Qed.

(** C6 at the stream of two fragments: both deltas come for index 0, and
    the one entry of the list holds the id and the name of the first and
    the text of both. *)
Lemma tool_call_deltas_witness :
  FcSpec.contiguous 0 (FcSpec.stream_deltas Stream.two_fragments) = true
  /\ exists content calls s',
       Fc.process_stream ([], []) Stream.two_fragments
         (Fc.start Ref.fc_tools Sample.query)
       = (Returned (content, calls), s')
       /\ nth_error calls 0
          = Some {| Fc.id := Some (lit "call_1"); Fc.type_ := lit "function";
                    Fc.fn_name := Some (lit "calculator");
                    Fc.fn_arguments := dq "{'expression':'3+3'}" |}
       /\ nth_error calls 1 = None.
Proof.
  assert (H : FcSpec.contiguous 0 (FcSpec.stream_deltas Stream.two_fragments)
              = true) by (vm_compute; reflexivity).
  split; [exact H|].
  destruct (tool_call_deltas Stream.two_fragments
              (Fc.start Ref.fc_tools Sample.query) H)
    as ((content & calls & s' & E & Q & _) & _).
  exists content, calls, s'. split; [exact E|]. split.
  - rewrite (Q 0%nat). vm_compute. reflexivity.
  - rewrite (Q 1%nat). vm_compute. reflexivity.
Defined.

(** The claim C6 as it is worded fails on a stream whose deltas carry
    index 1 while the list is empty. The first delta opens an entry, at
    position 0; the following delta at the same index opens a second
    entry instead of appending to the first, whose argument string stays
    empty. When the first delta carries text itself, the list is indexed
    past its end and the exception leaves the round. *)
Lemma tool_call_index_counterexample :
  Fc.collect_tool_calls [] (FcSpec.stream_deltas Stream.starts_at_one)
  = Returned [ {| Fc.id := Some (lit "call_1"); Fc.type_ := lit "function";
                  Fc.fn_name := Some (lit "calculator");
                  Fc.fn_arguments := [] |};
               {| Fc.id := None; Fc.type_ := lit "function";
                  Fc.fn_name := None;
                  Fc.fn_arguments := dq "{'expression':'3+3'}" |} ]
  /\ Fc.collect_tool_call [] Stream.opens_at_one
     = Raised (Exn IndexError (lit "list index out of range")).
Proof. split; vm_compute; reflexivity. Qed.

(** ** Ending or continuing a structured round *)

Section StructuredRound.
Context {R : PyRuntime}.
Variable client : nat -> list Fc.hist_msg -> list json -> outcome (list Fc.delta).
Variable tools : list Fc.Tool.


End StructuredRound.



(** The whole of a structured run: a call of the calculator, then the
    answer. The call is dispatched once its arguments are complete, its
    result goes into the history as a tool message, and the second round
    ends the run. *)
Example structured_run_call_then_answer :
  let r := @Fc.run Ref.runtime (Stream.serve Stream.text_and_call Stream.answer)
             Ref.fc_tools Sample.query in
  fst r = Returned (Fc.Answered (lit "答案是 6。"))
  /\ Fc.api_calls (snd r) = 2%nat
  /\ Fc.yielded (snd r) = [ lit "让我算一下。"; lit "答案是 "; lit "6。" ]
  /\ skipn 2 (Fc.conversation_history (snd r))
     = [ Fc.Msg (lit "assistant") (lit "让我算一下。");
         Fc.MsgToolCalls
           [ {| Fc.id := Some (lit "call_1"); Fc.type_ := lit "function";
                Fc.fn_name := Some (lit "calculator");
                Fc.fn_arguments := dq "{'expression':'3+3'}" |} ];
         Fc.MsgTool (Some (lit "call_1")) (Some (lit "calculator"))
           (lit "计算结果: 6");
         Fc.Msg (lit "assistant") (lit "答案是 6。") ].
Proof. vm_compute. repeat split; reflexivity. Qed.

(* ================================================================= *)
(** * Further properties of the code *)

(** ** Trimming *)

Section Trimming.

Lemma lstrip_length (s : pystr) :
  (List.length (lstrip s) <= List.length s)%nat.
Proof.
  induction s as [|c s IH]; simpl; [lia|].
  destruct (isspace c); simpl; lia.
Qed.

Lemma lstrip_idem (s : pystr) : lstrip (lstrip s) = lstrip s.
Proof.
  induction s as [|c s IH]; simpl; [reflexivity|].
  destruct (isspace c) eqn:E; [exact IH|].
  simpl. rewrite E. reflexivity.
Qed.

Lemma rstrip_idem (s : pystr) : rstrip (rstrip s) = rstrip s.
Proof. unfold rstrip. rewrite rev_involutive, lstrip_idem. reflexivity. Qed.

Lemma lstrip_snoc (x : pystr) (c : N) :
  isspace c = false -> lstrip (x ++ [c]) = lstrip x ++ [c].
Proof.
  intros H. induction x as [|a x IH]; simpl.
  - rewrite H. reflexivity.
  - destruct (isspace a); [exact IH | reflexivity].
Qed.

Lemma rstrip_cons (c : N) (t : pystr) :
  isspace c = false -> rstrip (c :: t) = c :: rstrip t.
Proof.
  intros H. unfold rstrip. simpl rev.
  rewrite lstrip_snoc by exact H.
  rewrite rev_app_distr. reflexivity.
Qed.

(** Trimming on the right does not bring blanks to the front. *)
Lemma lstrip_rstrip (t : pystr) : lstrip t = t -> lstrip (rstrip t) = rstrip t.
Proof.
  intros H. destruct t as [|c t]; [reflexivity|].
  assert (E : isspace c = false).
  { destruct (isspace c) eqn:E; [|reflexivity].
    simpl in H. rewrite E in H.
    pose proof (lstrip_length t) as L. rewrite H in L. simpl in L. lia. }
  rewrite rstrip_cons by exact E. simpl. rewrite E. reflexivity.
Qed.

(** [strip] leaves nothing to strip. *)
Lemma strip_idem (s : pystr) : strip (strip s) = strip s.
Proof.
  unfold strip.
  rewrite (lstrip_rstrip (lstrip s)) by apply lstrip_idem.
  apply rstrip_idem.
Qed.

Lemma strip_no_leading_blank (s : pystr) (c : N) (t : pystr) :
  strip s = c :: t -> isspace c = false.
Proof.
  intros H. pose proof (lstrip_rstrip (lstrip s) (lstrip_idem s)) as L.
  fold (strip s) in L. rewrite H in L. simpl in L.
  destruct (isspace c) eqn:E; [|reflexivity].
  pose proof (lstrip_length t) as K. rewrite L in K. simpl in K. lia.
Qed.

Lemma strip_no_trailing_blank (s : pystr) (t : pystr) (c : N) :
  strip s = t ++ [c] -> isspace c = false.
Proof.
  intros H. pose proof (rstrip_idem (lstrip s)) as L.
  fold (strip s) in L. rewrite H in L. unfold rstrip in L.
  rewrite rev_app_distr in L. simpl in L.
  destruct (isspace c) eqn:E; [|reflexivity].
  apply (f_equal (@List.length N)) in L.
  rewrite length_rev, length_app in L. simpl in L.
  pose proof (lstrip_length (rev t)) as K. rewrite length_rev in K. lia.
Qed.

End Trimming.

(** ** Thoughts and answers *)

Section Extraction.

(** The thought is empty without its marker; with it, it is the
    trimmed text that follows the first marker, up to the first blank
    line after it when there is one. *)
Theorem extract_thought_cases (text : pystr) :
  (contains Cot.THOUGHT_MARK text = false -> Cot._extract_thought text = [])
  /\ (contains Cot.THOUGHT_MARK text = true ->
      exists pre post,
        text = pre ++ Cot.THOUGHT_MARK ++ post
        /\ find Cot.THOUGHT_MARK text = len pre
        /\ Cot._extract_thought text
           = strip (if find [LF; LF] post <? 0 then post
                    else firstn (Z.to_nat (find [LF; LF] post)) post)).
Proof.
  split; intros H; unfold contains in H.
  - apply Z.leb_gt in H. unfold Cot._extract_thought.
    replace (find Cot.THOUGHT_MARK text + 3 <? 3) with true
      by (symmetry; apply Z.ltb_lt; lia).
    reflexivity.
  - apply Z.leb_le in H. rewrite find_eq in H.
    destruct (find_aux_split Cot.THOUGHT_MARK text 0) as (pre & post & E1 & E2);
      [lia | lia |].
    exists pre, post. split; [exact E1|]. rewrite find_eq.
    split; [lia|].
    assert (L : len Cot.THOUGHT_MARK = 3) by reflexivity.
    pose proof (len_nonneg pre) as Npre. pose proof (len_nonneg post) as Npost.
    assert (Lt : len text = len pre + 3 + len post)
      by (rewrite E1, !len_app; lia).
    assert (Sk : skipn (Z.to_nat (len pre + 3)) text = post).
    { replace (len pre + 3) with (len (pre ++ Cot.THOUGHT_MARK))
        by (rewrite len_app; lia).
      rewrite E1 at 1. rewrite app_assoc. apply skipn_len_app. }
    unfold Cot._extract_thought. rewrite find_eq, E2.
    replace (0 + len pre + 3) with (len pre + 3) by lia.
    replace (len pre + 3 <? 3) with false by (symmetry; apply Z.ltb_ge; lia).
    rewrite find_from_eq by lia. rewrite Sk, find_aux_shift.
    rewrite find_eq.
    destruct (find_aux_range [LF; LF] post 0) as [F|[F1 F2]]; [lia | |].
    + rewrite F. change (-1 =? -1) with true. cbv iota.
      change (-1 <? 0) with true. cbv iota.
      rewrite slice_eq by lia. rewrite Sk. f_equal.
      apply firstn_all2. unfold len in *. lia.
    + replace (find_aux [LF; LF] post 0 =? -1) with false
        by (symmetry; apply Z.eqb_neq; lia).
      replace (len pre + 3 + find_aux [LF; LF] post 0 <? 0) with false
        by (symmetry; apply Z.ltb_ge; lia).
      replace (find_aux [LF; LF] post 0 <? 0) with false
        by (symmetry; apply Z.ltb_ge; lia).
      assert (F3 : len [LF; LF] = 2) by reflexivity.
      rewrite slice_eq by lia. rewrite Sk. f_equal. f_equal. lia.
Qed.

(** What the extractors hand back is trimmed: stripping it again changes
    nothing, and it neither starts nor ends with a blank. *)
Theorem extracted_text_is_trimmed (text : pystr) :
  strip (Cot._extract_thought text) = Cot._extract_thought text
  /\ (forall a, Cot._extract_final_answer text = Some a ->
        strip a = a
        /\ (forall c t, a = c :: t -> isspace c = false)
        /\ (forall t c, a = t ++ [c] -> isspace c = false)).
Proof.
  split.
  - unfold Cot._extract_thought.
    destruct (_ <? 3); [reflexivity | apply strip_idem].
  - intros a H. unfold Cot._extract_final_answer in H.
    destruct (negb _); [discriminate|]. injection H as <-.
    split; [apply strip_idem | split; intros x y E].
    + eapply strip_no_leading_blank; exact E.
    + eapply strip_no_trailing_blank; exact E.
Qed.

End Extraction.

(** ** Whole runs of the free-text loop *)

Section CotRun.
Context {R : PyRuntime}.
Variable client : nat -> list Cot.message -> outcome pystr.
Variable tools : list Cot.BaseTool.

(** A round returns an answer only if the completion carried one. *)
Lemma run_round_some (s : Cot.run_state) (a : pystr) :
  fst (Cot.run_round client tools s) = Returned (Some a) ->
  Cot._extract_final_answer (Cot.round_response client s) = Some a
  /\ truthy a = true.
Proof.
  intros H. pose proof (run_round_frame client tools s) as F.
  destruct (Cot.run_round client tools s) as [o s']. cbn [fst] in H. subst o.
  destruct F as (_ & _ & [(a' & E & _ & Ea & Ta)|(N & _)]).
  - injection E as <-. split; assumption.
  - exfalso. eapply N. reflexivity.
Qed.

Lemma run_loop_calls (n : nat) (s : Cot.run_state) :
  let s' := snd (Cot.run_loop client tools n s) in
  (Cot.llm_calls s <= Cot.llm_calls s' <= Cot.llm_calls s + n)%nat
  /\ (0 < n -> Cot.llm_calls s < Cot.llm_calls s')%nat.
Proof.
  cbv zeta. revert s; induction n as [|n IH]; intros s; cbn [Cot.run_loop].
  - unfold ret. cbn. lia.
  - unfold bind. pose proof (run_round_frame client tools s) as F.
    destruct (Cot.run_round client tools s) as [[[a|]|e|b] s1];
      destruct F as (_ & C & _); cbn [snd];
      try (unfold ret; cbn; lia).
    specialize (IH s1). lia.
Qed.

(** A run sends at least one request and at most five, also when it
    raises. *)
Theorem cot_request_budget (st : Cot.AgentState) (query : pystr) :
  (1 <= Cot.llm_calls (snd (Cot.run client tools st query)) <= 5)%nat.
Proof.
  unfold Cot.run.
  pose proof (run_loop_calls Cot.max_iterations (Cot.start tools st query)) as H.
  cbv zeta in H. unfold Cot.max_iterations in *. cbn [Cot.start Cot.llm_calls] in H.
  lia.
Qed.

Lemma run_loop_returns (n : nat) (s : Cot.run_state) (a : pystr) :
  fst (Cot.run_loop client tools n s) = Returned a ->
  a = Cot.EXHAUSTED
  \/ (truthy a = true /\ strip a = a
      /\ Cot.final_answer (Cot.agent_state (snd (Cot.run_loop client tools n s)))
         = Some a).
Proof.
  revert s; induction n as [|n IH]; intros s; cbn [Cot.run_loop].
  - unfold ret. cbn. intros H; injection H as <-. left; reflexivity.
  - unfold bind. pose proof (run_round_frame client tools s) as F.
    pose proof (run_round_some s) as S.
    destruct (Cot.run_round client tools s) as [[[x|]|e|b] s1]; cbn [fst snd] in *.
    + unfold ret. cbn. intros H; injection H as <-. right.
      destruct (S x eq_refl) as (Ex & Tx).
      destruct (extracted_text_is_trimmed (Cot.round_response client s))
        as (_ & Tr).
      destruct (Tr x Ex) as (Ts & _).
      destruct F as (_ & _ & [(x' & E' & Fa & _)|(N & _)]).
      * injection E' as <-. repeat split; assumption.
      * exfalso; eapply N; reflexivity.
    + apply IH.
    + discriminate.
    + discriminate.
Qed.

(** What [run] returns is the exhaustion message or a final answer:
    a text that is not empty, is trimmed, and is the answer now stored in
    the state. *)
Theorem run_returns_answer_or_exhaustion
    (st : Cot.AgentState) (query a : pystr) :
  fst (Cot.run client tools st query) = Returned a ->
  a = Cot.EXHAUSTED
  \/ (truthy a = true /\ strip a = a
      /\ Cot.final_answer (Cot.agent_state (snd (Cot.run client tools st query)))
         = Some a).
Proof. apply run_loop_returns. Qed.

End CotRun.

(** ** The log and the state go together *)

Section Log.
Context {R : PyRuntime}.
Variable client : nat -> list Cot.message -> outcome pystr.
Variable tools : list Cot.BaseTool.

Lemma logged_same (s s' : Cot.run_state) :
  Cot.messages s' = Cot.messages s ->
  Cot.observations (Cot.agent_state s') = Cot.observations (Cot.agent_state s) ->
  Cot.actions (Cot.agent_state s') = Cot.actions (Cot.agent_state s) ->
  logged s s'.
Proof.
  intros M O A. exists [], [], []. cbn [flat_map map List.length].
  rewrite !app_nil_r. repeat split; auto.
Qed.

Lemma logged_trans (s1 s2 s3 : Cot.run_state) :
  logged s1 s2 -> logged s2 s3 -> logged s1 s3.
Proof.
  intros (xs & obs & acts & M & O & C & A & L)
         (xs' & obs' & acts' & M' & O' & C' & A' & L').
  exists (xs ++ xs'), (obs ++ obs'), (acts ++ acts').
  rewrite M', M, O', O, A', A, flat_map_app, !map_app, C, C', !length_app.
  rewrite <- !app_assoc. repeat split; try reflexivity. lia.
Qed.

(** The action step appends nothing, or an action alone when its tool
    raises, or an action, its observation and the exchange. *)
Lemma run_action_logged (response : pystr) (s : Cot.run_state) :
  logged s (snd (Cot.run_action tools response s)).
Proof.
  unfold Cot.run_action, bind, lift, modify, ret.
  destruct (Cot._extract_action response) as [j|e|b]; cbn [snd];
    try (apply logged_same; reflexivity).
  destruct (negb (json_truthy j)); cbn [snd];
    [apply logged_same; reflexivity|].
  destruct (as_dict j) as [d|e|b]; cbn [snd];
    try (apply logged_same; reflexivity).
  destruct (Cot.Action_new _ _) as [a|e|b]; cbn [snd];
    try (apply logged_same; reflexivity).
  destruct (Cot._run_tool _ _ _) as [obs|e|b]; cbn [snd].
  - destruct (Cot.ToolCall_new _ _) as [tc|e|b]; cbn [snd].
    + exists [(response, obs)],
             [ {| Cot.content := obs; Cot.tool_calls := Some [tc] |} ], [a].
      cbn. rewrite <- app_assoc. repeat split; try reflexivity; lia.
    + exists [], [], [a]. cbn. rewrite !app_nil_r.
      repeat split; try reflexivity; lia.
    + exists [], [], [a]. cbn. rewrite !app_nil_r.
      repeat split; try reflexivity; lia.
  - exists [], [], [a]. cbn. rewrite !app_nil_r.
    repeat split; try reflexivity; lia.
  - exists [], [], [a]. cbn. rewrite !app_nil_r.
    repeat split; try reflexivity; lia.
Qed.

Lemma entered_logged (s : Cot.run_state) : logged s (Cot.entered client s).
Proof.
  apply logged_same; unfold Cot.entered, Cot.note_thought;
    destruct (truthy _); reflexivity.
Qed.

Lemma run_round_logged (s : Cot.run_state) :
  logged s (snd (Cot.run_round client tools s)).
Proof.
  destruct (round_response_cases client s) as [Hr|(b & Hb & _)];
    [|rewrite (run_round_escaped client tools s b Hb);
      apply logged_same; reflexivity].
  destruct (Cot.answer_given
              (Cot._extract_final_answer (Cot.round_response client s))) eqn:E.
  - destruct (Cot._extract_final_answer _) as [a|] eqn:Ea; [|discriminate].
    simpl in E. rewrite (run_round_answer client tools s a Ea E). cbn [snd].
    eapply logged_trans; [apply entered_logged|].
    apply logged_same; reflexivity.
  - rewrite (run_round_no_answer client tools s Hr E).
    pose proof (run_action_logged (Cot.round_response client s)
                  (Cot.entered client s)) as H.
    destruct (Cot.run_action _ _ _) as [[[]|e|b] s']; cbn [snd] in *;
      (eapply logged_trans; [apply entered_logged | exact H]).
Qed.

Lemma run_loop_logged (n : nat) (s : Cot.run_state) :
  logged s (snd (Cot.run_loop client tools n s)).
Proof.
  revert s; induction n as [|n IH]; intros s; cbn [Cot.run_loop].
  - apply logged_same; reflexivity.
  - unfold bind. pose proof (run_round_logged s) as H.
    destruct (Cot.run_round client tools s) as [[[a|]|e|b] s1]; cbn [snd] in *.
    + exact H.
    + eapply logged_trans; [exact H | apply IH].
    + exact H.
    + exact H.
Qed.

(** After a run, however it ended, the log is the prompt, the query and
    then whole exchanges: an assistant message with a completion followed
    by a user message with an observation. There is one exchange per
    observation the run added to the state, in the same order and with the
    same text, and the run recorded at least as many actions. *)
Theorem log_matches_state (st : Cot.AgentState) (query : pystr) :
  let s' := snd (Cot.run client tools st query) in
  exists (xs : list (pystr * pystr)) (obs : list Cot.Observation)
         (acts : list Cot.Action),
    Cot.messages s'
    = [ Cot.system_msg (Cot._get_system_prompt tools); Cot.user_msg query ]
      ++ flat_map exchange xs
    /\ Cot.observations (Cot.agent_state s') = Cot.observations st ++ obs
    /\ map Cot.content obs = map snd xs
    /\ Cot.actions (Cot.agent_state s') = Cot.actions st ++ acts
    /\ (List.length xs <= List.length acts)%nat.
Proof. cbv zeta. unfold Cot.run. apply run_loop_logged. Qed.

End Log.

(** ** Dispatch to a configured tool *)

Section DispatchMore.
Context {R : PyRuntime}.

(** The first tool of the list that bears the name is the one that
    runs; a later tool of the same name never does. *)
Theorem dispatch_runs_first_match
    (pre post : list Cot.BaseTool) (t : Cot.BaseTool)
    (pre' post' : list Fc.Tool) (t' : Fc.Tool) (args : json) :
  (forall x, In x pre -> Cot.name x <> Cot.name t) ->
  (forall x, In x pre' -> Fc.name x <> Fc.name t') ->
  Cot._run_tool (pre ++ t :: post) (JStr (Cot.name t)) args
    = call_kwargs (lit "run") (Cot.run_method t) args
  /\ Fc._execute_tool (pre' ++ t' :: post') (JStr (Fc.name t')) args
    = call_kwargs (lit "execute") (Fc.execute_method t') args.
Proof.
  intros H H'. split.
  - induction pre as [|x pre IH]; cbn [app Cot._run_tool].
    + cbn [eq_str]. rewrite eqb_refl. reflexivity.
    + rewrite eq_str_neq by (apply H; left; reflexivity).
      apply IH. intros y Hy. apply H. right; exact Hy.
  - induction pre' as [|x pre' IH]; cbn [app Fc._execute_tool].
    + cbn [eq_str]. rewrite eqb_refl. reflexivity.
    + rewrite eq_str_neq by (apply H'; left; reflexivity).
      apply IH. intros y Hy. apply H'. right; exact Hy.
Qed.

(** An agent built without tools, or with an empty list of tools, has
    the two built-in ones, and its search tool answers any query it is
    given, string or not, with the fixed sentence around that query. *)
Theorem search_always_answers (q : json) :
  Cot.tools_or_default (Some []) = Cot.tools_or_default None
  /\ Fc.tools_or_default (Some []) = Fc.tools_or_default None
  /\ Cot._run_tool (Cot.tools_or_default None) (JStr (lit "search"))
       (JObj [ (lit "query", q) ])
     = Returned (lit "这是关于'" ++ py_str q
                 ++ lit "'的搜索结果。在实际应用中，这里会返回真实的搜索结果。")
  /\ Fc._execute_tool (Fc.tools_or_default None) (JStr (lit "search"))
       (JObj [ (lit "query", q) ])
     = Returned (lit "这是关于'" ++ py_str q
                 ++ lit "'的搜索结果。在实际应用中，这里会返回真实的搜索结果。").
Proof.
  split; [reflexivity | split; [reflexivity | split]].
  - cbn [Cot.tools_or_default Cot._run_tool].
    change (eq_str (Cot.name Cot.CalculatorTool) (JStr (lit "search")))
      with false.
    change (eq_str (Cot.name Cot.SearchTool) (JStr (lit "search"))) with true.
    cbv iota. unfold Cot.run_tool_method, call_kwargs.
    cbn [Cot.SearchTool Cot.run_method]. unfold Cot.SearchTool_run.
    rewrite bind1_single. reflexivity.
  - cbn [Fc.tools_or_default Fc._execute_tool].
    change (eq_str (Fc.name Fc.CalculatorTool) (JStr (lit "search")))
      with false.
    change (eq_str (Fc.name Fc.SearchTool) (JStr (lit "search"))) with true.
    cbv iota. unfold call_kwargs.
    cbn [Fc.SearchTool Fc.execute_method]. unfold Fc.SearchTool_execute.
    rewrite bind1_single. reflexivity.
Qed.

(** Keywords that are not exactly the parameter of a method make the
    call raise [TypeError]: a keyword too many, or the parameter left
    out. *)
Lemma bind1_mismatch (fname param : pystr) (d : kwargs) :
  (exists k v, In (k, v) d /\ k <> param) \/ lookup param d = None ->
  exists m, bind1 fname param d = Raised (Exn TypeError m).
Proof.
  intros H. unfold bind1.
  destruct (List.find _ d) as [[k v]|] eqn:F.
  - destruct (PyStr.eqb k (lit "self")); eexists; reflexivity.
  - destruct H as [(k & v & Hin & Hk)|H].
    + exfalso. apply (find_none _ _ F) in Hin. cbn in Hin.
      rewrite eqb_neq in Hin by exact Hk. discriminate.
    + rewrite H. eexists; reflexivity.
Qed.

(** The calculator given arguments other than exactly [expression]: the
    dispatch function of either variant raises [TypeError]. *)
Theorem calculator_wrong_keywords (d : kwargs) :
  (exists k v, In (k, v) d /\ k <> lit "expression")
  \/ lookup (lit "expression") d = None ->
  (exists m,
     Cot._run_tool (Cot.tools_or_default None) (JStr (lit "calculator")) (JObj d)
     = Raised (Exn TypeError m))
  /\ (exists m,
        Fc._execute_tool (Fc.tools_or_default None) (JStr (lit "calculator"))
          (JObj d)
        = Raised (Exn TypeError m)).
Proof.
  intros H. split.
  - destruct (bind1_mismatch (lit "CalculatorTool.run") _ d H) as [m E].
    exists m. cbn [Cot.tools_or_default Cot._run_tool].
    change (eq_str (Cot.name Cot.CalculatorTool) (JStr (lit "calculator")))
      with true.
    cbv iota. unfold Cot.run_tool_method, call_kwargs.
    cbn [Cot.CalculatorTool Cot.run_method]. unfold Cot.CalculatorTool_run.
    rewrite E. reflexivity.
  - destruct (bind1_mismatch (lit "CalculatorTool.execute") _ d H) as [m E].
    exists m. cbn [Fc.tools_or_default Fc._execute_tool].
    change (eq_str (Fc.name Fc.CalculatorTool) (JStr (lit "calculator")))
      with true.
    cbv iota. unfold call_kwargs.
    cbn [Fc.CalculatorTool Fc.execute_method]. unfold Fc.CalculatorTool_execute.
    rewrite E. reflexivity.
Qed.

(** The calculator given something that is not a string: [eval] refuses
    it, the failure is caught, and the call returns the error string. *)
Theorem calculator_non_string (x : json) :
  (forall e, x <> JStr e) ->
  Cot.CalculatorTool_run [ (lit "expression", x) ]
    = Returned (lit "计算错误: eval() arg 1 must be a string, bytes or code object")
  /\ Fc.CalculatorTool_execute [ (lit "expression", x) ]
    = Returned (lit "计算错误: eval() arg 1 must be a string, bytes or code object").
Proof.
  intros H. unfold Cot.CalculatorTool_run, Fc.CalculatorTool_execute.
  rewrite !bind1_single. cbn [obind].
  destruct x as [| b | z | nz t | e | l | l];
    try (exfalso; apply (H e); reflexivity);
    cbn [eval_obj obind try_except exn_msg]; split; vm_compute; reflexivity.
Qed.

End DispatchMore.

(** ** Rounds that go wrong *)

Section RoundsGoneWrong.
Context {R : PyRuntime}.
Variable tools : list Cot.BaseTool.

(** A block that parses to a value which is true and is not an object (a
    non-empty list or string, a number other than zero, [true]): the
    round asks it for [get], and the [AttributeError] leaves the round and
    the run; nothing was appended. *)
Theorem non_object_action_raises
    (client : nat -> list Cot.message -> outcome pystr)
    (s : Cot.run_state) (j : json) :
  Cot.answer_given
    (Cot._extract_final_answer (Cot.round_response client s)) = false ->
  Cot._extract_action (Cot.round_response client s) = Returned j ->
  json_truthy j = true ->
  (forall d, j <> JObj d) ->
  Cot.run_round client tools s
  = (Raised (Exn AttributeError
       (lit "'" ++ type_name j ++ lit "' object has no attribute 'get'")),
     Cot.entered client s).
Proof.
  intros Hn Hj Ht Ho.
  rewrite run_round_no_answer
    by (try exact Hn; exact (responded_of_action client s j Hj Ht)).
  unfold Cot.run_action, bind, lift. rewrite Hj, Ht. cbn [negb].
  destruct j; try reflexivity. exfalso. eapply Ho. reflexivity.
Qed.

(** A model that cannot be reached does not stop the run. Each failed
    request is turned into a text that stands for the completion; when
    that text holds neither the marker of the final answer nor an opening
    fence, the run sends its five requests, appends nothing to the log and
    returns the exhaustion message. *)
Theorem failed_requests_exhaust_budget
    (e : exn) (st : Cot.AgentState) (query : pystr) :
  let text := lit "调用语言模型时出错: " ++ exn_msg e in
  contains Cot.ANSWER_MARK text = false ->
  contains Cot.FENCE_OPEN text = false ->
  let r := Cot.run (fun _ _ => Raised e) tools st query in
  fst r = Returned Cot.EXHAUSTED
  /\ Cot.llm_calls (snd r) = 5%nat
  /\ Cot.messages (snd r)
     = [ Cot.system_msg (Cot._get_system_prompt tools); Cot.user_msg query ].
Proof.
  cbv zeta. intros Ha Hf.
  set (client := fun (_ : nat) (_ : list Cot.message) => @Raised pystr e).
  assert (Hr : forall s, Cot.run_round client tools s
                         = (Returned None, Cot.entered client s)).
  { intros s.
    assert (Hresp : Cot.response_text client (Cot.llm_calls s) (Cot.messages s)
                    = Returned (lit "调用语言模型时出错: " ++ exn_msg e)).
    { unfold Cot.response_text, client. cbn [try_except]. reflexivity. }
    assert (Htext : Cot.round_response client s
                    = lit "调用语言模型时出错: " ++ exn_msg e).
    { unfold Cot.round_response. rewrite Hresp. reflexivity. }
    rewrite run_round_no_answer; [| rewrite Htext; exact Hresp |].
    - rewrite (run_action_none tools _ JNull); [reflexivity | | reflexivity].
      rewrite Htext.
      unfold Cot._extract_action. unfold contains in Hf. apply Z.leb_gt in Hf.
      replace (find Cot.FENCE_OPEN (lit "调用语言模型时出错: " ++ exn_msg e) + 8 <? 8)
        with true by (symmetry; apply Z.ltb_lt; lia).
      reflexivity.
    - rewrite Htext.
      rewrite extract_final_answer_absent by exact Ha. reflexivity. }
  destruct (run_exhausts_budget client tools st query) as (H1 & H2).
  { intros s. rewrite Hr. reflexivity. }
  split; [exact H1 | split; [exact H2|]].
  unfold Cot.run.
  assert (M : forall n s, Cot.messages (snd (Cot.run_loop client tools n s))
                          = Cot.messages s).
  { induction n as [|n IH]; intros s; cbn [Cot.run_loop]; [reflexivity|].
    unfold bind. rewrite Hr. rewrite IH.
    unfold Cot.entered, Cot.note_thought. destruct (truthy _); reflexivity. }
  rewrite M. reflexivity.
Qed.

End RoundsGoneWrong.

(** ** The system prompt *)

Section Prompt.

Lemma join_in (sep x : pystr) (l : list pystr) :
  In x l -> exists a b, join sep l = a ++ x ++ b.
Proof.
  induction l as [|p l IH]; intros H; [contradiction|].
  destruct H as [->|H].
  - destruct l as [|q l].
    + exists [], []. simpl. rewrite app_nil_r. reflexivity.
    + exists [], (sep ++ join sep (q :: l)). reflexivity.
  - destruct (IH H) as (a & b & E). destruct l as [|q l]; [contradiction|].
    exists (p ++ sep ++ a), b.
    change (join sep (p :: q :: l)) with (p ++ sep ++ join sep (q :: l)).
    rewrite E, <- !app_assoc. reflexivity.
Qed.

Lemma contains_inside (pat a x b : pystr) :
  (exists u v, x = u ++ pat ++ v) -> contains pat (a ++ x ++ b) = true.
Proof.
  intros (u & v & ->).
  replace (a ++ (u ++ pat ++ v) ++ b) with ((a ++ u) ++ pat ++ (v ++ b))
    by (rewrite <- !app_assoc; reflexivity).
  apply contains_app.
Qed.

(** The prompt of either variant names every configured tool: it holds
    the line made of the name and the description of each of them. *)
Theorem system_prompt_lists_tools :
  (forall (tools : list Cot.BaseTool) (t : Cot.BaseTool),
     In t tools ->
     contains (lit "- " ++ Cot.name t ++ lit ": " ++ Cot.description t)
              (Cot._get_system_prompt tools) = true)
  /\ (forall (tools : list Fc.Tool) (t : Fc.Tool),
        In t tools ->
        contains (lit "- " ++ Fc.name t ++ lit ": " ++ Fc.description t)
                 (Fc._get_system_prompt tools) = true).
Proof.
  split; intros tools t H.
  - unfold Cot._get_system_prompt.
    match goal with
    | |- contains ?pat (join ?sep ?lines) = true =>
        destruct (join_in sep
                    (Cot.indent ++ join [LF]
                       (map (fun t => lit "- " ++ Cot.name t ++ lit ": "
                                      ++ Cot.description t) tools))
                    lines) as (a & b & E)
    end.
    { cbn [In]. do 8 right. left. reflexivity. }
    rewrite E. apply contains_inside.
    destruct (join_in [LF] (lit "- " ++ Cot.name t ++ lit ": " ++ Cot.description t)
                (map (fun t => lit "- " ++ Cot.name t ++ lit ": "
                               ++ Cot.description t) tools))
      as (u & v & E').
    { apply (in_map (fun t => lit "- " ++ Cot.name t ++ lit ": "
                              ++ Cot.description t)). exact H. }
    exists (Cot.indent ++ u), v. rewrite E', <- !app_assoc. reflexivity.
  - unfold Fc._get_system_prompt.
    match goal with
    | |- contains ?pat (join ?sep ?lines) = true =>
        destruct (join_in sep
                    (Fc.indent ++ join [LF]
                       (map (fun t => lit "- " ++ Fc.name t ++ lit ": "
                                      ++ Fc.description t) tools))
                    lines) as (a & b & E)
    end.
    { cbn [In]. do 2 right. left. reflexivity. }
    rewrite E. apply contains_inside.
    destruct (join_in [LF] (lit "- " ++ Fc.name t ++ lit ": " ++ Fc.description t)
                (map (fun t => lit "- " ++ Fc.name t ++ lit ": "
                               ++ Fc.description t) tools))
      as (u & v & E').
    { apply (in_map (fun t => lit "- " ++ Fc.name t ++ lit ": "
                              ++ Fc.description t)). exact H. }
    exists (Fc.indent ++ u), v. rewrite E', <- !app_assoc. reflexivity.
Qed.

End Prompt.

(** ** Whole runs of the structured loop *)

Section FcRun.
Context {R : PyRuntime}.
Variable client : nat -> list Fc.hist_msg -> list json -> outcome (list Fc.delta).
Variable tools : list Fc.Tool.


Lemma process_chunk_text (content : pystr) (l : list Fc.tool_call)
    (d : Fc.delta) (s : Fc.fc_state) o s' :
  Fc.process_chunk (content, l) d s = (o, s') ->
  Fc.conversation_history s' = Fc.conversation_history s
  /\ Fc.api_calls s' = Fc.api_calls s
  /\ Fc.yielded s' = Fc.yielded s ++ FcSpec.texts [d]
  /\ forall c' l', o = Returned (c', l') ->
                   c' = content ++ List.concat (FcSpec.texts [d]).
Proof.
  unfold Fc.process_chunk, FcSpec.texts, bind, ret, lift, Fc.yield, modify.
  cbn [flat_map]. rewrite app_nil_r.
  destruct (Fc.d_content d) as [[|c t]|];
    destruct (Fc.d_tool_calls d) as [[|x xs]|];
    try destruct (Fc.collect_tool_calls l (x :: xs));
    intros E; injection E as <- <-;
    cbn; rewrite ?app_nil_r; repeat split; try reflexivity;
    intros c' l' E; try discriminate; injection E as <- <-; reflexivity.
Qed.

Lemma texts_cons (d : Fc.delta) (rest : list Fc.delta) :
  FcSpec.texts (d :: rest) = FcSpec.texts [d] ++ FcSpec.texts rest.
Proof. unfold FcSpec.texts. cbn [flat_map]. rewrite app_nil_r. reflexivity. Qed.

Lemma process_stream_text (response : list Fc.delta) :
  forall content l s o s',
    Fc.process_stream (content, l) response s = (o, s') ->
    Fc.conversation_history s' = Fc.conversation_history s
    /\ Fc.api_calls s' = Fc.api_calls s
    /\ forall c' l', o = Returned (c', l') ->
         Fc.yielded s' = Fc.yielded s ++ FcSpec.texts response
         /\ c' = content ++ List.concat (FcSpec.texts response).
Proof.
  induction response as [|d rest IH]; intros content l s o s' H.
  - cbn in H. injection H as <- <-. cbn. rewrite !app_nil_r.
    repeat split; try reflexivity; injection H as <- <-; reflexivity.
  - cbn [Fc.process_stream] in H. unfold bind in H.
    destruct (Fc.process_chunk (content, l) d s) as [[[c1 l1]|e|b] s1] eqn:Ec.
    + destruct (process_chunk_text _ _ _ _ _ _ Ec) as (P1 & P2 & P3 & P4).
      destruct (IH c1 l1 s1 o s' H) as (I1 & I2 & I3).
      split; [congruence | split; [congruence|]].
      intros c' l' E. destruct (I3 c' l' E) as (Y & C).
      rewrite texts_cons, concat_app, Y, P3, C, (P4 c1 l1 eq_refl).
      rewrite <- !app_assoc. split; reflexivity.
    + destruct (process_chunk_text _ _ _ _ _ _ Ec) as (P1 & P2 & _).
      injection H as <- <-.
      split; [exact P1 | split; [exact P2|]]. intros c' l' E; discriminate.
    + destruct (process_chunk_text _ _ _ _ _ _ Ec) as (P1 & P2 & _).
      injection H as <- <-.
      split; [exact P1 | split; [exact P2|]]. intros c' l' E; discriminate.
Qed.

(** The text of a round is what was handed to the caller: the fragments
    yielded while the stream was read are the non-empty text fragments of
    the response, in order, and the text of the round is their
    concatenation. Reading the stream touches neither the history nor the
    count of requests. *)
Theorem stream_text_is_what_was_yielded
    (response : list Fc.delta) (s s' : Fc.fc_state)
    (content : pystr) (calls : list Fc.tool_call) :
  Fc.process_stream ([], []) response s = (Returned (content, calls), s') ->
  Fc.yielded s' = Fc.yielded s ++ FcSpec.texts response
  /\ content = List.concat (FcSpec.texts response)
  /\ Fc.conversation_history s' = Fc.conversation_history s
  /\ Fc.api_calls s' = Fc.api_calls s.
Proof.
  intros H.
  destruct (process_stream_text response [] [] s _ _ H) as (P1 & P2 & P3).
  destruct (P3 content calls eq_refl) as (Y & C).
  repeat split; assumption.
Qed.

End FcRun.

Section FcLoop.
Context {R : PyRuntime}.
Variable client : nat -> list Fc.hist_msg -> list json -> outcome (list Fc.delta).
Variable tools : list Fc.Tool.

(** Steps 3 to 5 of a round append to the history and, when they end
    the run, the last message is the answer. *)
Lemma finish_round_frame (content : pystr) (calls : list Fc.tool_call)
    (s : Fc.fc_state) o s' :
  Fc.finish_round tools (content, calls) s = (o, s') ->
  Fc.api_calls s' = Fc.api_calls s
  /\ (exists suffix,
        Fc.conversation_history s' = Fc.conversation_history s ++ suffix)
  /\ forall text, o = Returned (Some text) ->
       truthy text = true
       /\ Fc.conversation_history s'
          = Fc.conversation_history s ++ [Fc.Msg (lit "assistant") text].
Proof.
  unfold Fc.finish_round, bind, modify, ret, lift.
  destruct calls as [|c calls].
  - destruct (truthy content) eqn:T; intros E; injection E as <- <-; cbn.
    + split; [reflexivity|]. split; [eexists; reflexivity|].
      intros text E; injection E as <-. split; [exact T | reflexivity].
    + split; [reflexivity|]. split; [exists []; symmetry; apply app_nil_r|].
      intros text E; discriminate.
  - destruct (Fc._process_tool_calls tools (c :: calls)) as [rs|e|b];
      destruct (truthy content); cbv beta iota;
      intros H; injection H as <- <-; cbn;
      (split; [reflexivity|]);
      (split; [rewrite <- ?app_assoc; eexists; reflexivity|]);
      intros text H; discriminate.
Qed.

Lemma fc_run_round_frame (s : Fc.fc_state) o s' :
  Fc.run_round client tools s = (o, s') ->
  Fc.api_calls s' = S (Fc.api_calls s)
  /\ (exists suffix,
        Fc.conversation_history s' = Fc.conversation_history s ++ suffix)
  /\ forall text, o = Returned (Some text) ->
       truthy text = true
       /\ Fc.conversation_history s'
          = Fc.conversation_history s ++ [Fc.Msg (lit "assistant") text].
Proof.
  unfold Fc.run_round, bind, Fc.create_stream.
  destruct (client _ _ _) as [response|e|b].
  - destruct (Fc.process_stream ([], []) response (Fc.count_call s))
      as [[[content calls]|e|b] s1] eqn:Ep;
      destruct (process_stream_text _ _ _ _ _ _ Ep) as (P1 & P2 & _).
    + intros Ef.
      destruct (finish_round_frame _ _ _ _ _ Ef) as (F1 & (suffix & F2) & F4).
      split; [rewrite F1, P2; reflexivity|].
      split; [exists suffix; rewrite F2, P1; reflexivity|].
      intros text E. destruct (F4 text E) as (T & H).
      split; [exact T | rewrite H, P1; reflexivity].
    + intros E; injection E as <- <-.
      split; [rewrite P2; reflexivity|].
      split; [exists []; rewrite P1, app_nil_r; reflexivity|].
      intros text E; discriminate.
    + intros E; injection E as <- <-.
      split; [rewrite P2; reflexivity|].
      split; [exists []; rewrite P1, app_nil_r; reflexivity|].
      intros text E; discriminate.
  - intros E; injection E as <- <-.
    split; [reflexivity|].
    split; [exists []; cbn; rewrite app_nil_r; reflexivity|].
    intros text E; discriminate.
  - intros E; injection E as <- <-.
    split; [reflexivity|].
    split; [exists []; cbn; rewrite app_nil_r; reflexivity|].
    intros text E; discriminate.
Qed.

Lemma fc_run_loop_frame (n : nat) :
  forall s o s',
  Fc.run_loop client tools n s = (o, s') ->
  (Fc.api_calls s <= Fc.api_calls s' <= Fc.api_calls s + n)%nat
  /\ (0 < n -> Fc.api_calls s < Fc.api_calls s')%nat
  /\ (o = Returned Fc.BudgetExhausted ->
      Fc.api_calls s' = (Fc.api_calls s + n)%nat)
  /\ (exists suffix,
        Fc.conversation_history s' = Fc.conversation_history s ++ suffix)
  /\ forall text, o = Returned (Fc.Answered text) ->
       truthy text = true
       /\ exists mid,
            Fc.conversation_history s'
            = Fc.conversation_history s ++ mid
              ++ [Fc.Msg (lit "assistant") text].
Proof.
  induction n as [|n IH]; intros s o s'; cbn [Fc.run_loop].
  - unfold ret. intros E; injection E as <- <-.
    split; [lia|]. split; [lia|]. split; [intros _; lia|].
    split; [exists []; symmetry; apply app_nil_r|].
    intros text E; discriminate.
  - unfold bind.
    destruct (Fc.run_round client tools s) as [[[text|]|e|b] s1] eqn:Er;
      destruct (fc_run_round_frame _ _ _ Er) as (C & (suf & H) & A).
    + unfold ret. intros E; injection E as <- <-.
      split; [lia|]. split; [lia|].
      split; [intros E; discriminate|].
      split; [exists suf; exact H|].
      intros text' E; injection E as <-.
      destruct (A text eq_refl) as (T & H').
      split; [exact T | exists []; exact H'].
    + intros El.
      destruct (IH _ _ _ El) as (I1 & I2 & I3 & (suf' & I4) & I5).
      split; [lia|]. split; [lia|].
      split; [intros E; rewrite (I3 E); lia|].
      split; [exists (suf ++ suf'); rewrite I4, H, app_assoc; reflexivity|].
      intros text E. destruct (I5 text E) as (T & mid & M).
      split; [exact T|]. exists (suf ++ mid).
      rewrite M, H, <- !app_assoc. reflexivity.
    + intros E; injection E as <- <-.
      split; [lia|]. split; [lia|]. split; [intros E; discriminate|].
      split; [exists suf; exact H|]. intros text E; discriminate.
    + intros E; injection E as <- <-.
      split; [lia|]. split; [lia|]. split; [intros E; discriminate|].
      split; [exists suf; exact H|]. intros text E; discriminate.
Qed.

(** A structured run sends at least one request and at most five, also
    when it raises, and exactly five when it ends for want of rounds. *)
Theorem fc_request_budget (query : pystr) :
  let r := Fc.run client tools query in
  (1 <= Fc.api_calls (snd r) <= 5)%nat
  /\ (fst r = Returned Fc.BudgetExhausted -> Fc.api_calls (snd r) = 5%nat).
Proof.
  cbv zeta. unfold Fc.run.
  destruct (Fc.run_loop client tools _ _) as [o s'] eqn:E.
  destruct (fc_run_loop_frame _ _ _ _ E) as (F1 & F2 & F3 & _).
  unfold Fc.max_iterations in *. cbn [Fc.start Fc.api_calls fst snd] in *.
  split; [lia | exact F3].
Qed.

(** The history of a structured run starts with the prompt and the
    query, and messages are only ever appended to it. When the run ends
    with an answer, the answer is not empty and is the last message of the
    history, as an assistant message. *)
Theorem fc_history_ends_with_answer (query : pystr) :
  let r := Fc.run client tools query in
  (exists suffix,
     Fc.conversation_history (snd r)
     = [ Fc.Msg (lit "system") (Fc._get_system_prompt tools);
         Fc.Msg (lit "user") query ] ++ suffix)
  /\ forall text, fst r = Returned (Fc.Answered text) ->
       truthy text = true
       /\ exists mid,
            Fc.conversation_history (snd r)
            = [ Fc.Msg (lit "system") (Fc._get_system_prompt tools);
                Fc.Msg (lit "user") query ]
              ++ mid ++ [Fc.Msg (lit "assistant") text].
Proof.
  cbv zeta. unfold Fc.run.
  destruct (Fc.run_loop client tools _ _) as [o s'] eqn:E.
  destruct (fc_run_loop_frame _ _ _ _ E) as (_ & _ & _ & F4 & F5).
  cbn [Fc.start Fc.conversation_history fst snd] in *.
  split; [exact F4 | exact F5].
Qed.

End FcLoop.

(* ================================================================= *)
(** * The further properties on sample inputs *)

(** The thought of a completion that has none, and of one that has
    one. *)
Lemma extract_thought_cases_witness :
  contains Cot.THOUGHT_MARK Sample.chatter = false
  /\ Cot._extract_thought Sample.chatter = []
  /\ contains Cot.THOUGHT_MARK Sample.search_only = true
  /\ exists pre post,
       Sample.search_only = pre ++ Cot.THOUGHT_MARK ++ post
       /\ find Cot.THOUGHT_MARK Sample.search_only = len pre
       /\ Cot._extract_thought Sample.search_only
          = strip (if find [LF; LF] post <? 0 then post
                   else firstn (Z.to_nat (find [LF; LF] post)) post).
Proof.
  assert (H1 : contains Cot.THOUGHT_MARK Sample.chatter = false)
    by (vm_compute; reflexivity).
  assert (H2 : contains Cot.THOUGHT_MARK Sample.search_only = true)
    by (vm_compute; reflexivity).
  split; [exact H1 | split].
  - exact (proj1 (extract_thought_cases Sample.chatter) H1).
  - split; [exact H2|].
    exact (proj2 (extract_thought_cases Sample.search_only) H2).
Defined.

Example extract_thought_search_only :
  Cot._extract_thought Sample.search_only = lit "需要搜索".
Proof. vm_compute. reflexivity. Qed.

(** The final answer of a completion that pads it with blanks. *)
Lemma extracted_text_is_trimmed_witness :
  Cot._extract_final_answer Sample.answer_and_action = Some (lit "850")
  /\ strip (lit "850") = lit "850".
Proof.
  assert (H : Cot._extract_final_answer Sample.answer_and_action
              = Some (lit "850")) by (vm_compute; reflexivity).
  split; [exact H|].
  exact (proj1 (proj2 (extracted_text_is_trimmed Sample.answer_and_action)
                  (lit "850") H)).
Defined.

(** A run that ends with an answer. *)
Lemma run_returns_answer_or_exhaustion_witness :
  fst (@Cot.run Ref.runtime (Sample.always Sample.answer_and_action)
         Ref.cot_tools Cot.AgentState_new Sample.query)
  = Returned (lit "850")
  /\ (lit "850" = Cot.EXHAUSTED
      \/ (truthy (lit "850") = true /\ strip (lit "850") = lit "850"
          /\ Cot.final_answer
               (Cot.agent_state
                  (snd (@Cot.run Ref.runtime
                          (Sample.always Sample.answer_and_action)
                          Ref.cot_tools Cot.AgentState_new Sample.query)))
             = Some (lit "850"))).
Proof.
  assert (H : fst (@Cot.run Ref.runtime (Sample.always Sample.answer_and_action)
                     Ref.cot_tools Cot.AgentState_new Sample.query)
              = Returned (lit "850")) by (vm_compute; reflexivity).
  split; [exact H|].
  exact (@run_returns_answer_or_exhaustion Ref.runtime
           (Sample.always Sample.answer_and_action) Ref.cot_tools
           Cot.AgentState_new Sample.query (lit "850") H).
Defined.

(** The search tool behind the calculator. *)
Lemma dispatch_runs_first_match_witness :
  (forall x, In x [@Cot.CalculatorTool Ref.runtime]
             -> Cot.name x <> Cot.name (@Cot.SearchTool Ref.runtime))
  /\ (forall x, In x [@Fc.CalculatorTool Ref.runtime]
                -> Fc.name x <> Fc.name (@Fc.SearchTool Ref.runtime))
  /\ @Cot._run_tool Ref.runtime
       ([@Cot.CalculatorTool Ref.runtime] ++ @Cot.SearchTool Ref.runtime :: [])
       (JStr (Cot.name (@Cot.SearchTool Ref.runtime)))
       (JObj [ (lit "query", JStr (lit "x")) ])
     = call_kwargs (lit "run") (Cot.run_method (@Cot.SearchTool Ref.runtime))
         (JObj [ (lit "query", JStr (lit "x")) ])
  /\ @Fc._execute_tool Ref.runtime
       ([@Fc.CalculatorTool Ref.runtime] ++ @Fc.SearchTool Ref.runtime :: [])
       (JStr (Fc.name (@Fc.SearchTool Ref.runtime)))
       (JObj [ (lit "query", JStr (lit "x")) ])
     = call_kwargs (lit "execute")
         (Fc.execute_method (@Fc.SearchTool Ref.runtime))
         (JObj [ (lit "query", JStr (lit "x")) ]).
Proof.
  assert (H1 : forall x, In x [@Cot.CalculatorTool Ref.runtime]
                 -> Cot.name x <> Cot.name (@Cot.SearchTool Ref.runtime)).
  { intros x [<-|[]]. vm_compute. discriminate. }
  assert (H2 : forall x, In x [@Fc.CalculatorTool Ref.runtime]
                 -> Fc.name x <> Fc.name (@Fc.SearchTool Ref.runtime)).
  { intros x [<-|[]]. vm_compute. discriminate. }
  split; [exact H1 | split; [exact H2|]].
  exact (@dispatch_runs_first_match Ref.runtime
           [Cot.CalculatorTool] [] Cot.SearchTool
           [Fc.CalculatorTool] [] Fc.SearchTool
           (JObj [ (lit "query", JStr (lit "x")) ]) H1 H2).
Defined.

(** The calculator called with [expr]. *)
Lemma calculator_wrong_keywords_witness :
  (exists k v, In (k, v) [ (lit "expr", JStr (lit "1+1")) ]
               /\ k <> lit "expression")
  /\ exists m,
       @Cot._run_tool Ref.runtime (@Cot.tools_or_default Ref.runtime None)
         (JStr (lit "calculator")) (JObj [ (lit "expr", JStr (lit "1+1")) ])
       = Raised (Exn TypeError m).
Proof.
  assert (H : exists k v, In (k, v) [ (lit "expr", JStr (lit "1+1")) ]
                          /\ k <> lit "expression").
  { exists (lit "expr"), (JStr (lit "1+1")). split; [left; reflexivity|].
    vm_compute. discriminate. }
  split; [exact H|].
  exact (proj1 (@calculator_wrong_keywords Ref.runtime
                  [ (lit "expr", JStr (lit "1+1")) ] (or_introl H))).
Defined.

(** The calculator given a number. *)
Lemma calculator_non_string_witness :
  (forall e, JInt 5 <> JStr e)
  /\ @Cot.CalculatorTool_run Ref.runtime [ (lit "expression", JInt 5) ]
     = Returned (lit "计算错误: eval() arg 1 must be a string, bytes or code object").
Proof.
  assert (H : forall e, JInt 5 <> JStr e) by (intros e; discriminate).
  split; [exact H|].
  exact (proj1 (@calculator_non_string Ref.runtime (JInt 5) H)).
Defined.

(** A block that holds a list. *)
Lemma non_object_action_raises_witness :
  @Cot._extract_action Ref.runtime Sample.list_block = Returned (JArr [JInt 1])
  /\ @Cot.run_round Ref.runtime (Sample.always Sample.list_block)
       Ref.cot_tools Sample.fresh
     = (Raised (Exn AttributeError
          (lit "'" ++ type_name (JArr [JInt 1])
               ++ lit "' object has no attribute 'get'")),
        Cot.entered (Sample.always Sample.list_block) Sample.fresh).
Proof.
  assert (H : @Cot._extract_action Ref.runtime Sample.list_block
              = Returned (JArr [JInt 1])) by (vm_compute; reflexivity).
  split; [exact H|].
  refine (@non_object_action_raises Ref.runtime Ref.cot_tools
            (Sample.always Sample.list_block) Sample.fresh (JArr [JInt 1])
            _ H eq_refl _).
  - vm_compute. reflexivity.
  - intros d. discriminate.
Defined.

(** A model that times out on every request. *)
Lemma failed_requests_exhaust_budget_witness :
  contains Cot.ANSWER_MARK
    (lit "调用语言模型时出错: " ++ exn_msg Sample.timeout) = false
  /\ fst (@Cot.run Ref.runtime (fun _ _ => Raised Sample.timeout)
            Ref.cot_tools Cot.AgentState_new Sample.query)
     = Returned Cot.EXHAUSTED
  /\ Cot.llm_calls
       (snd (@Cot.run Ref.runtime (fun _ _ => Raised Sample.timeout)
               Ref.cot_tools Cot.AgentState_new Sample.query)) = 5%nat.
Proof.
  assert (H1 : contains Cot.ANSWER_MARK
                 (lit "调用语言模型时出错: " ++ exn_msg Sample.timeout) = false)
    by (vm_compute; reflexivity).
  assert (H2 : contains Cot.FENCE_OPEN
                 (lit "调用语言模型时出错: " ++ exn_msg Sample.timeout) = false)
    by (vm_compute; reflexivity).
  split; [exact H1|].
  destruct (@failed_requests_exhaust_budget Ref.runtime Ref.cot_tools
              Sample.timeout Cot.AgentState_new Sample.query H1 H2)
    as (R1 & R2 & _).
  split; [exact R1 | exact R2].
Defined.

(** The prompt of an agent with the built-in tools names the search
    tool. *)
Lemma system_prompt_lists_tools_witness :
  In (@Cot.SearchTool Ref.runtime) Ref.cot_tools
  /\ contains (lit "- " ++ Cot.name (@Cot.SearchTool Ref.runtime) ++ lit ": "
               ++ Cot.description (@Cot.SearchTool Ref.runtime))
              (Cot._get_system_prompt Ref.cot_tools) = true.
Proof.
  assert (H : In (@Cot.SearchTool Ref.runtime) Ref.cot_tools)
    by (right; left; reflexivity).
  split; [exact H|].
  exact (proj1 system_prompt_lists_tools Ref.cot_tools Cot.SearchTool H).
Defined.

(** An answer streamed in two fragments. *)
Lemma stream_text_is_what_was_yielded_witness :
  Fc.process_stream ([], []) Stream.answer (Fc.start Ref.fc_tools Sample.query)
  = (Returned (lit "答案是 6。", []),
     snd (Fc.process_stream ([], []) Stream.answer
            (Fc.start Ref.fc_tools Sample.query)))
  /\ Fc.yielded (snd (Fc.process_stream ([], []) Stream.answer
                        (Fc.start Ref.fc_tools Sample.query)))
     = Fc.yielded (Fc.start Ref.fc_tools Sample.query)
       ++ FcSpec.texts Stream.answer
  /\ lit "答案是 6。" = List.concat (FcSpec.texts Stream.answer).
Proof.
  assert (H : Fc.process_stream ([], []) Stream.answer
                (Fc.start Ref.fc_tools Sample.query)
              = (Returned (lit "答案是 6。", []),
                 snd (Fc.process_stream ([], []) Stream.answer
                        (Fc.start Ref.fc_tools Sample.query))))
    by (vm_compute; reflexivity).
  split; [exact H|].
  destruct (stream_text_is_what_was_yielded _ _ _ _ _ H) as (Y & C & _).
  split; [exact Y | exact C].
Defined.

(** A model that streams nothing, and one that calls the calculator and
    then answers. *)
Lemma fc_request_budget_witness :
  fst (@Fc.run Ref.runtime (Stream.serve [] []) Ref.fc_tools Sample.query)
  = Returned Fc.BudgetExhausted
  /\ Fc.api_calls
       (snd (@Fc.run Ref.runtime (Stream.serve [] []) Ref.fc_tools Sample.query))
     = 5%nat.
Proof.
  assert (H : fst (@Fc.run Ref.runtime (Stream.serve [] []) Ref.fc_tools
                     Sample.query) = Returned Fc.BudgetExhausted)
    by (vm_compute; reflexivity).
  split; [exact H|].
  exact (proj2 (@fc_request_budget Ref.runtime (Stream.serve [] [])
                  Ref.fc_tools Sample.query) H).
Defined.

Lemma fc_history_ends_with_answer_witness :
  fst (@Fc.run Ref.runtime (Stream.serve Stream.text_and_call Stream.answer)
         Ref.fc_tools Sample.query)
  = Returned (Fc.Answered (lit "答案是 6。"))
  /\ truthy (lit "答案是 6。") = true
  /\ exists mid,
       Fc.conversation_history
         (snd (@Fc.run Ref.runtime
                 (Stream.serve Stream.text_and_call Stream.answer)
                 Ref.fc_tools Sample.query))
       = [ Fc.Msg (lit "system") (Fc._get_system_prompt Ref.fc_tools);
           Fc.Msg (lit "user") Sample.query ]
         ++ mid ++ [Fc.Msg (lit "assistant") (lit "答案是 6。")].
Proof.
  assert (H : fst (@Fc.run Ref.runtime
                     (Stream.serve Stream.text_and_call Stream.answer)
                     Ref.fc_tools Sample.query)
              = Returned (Fc.Answered (lit "答案是 6。")))
    by (vm_compute; reflexivity).
  split; [exact H|].
  exact (proj2 (@fc_history_ends_with_answer Ref.runtime
                  (Stream.serve Stream.text_and_call Stream.answer)
                  Ref.fc_tools Sample.query) (lit "答案是 6。") H).
Defined.
